(** * Ultimate-Compressor: the compression pipeline of [src/compressor.py]

    A shallow embedding of [ImageProcessor] (tool runner, opacity check,
    encoders, quality search, [process_file]) over an explicit world:
    a file system, the error log, the status line, the list of external
    commands that were run and the index of the next random name.
    Python exceptions are values of [exn]; a computation either raises or
    returns, and always hands back the world it reached. *)

From Stdlib Require Import ZArith Lia Bool List Ascii String.
From Stdlib.Strings Require Import Byte.
From stdpp Require Import base option list gmap strings pretty.

Open Scope string_scope.
Open Scope Z_scope.

(** ** Exceptions *)

(** The subclasses of [Exception] the code distinguishes or raises itself;
    every other one is [OtherError] with its [str(e)].  Exceptions outside
    [Exception] ([KeyboardInterrupt], [SystemExit]) are not part of the
    model. *)
Inductive exn : Type :=
  | FileNotFoundError (msg : string)
  | SameFileError (msg : string)
  | KeyError (key : string)
  | ValueError (msg : string)
  | OtherError (msg : string).

(** [str(e)], as the f-strings of the source print it. *)
Definition exn_str (e : exn) : string :=
  match e with
  | FileNotFoundError m => m
  | SameFileError m => m
  | KeyError k => "'" ++ k ++ "'"
  | ValueError m => m
  | OtherError m => m
  end.

(** ** Computations: state and exceptions *)

Definition M (S A : Type) : Type := S -> (exn + A) * S.

Definition ret {S A} (x : A) : M S A := fun s => (inr x, s).

Definition raise {S A} (e : exn) : M S A := fun s => (inl e, s).

Definition bind {S A B} (m : M S A) (k : A -> M S B) : M S B :=
  fun s => match m s with
           | (inr a, s') => k a s'
           | (inl e, s') => (inl e, s')
           end.

Declare Scope comp_scope.
Delimit Scope comp_scope with comp.
Notation "x <- c ;; k" := (bind c (fun x => k))
  (at level 100, c at next level, right associativity) : comp_scope.
Notation "c ;;; k" := (bind c (fun _ => k))
  (at level 100, right associativity) : comp_scope.
Open Scope comp_scope.

(** [try: body  except Exception as e: handler e]. *)
Definition try_except {S A} (body : M S A) (handler : exn -> M S A) : M S A :=
  fun s => match body s with
           | (inl e, s') => handler e s'
           | (inr a, s') => (inr a, s')
           end.

(** [try: body  finally: fin].  The finalizer runs on both exits; an
    exception of the finalizer replaces the outcome of the body. *)
Definition try_finally {S A} (body : M S A) (fin : M S unit) : M S A :=
  fun s => match body s with
           | (r, s') => match fin s' with
                        | (inr _, s'') => (r, s'')
                        | (inl e, s'') => (inl e, s'')
                        end
           end.

(** [for x in l: f x], stopping at the first exception. *)
Fixpoint for_each {S A} (l : list A) (f : A -> M S unit) : M S unit :=
  match l with
  | [] => ret tt
  | x :: l' => f x ;;; for_each l' f
  end.

(** ** The world *)

Abbreviation bytes := (list Byte.byte).
Abbreviation filesystem := (gmap string bytes).

Record world : Type := World {
  fs : filesystem;               (* path -> content of every file *)
  error_log : list string;       (* messages passed to log_error *)
  warnings : list string;        (* messagebox.showwarning texts *)
  status_line : list string;     (* messages given to the status callback *)
  commands : list (list string); (* argv of every subprocess.run, in order *)
  entropy : nat                  (* index of the next random name *)
}.

Definition set_fs (f : filesystem -> filesystem) (w : world) : world :=
  World (f (fs w)) (error_log w) (warnings w) (status_line w) (commands w) (entropy w).

(** ** Images, as the Pillow calls of the source see them *)

Record image : Type := Image {
  img_mode : string;                 (* img.mode *)
  img_info_transparency : bool;      (* 'transparency' in img.info *)
  img_bands : list string;           (* img.getbands() *)
  img_alpha : exn + list Z;          (* img.getchannel('A').getdata(); loading may raise *)
  img_pixels : bytes                 (* the decoded raster *)
}.

Record save_options : Type := SaveOptions {
  so_quality : option Z;
  so_format : option string;
  so_sizes : list (Z * Z)
}.

Definition no_options : save_options := SaveOptions None None [].

(** ** External processes *)

Inductive completed : Type :=
  | Completed (returncode : Z) (stdout stderr : bytes)  (* the process ran *)
  | LaunchError (e : exn).                               (* subprocess.run raised *)

(** ** The platform: library and operating-system primitives

    What the source gets from [os.path], [str], [tempfile], [uuid],
    [subprocess] and Pillow.  The development holds for every platform.
    [os_path_isdir] tells the directories of the machine: the code never
    creates or removes one. *)
Class Platform : Type := {
  path_basename : string -> string;
  path_splitext : string -> string * string;
  path_dirname : string -> string;
  path_join : string -> string -> string;
  os_path_isdir : string -> bool;
  str_lower : string -> string;
  decode_utf8 : bytes -> string;
  gettempdir : string;
  base_path : string;
  random_name : nat -> string;
  subprocess_run : list string -> filesystem -> completed * filesystem;
  pil_open : bytes -> exn + image;
  pil_resize : image -> Z -> Z -> exn + image;
  pil_convert : image -> string -> exn + image;
  pil_save : image -> string -> save_options -> exn * option bytes + bytes
}.

(** ** String constants *)

Module STRINGS.
Definition status_resized (w h : Z) : string :=
  "Resized to " ++ pretty w ++ "x" ++ pretty h.
Definition status_finding_quality (size : Z) : string :=
  "Finding best quality for < " ++ pretty size ++ " KB...".
Definition status_already_optimized : string := "Already Optimized".
Definition error_title : string := "Error".
Definition unsupported_type : string := "Unsupported file type".
Definition overwrite_format_error : string :=
  "Cannot overwrite file when changing its format.".
Definition keep_original_format : string := "Keep Original".
Definition original_folder : string := "Original Folder".
End STRINGS.

(** ** String helpers of Python's [str] *)

(** [s.replace('.', '')] *)
Fixpoint remove_dots (s : string) : string :=
  match s with
  | EmptyString => EmptyString
  | String c s' => if Ascii.eqb c "."%char then remove_dots s' else String c (remove_dots s')
  end.

Fixpoint lstrip_dots (s : string) : string :=
  match s with
  | String "."%char s' => lstrip_dots s'
  | _ => s
  end.

(** [s.strip('.')] *)
Definition strip_dots (s : string) : string :=
  String.rev (lstrip_dots (String.rev (lstrip_dots s))).

Definition is_space (c : ascii) : bool :=
  let n := nat_of_ascii c in
  ((9 <=? n) && (n <=? 13) || (28 <=? n) && (n <=? 32))%nat.

Fixpoint lstrip (s : string) : string :=
  match s with
  | String c s' => if is_space c then lstrip s' else s
  | EmptyString => EmptyString
  end.

(** [s.strip()] *)
Definition strip (s : string) : string :=
  String.rev (lstrip (String.rev (lstrip s))).

(** [s.encode('ascii')] succeeds. *)
Fixpoint is_ascii (s : string) : bool :=
  match s with
  | EmptyString => true
  | String c s' => (nat_of_ascii c <? 128)%nat && is_ascii s'
  end.

(** Truthiness of a string: [x or y]. *)
Definition str_or (a b : string) : string :=
  if String.eqb a "" then b else a.

(** ** Operating-system and library calls on the world *)

Section Compressor.
Context `{Platform}.

Definition log_error (message : string) : M world unit :=
  fun w => (inr tt, World (fs w) (error_log w ++ [message]) (warnings w)
                          (status_line w) (commands w) (entropy w)).

Definition showwarning (title message : string) : M world unit :=
  fun w => (inr tt, World (fs w) (error_log w) (warnings w ++ [message])
                          (status_line w) (commands w) (entropy w)).

(** [self._update_status(message)] *)
Definition _update_status (message : string) : M world unit :=
  fun w => (inr tt, World (fs w) (error_log w) (warnings w)
                          (status_line w ++ [message]) (commands w) (entropy w)).

(** The next random name ([uuid.uuid4().hex], or the random part of a
    temporary file's name). *)
Definition fresh_name : M world string :=
  fun w => (inr (random_name (entropy w)),
            World (fs w) (error_log w) (warnings w) (status_line w)
                  (commands w) (Datatypes.S (entropy w))).

Definition os_path_exists (p : string) : M world bool :=
  fun w => (inr (bool_decide (is_Some (fs w !! p))), w).

(** [os.path.getsize(p)] *)
Definition os_path_getsize (p : string) : M world Z :=
  fun w => match fs w !! p with
           | Some c => (inr (Z.of_nat (length c)), w)
           | None => (inl (FileNotFoundError p), w)
           end.

(** [os.remove(p)] *)
Definition os_remove (p : string) : M world unit :=
  fun w => match fs w !! p with
           | Some _ => (inr tt, set_fs (delete p) w)
           | None => (inl (FileNotFoundError p), w)
           end.

(** [if os.path.exists(p): os.remove(p)] *)
Definition remove_if_exists (p : string) : M world unit :=
  ex <- os_path_exists p ;;
  if ex then os_remove p else ret tt.

(** The longest name the file system gives to a file. *)
Definition NAME_MAX : nat := 255.

(** A file can be created at [p]: its directory exists (the current one
    when [p] names none) and its name is within the limit. *)
Definition creatable (p : string) : bool :=
  (String.eqb (path_dirname p) "" || os_path_isdir (path_dirname p))
  && (String.length (path_basename p) <=? NAME_MAX)%nat.

(** [with tempfile.NamedTemporaryFile(suffix=..., delete=False) as t: name = t.name]:
    an empty file with a random name in the temporary directory.  The
    name is "tmp", eight random characters and the suffix; with a suffix
    of more than 244 characters it is over the limit, and the [open] of
    the candidate raises [OSError]. *)
Definition NamedTemporaryFile (suffix : string) : M world string :=
  r <- fresh_name ;;
  let name := path_join gettempdir ("tmp" ++ r ++ suffix) in
  if (NAME_MAX - 11 <? String.length suffix)%nat
  then raise (OtherError ("[Errno 36] File name too long: '" ++ name ++ "'"))
  else fun w => (inr name, set_fs (insert name []) w).

(** [shutil.copy2(src, dst)], for a destination at which a file can be
    created. *)
Definition shutil_copy2 (src dst : string) : M world unit :=
  fun w => match fs w !! src with
           | None => (inl (FileNotFoundError src), w)
           | Some c =>
               if String.eqb src dst then (inl (SameFileError src), w)
               else (inr tt, set_fs (insert dst c) w)
           end.

(** [shutil.move(src, dst)]: the file goes into [dst] when that is a
    directory, under its own name, which must be free there; otherwise it
    becomes [dst], replacing what is there.  The destination must be a
    path at which a file can be created. *)
Definition shutil_move (src dst : string) : M world unit :=
  fun w => match fs w !! src with
           | None => (inl (FileNotFoundError src), w)
           | Some c =>
               let real_dst :=
                 if os_path_isdir dst then path_join dst (path_basename src) else dst in
               if os_path_isdir dst && bool_decide (is_Some (fs w !! real_dst))
               then (inl (OtherError ("Destination path '" ++ real_dst ++ "' already exists")), w)
               else if negb (creatable real_dst)
               then (inl (FileNotFoundError real_dst), w)
               else (inr tt, set_fs (fun f => <[real_dst := c]> (delete src f)) w)
           end.

(** [subprocess.run(command, check=False, capture_output=True, ...)] *)
Definition run (command : list string) : M world completed :=
  fun w => let '(r, f) := subprocess_run command (fs w) in
           (inr r, World f (error_log w) (warnings w) (status_line w)
                         (commands w ++ [command]) (entropy w)).

(** [Image.open(path)] *)
Definition Image_open (path : string) : M world image :=
  fun w => match fs w !! path with
           | None => (inl (FileNotFoundError path), w)
           | Some c => match pil_open c with
                       | inl e => (inl e, w)
                       | inr img => (inr img, w)
                       end
           end.

(** [img.save(path, **options)].  The library opens the file before it
    encodes: a save that raises leaves what had been written by then, or
    nothing when it raised before opening the file or removed the file
    again. *)
Definition Image_save (img : image) (path : string) (o : save_options) : M world unit :=
  fun w => match pil_save img path o with
           | inl (e, None) => (inl e, w)
           | inl (e, Some c) => (inl e, set_fs (insert path c) w)
           | inr c => (inr tt, set_fs (insert path c) w)
           end.

Definition lift_result {A} (r : exn + A) : M world A :=
  fun w => (r, w).

(** ** Helper and core logic *)

Definition get_resource_path (relative_path : string) : string :=
  path_join base_path relative_path.

Definition get_tool_path (tool_name : string) : M world (option string) :=
  let path := get_resource_path (path_join "tools" tool_name) in
  ex <- os_path_exists path ;;
  if negb ex then
    log_error ("Tool not found at expected path: " ++ path) ;;;
    showwarning STRINGS.error_title (tool_name ++ " not found. This feature will be disabled.") ;;;
    ret None
  else ret (Some path).

(** The outcome of one tool or encoder call: [(is_success, message)]. *)
Definition outcome : Type := bool * string.

Definition _run_tool (command : list string) : M world outcome :=
  let tool_name := path_basename (hd "" command) in
  result <- run command ;;
  match result with
  | Completed returncode stdout stderr =>
      if String.eqb tool_name "pngquant.exe" && ((returncode =? 98) || (returncode =? 99))
      then ret (true, "Already Optimized")
      else if negb (returncode =? 0) then
        let stderr_msg := match stderr with [] => "" | _ => strip (decode_utf8 stderr) end in
        let stdout_msg := match stdout with [] => "" | _ => strip (decode_utf8 stdout) end in
        let error_output := str_or stderr_msg (str_or stdout_msg "No output from tool.") in
        let full_error_msg :=
          "Error from " ++ tool_name ++ " (code " ++ pretty returncode ++ "):" ++
          String "010"%char error_output in
        log_error full_error_msg ;;;
        ret (false, full_error_msg)
      else ret (true, "Success")
  | LaunchError (FileNotFoundError _) =>
      log_error ("Tool not found: " ++ tool_name) ;;;
      ret (false, "Tool not found: " ++ tool_name)
  | LaunchError e =>
      log_error ("An unexpected error occurred while running tool: " ++ exn_str e) ;;;
      ret (false, exn_str e)
  end.

(** [any(pixel < 255 for pixel in data)] *)
Definition any_below_255 (data : list Z) : bool :=
  existsb (fun pixel => pixel <? 255) data.

(** The body of the [try] of [is_png_fully_opaque]. *)
Definition opacity_check (file_path : string) : M world bool :=
  img <- Image_open file_path ;;
  if String.eqb (img_mode img) "P" && img_info_transparency img then ret false
  else if bool_decide ("A" ∈ img_bands img) then
    data <- lift_result (img_alpha img) ;;
    ret (negb (any_below_255 data))
  else ret true.

Definition is_png_fully_opaque (file_path : string) : M world bool :=
  try_except
    (opacity_check file_path)
    (fun e =>
       log_error ("Could not check transparency for " ++ path_basename file_path ++ ": " ++ exn_str e) ;;;
       ret false).

Definition compress_jpeg (in_path out_path : string) (quality : Z) : M world outcome :=
  cjpeg_path <- get_tool_path "cjpeg.exe" ;;
  match cjpeg_path with
  | None => ret (false, "cjpeg.exe not found.")
  | Some cjpeg_path =>
      _run_tool [cjpeg_path; "-quality"; pretty quality; "-progressive"; "-outfile"; out_path; in_path]
  end.

Definition compress_webp (in_path out_path : string) (quality : Z) : M world outcome :=
  cwebp_path <- get_tool_path "cwebp.exe" ;;
  match cwebp_path with
  | None => ret (false, "cwebp.exe not found.")
  | Some cwebp_path =>
      _run_tool [cwebp_path; "-q"; pretty quality; in_path; "-o"; out_path]
  end.

(** *** Quality search *)

(** The three variables of the loop of [find_best_quality]. *)
Record search_state : Type := SearchState {
  low : Z;
  high : Z;
  best_quality : Z
}.

Definition initial_search : search_state := SearchState 1 100 (-1).

(** An encoder as [find_best_quality] receives it:
    [compress_func(in_path, out_path, quality)]. *)
Definition encoder : Type := string -> string -> Z -> M world outcome.

(** One pass through the body of the [for] loop, after the [break] test. *)
Definition probe (in_path : string) (target_bytes : Z) (compress_func : encoder)
    (st : search_state) : M world search_state :=
  let q := (low st + high st) `div` 2 in
  temp_out_name <- NamedTemporaryFile ".tmp" ;;
  try_finally
    (r <- compress_func in_path temp_out_name q ;;
     let is_success := fst r in
     ex <- os_path_exists temp_out_name ;;
     if is_success && ex then
       size <- os_path_getsize temp_out_name ;;
       if size <=? target_bytes
       then ret (SearchState (q + 1) (high st) q)
       else ret (SearchState (low st) (q - 1) (best_quality st))
     else ret (SearchState (low st) (q - 1) (best_quality st)))
    (remove_if_exists temp_out_name).

(** [for _ in range(n): if low > high: break; ...] *)
Fixpoint search (n : nat) (in_path : string) (target_bytes : Z)
    (compress_func : encoder) (st : search_state) : M world search_state :=
  match n with
  | O => ret st
  | Datatypes.S n' =>
      if high st <? low st then ret st
      else st' <- probe in_path target_bytes compress_func st ;;
           search n' in_path target_bytes compress_func st'
  end.

Definition find_best_quality (in_path : string) (target_kb : Z)
    (compress_func : encoder) : M world Z :=
  _update_status (STRINGS.status_finding_quality target_kb) ;;;
  let target_bytes := target_kb * 1024 in
  st <- search 8 in_path target_bytes compress_func initial_search ;;
  ret (if negb (best_quality st =? -1) then best_quality st else 1).

(** *** PNG: quantizer, then the optional further pass *)

Definition compress_png (in_path out_path quality_range : string) (use_zopfli : bool)
    : M world outcome :=
  pngquant_path <- get_tool_path "pngquant.exe" ;;
  zopflipng_path <- get_tool_path "zopflipng.exe" ;;
  match pngquant_path, zopflipng_path with
  | Some pngquant_path, Some _ =>
      let temp_path :=
        if negb use_zopfli then out_path
        else path_join gettempdir ("quant_" ++ path_basename out_path) in
      try_finally
        (let p_command := [pngquant_path; "--force"; "--strip"; "--quality"; quality_range;
                           "--speed=1"; "--output"; temp_path; in_path] in
         q <- _run_tool p_command ;;
         let '(quant_success, quant_msg) := q in
         if negb quant_success then ret (false, quant_msg)
         else if String.eqb quant_msg "Already Optimized" then
           if negb use_zopfli then
             shutil_copy2 in_path out_path ;;;
             ret (true, quant_msg)
           else
             zopflipng_path <- get_tool_path "zopflipng.exe" ;;
             match zopflipng_path with
             | None => ret (false, "zopflipng.exe not found.")
             | Some zopflipng_path =>
                 _run_tool [zopflipng_path; "-y"; "--iterations=15"; in_path; out_path]
             end
         else if use_zopfli then
           zopflipng_path <- get_tool_path "zopflipng.exe" ;;
           match zopflipng_path with
           | None => ret (false, "zopflipng.exe not found.")
           | Some zopflipng_path =>
               _run_tool [zopflipng_path; "-y"; "--iterations=15"; temp_path; out_path]
           end
         else ret (true, "Success"))
        (if use_zopfli then remove_if_exists temp_path else ret tt)
  | _, _ => ret (false, "PNG tools (pngquant/zopflipng) not found.")
  end.

(** *** Staging *)

(** The [logging.info] call after the copy leaves no trace in the world. *)
Definition _safe_copy_for_processing (file_path : string) : M world (string * option string) :=
  if is_ascii file_path then ret (file_path, None)
  else
    let ext := snd (path_splitext file_path) in
    u <- fresh_name ;;
    let safe_path := path_join gettempdir ("temp_" ++ u ++ ext) in
    shutil_copy2 file_path safe_path ;;;
    ret (safe_path, Some safe_path).

Definition is_jpeg (target_format : string) : bool :=
  String.eqb target_format "jpeg" || String.eqb target_format "jpg".

Definition _convert_image (source_path target_format : string) : M world string :=
  u <- fresh_name ;;
  let temp_converted_path := path_join gettempdir ("converted_" ++ u ++ "." ++ target_format) in
  img <- Image_open source_path ;;
  (if is_jpeg target_format then
     img' <- (if String.eqb (img_mode img) "RGBA"
              then lift_result (pil_convert img "RGB") else ret img) ;;
     Image_save img' temp_converted_path (SaveOptions (Some 98) None [])
   else if String.eqb target_format "png" then
     img' <- (if negb (String.eqb (img_mode img) "RGBA")
              then lift_result (pil_convert img "RGBA") else ret img) ;;
     Image_save img' temp_converted_path no_options
   else Image_save img temp_converted_path no_options) ;;;
  ret temp_converted_path.

(** *** The options dictionary

    One field per key the pipeline reads; [None] is an absent key. *)
Record options : Type := Options {
  opt_overwrite : option bool;
  opt_format : option string;
  opt_auto_convert_png : option bool;
  opt_output_dir : option string;
  opt_suffix : option string;
  opt_resize_enabled : option bool;
  opt_width : option Z;
  opt_height : option Z;
  opt_quality : option Z;
  opt_mode : option string;
  opt_target_size : option Z;
  opt_max_png : option bool
}.

(** [options[key]] *)
Definition getitem {S A} (key : string) (v : option A) : M S A :=
  match v with
  | Some x => ret x
  | None => raise (KeyError key)
  end.

(** *** [process_file] *)

(** The names bound before the [try] of [process_file]. *)
Record naming : Type := Naming {
  original_basename : string;
  file_name : string;
  file_ext_orig : string;
  should_overwrite : bool;
  target_format : string;
  is_converting_format : bool
}.

(** Lines 181-185: the names as the options alone give them. *)
Definition requested_naming (file_path : string) (o : options) : naming :=
  let original_basename := path_basename file_path in
  let '(file_name, file_ext_orig) := path_splitext original_basename in
  let should_overwrite := default false (opt_overwrite o) in
  let target_format_str := default STRINGS.keep_original_format (opt_format o) in
  let is_converting_format := negb (String.eqb target_format_str STRINGS.keep_original_format) in
  let target_format :=
    if is_converting_format then str_lower target_format_str
    else remove_dots (str_lower file_ext_orig) in
  Naming original_basename file_name file_ext_orig should_overwrite
         target_format is_converting_format.

(** Lines 186-187: an opaque PNG is sent to JPEG. *)
Definition derive_target (file_path : string) (o : options) : M world naming :=
  let nm := requested_naming file_path o in
  if default false (opt_auto_convert_png o)
     && String.eqb (str_lower (file_ext_orig nm)) ".png"
     && negb (is_converting_format nm)
  then
    opaque <- is_png_fully_opaque file_path ;;
    if opaque
    then ret (Naming (original_basename nm) (file_name nm) (file_ext_orig nm)
                     (should_overwrite nm) "jpeg" true)
    else ret nm
  else ret nm.

(** Lines 190-192. *)
Definition final_output_path (file_path : string) (o : options) (nm : naming) : string :=
  if should_overwrite nm then file_path
  else
    path_join
      (if bool_decide (opt_output_dir o <> Some STRINGS.original_folder)
       then default (path_dirname file_path) (opt_output_dir o)
       else path_dirname file_path)
      (file_name nm ++ default "-tiny" (opt_suffix o) ++ "." ++ target_format nm).

(** The body of the [try] runs on the world and the local list
    [temp_files], which the [finally] clause reads. *)
Definition frame : Type := world * list string.

Definition lift {A} (m : M world A) : M frame A :=
  fun s => let '(r, w') := m (fst s) in (r, (w', snd s)).

(** [temp_files.append(p)], [temp_files = temp_files + [p]] *)
Definition track (p : string) : M frame unit :=
  fun s => (inr tt, (fst s, (snd s ++ [p])%list)).

Fixpoint remove_first (x : string) (l : list string) : option (list string) :=
  match l with
  | [] => None
  | y :: l' => if String.eqb x y then Some l'
               else option_map (cons y) (remove_first x l')
  end.

(** [temp_files.remove(p)] *)
Definition untrack (p : string) : M frame unit :=
  fun s => match remove_first p (snd s) with
           | Some l => (inr tt, (fst s, l))
           | None => (inl (ValueError "list.remove(x): x not in list"), s)
           end.

Definition already_optimized_message (original_basename : string) : string :=
  "'" ++ original_basename ++ "' is already optimized.".

(** Lines 210-227: the encoder for the target format; [None] is the
    [return False, STRINGS["unsupported_type"]] of the last branch. *)
Definition dispatch (o : options) (nm : naming) (current_path temp_output_path : string)
    : M world (option outcome) :=
  let quality := default 75 (opt_quality o) in
  if is_jpeg (target_format nm) then
    quality <- (if bool_decide (opt_mode o = Some "size")
                then target_size <- getitem "target_size" (opt_target_size o) ;;
                     find_best_quality current_path target_size compress_jpeg
                else ret quality) ;;
    r <- compress_jpeg current_path temp_output_path quality ;;
    let '(is_success, message) := r in
    ret (Some (is_success,
               if is_success
               then "'" ++ original_basename nm ++ "' -> JPEG, quality " ++ pretty quality ++ "."
               else message))
  else if String.eqb (target_format nm) "png" then
    let quality_range :=
      if quality >? 10 then pretty (quality - 10) ++ "-" ++ pretty quality
      else "0-" ++ pretty quality in
    let use_zopfli := default false (opt_max_png o) in
    r <- compress_png current_path temp_output_path quality_range use_zopfli ;;
    let '(is_success, message) := r in
    ret (Some (is_success,
               if is_success && String.eqb message "Already Optimized"
               then already_optimized_message (original_basename nm)
               else if is_success
               then "'" ++ original_basename nm ++ "' compressed to PNG."
               else message))
  else if String.eqb (target_format nm) "webp" then
    quality <- (if bool_decide (opt_mode o = Some "size")
                then target_size <- getitem "target_size" (opt_target_size o) ;;
                     find_best_quality current_path target_size compress_webp
                else ret quality) ;;
    r <- compress_webp current_path temp_output_path quality ;;
    let '(is_success, message) := r in
    ret (Some (is_success,
               if is_success
               then "'" ++ original_basename nm ++ "' -> WEBP, quality " ++ pretty quality ++ "."
               else message))
  else if String.eqb (target_format nm) "ico" then
    img <- Image_open current_path ;;
    Image_save img temp_output_path (SaveOptions None (Some "ICO") [(32, 32); (48, 48); (64, 64)]) ;;;
    ret (Some (true, "'" ++ original_basename nm ++ "' -> ICO."))
  else ret None.

(** Lines 196-231: the body of the [try]. *)
Definition process_body (file_path : string) (o : options) (nm : naming)
    (final_path temp_output_path : string) : M frame outcome :=
  sc <- lift (_safe_copy_for_processing file_path) ;;
  let '(current_path, safe_copy) := sc in
  match safe_copy with Some p => track p | None => ret tt end ;;;
  current_path <-
    (if default false (opt_resize_enabled o)
        && (default 0 (opt_width o) >? 0) && (default 0 (opt_height o) >? 0)
     then
       let file_ext := snd (path_splitext current_path) in
       u <- lift fresh_name ;;
       let temp_resized := path_join gettempdir ("resized_" ++ u ++ file_ext) in
       lift (img <- Image_open current_path ;;
             width <- getitem "width" (opt_width o) ;;
             height <- getitem "height" (opt_height o) ;;
             img' <- lift_result (pil_resize img width height) ;;
             Image_save img' temp_resized no_options) ;;;
       track temp_resized ;;;
       width <- getitem "width" (opt_width o) ;;
       height <- getitem "height" (opt_height o) ;;
       lift (_update_status (STRINGS.status_resized width height)) ;;;
       ret temp_resized
     else ret current_path) ;;
  let current_ext_no_dot := strip_dots (str_lower (snd (path_splitext current_path))) in
  current_path <-
    (if negb (String.eqb current_ext_no_dot (target_format nm)) then
       temp_converted <- lift (_convert_image current_path (target_format nm)) ;;
       track temp_converted ;;;
       ret temp_converted
     else ret current_path) ;;
  d <- lift (dispatch o nm current_path temp_output_path) ;;
  match d with
  | None => ret (false, STRINGS.unsupported_type)
  | Some (is_success, message) =>
      if is_success then
        (if negb (String.eqb message (already_optimized_message (original_basename nm)))
         then lift (shutil_move temp_output_path final_path)
         else ret tt) ;;;
        untrack temp_output_path ;;;
        ret (true, message)
      else ret (false, message)
  end.

(** The [finally] clause: [for f in temp_files: if os.path.exists(f): os.remove(f)]. *)
Definition cleanup : M frame unit :=
  fun s => for_each (snd s) (fun f => lift (remove_if_exists f)) s.

(** [process_file] returns to its caller or raises; the local
    [temp_files] ends with the call. *)
Definition process_file (file_path : string) (o : options) : M world outcome :=
  nm <- derive_target file_path o ;;
  if should_overwrite nm && is_converting_format nm then
    let msg := STRINGS.overwrite_format_error in
    log_error msg ;;;
    ret (false, msg)
  else
    let final_path := final_output_path file_path o nm in
    temp_output_path <- NamedTemporaryFile ("." ++ target_format nm) ;;
    fun w =>
      let '(r, s) :=
        try_finally
          (try_except
             (process_body file_path o nm final_path temp_output_path)
             (fun e =>
                lift (log_error ("A fatal error occurred during processing: " ++ exn_str e)) ;;;
                ret (false, "An unexpected error occurred: " ++ exn_str e)))
          cleanup
          (w, [temp_output_path]) in
      (r, fst s).

End Compressor.

(** * The callers of [process_file] *)

Section Callers.
Context `{Platform}.

(** A modal dialog shown at the end of a run. *)
Inductive dialog : Type :=
  | NoDialog
  | ShowInfo (title message : string)
  | ShowError (title message : string).

Definition newline : string := String "010"%char EmptyString.

(** ["\n".join(l)] *)
Fixpoint join_lines (l : list string) : string :=
  match l with
  | [] => ""
  | [x] => x
  | x :: l' => x ++ newline ++ join_lines l'
  end.

Definition status_processing (current total : nat) (filename : string) : string :=
  "Processing file " ++ pretty current ++ "/" ++ pretty total ++ ": " ++ filename.

Definition status_done : string := "Operation complete.".
Definition report_title : string := "Compression Report".
Definition success_title : string := "Success".

Definition headless_success (count : nat) : string :=
  pretty count ++ " file(s) processed successfully.".

(** Lines 413-415: the loop of [start_compression], from the file of
    index [i] on. *)
Fixpoint compress_each (total i : nat) (files : list string) (o : options)
    (success_msgs error_msgs : list string) : M world (list string * list string) :=
  match files with
  | [] => ret (success_msgs, error_msgs)
  | file_path :: rest =>
      _update_status (status_processing (i + 1) total (path_basename file_path)) ;;;
      r <- process_file file_path o ;;
      if fst r
      then compress_each total (Datatypes.S i) rest o (success_msgs ++ [snd r])%list error_msgs
      else compress_each total (Datatypes.S i) rest o success_msgs (error_msgs ++ [snd r])%list
  end.

(** Lines 405-422: [start_compression] on the files of the list box.
    [read_options] is what lines 407-411 give: the dictionary of the
    values of the form, or the exception that reading a variable of the
    form raised ([IntVar.get] on an entry that holds no number).  The
    result is the two message lists and the dialog shown. *)
Definition start_compression (files : list string) (read_options : exn + options)
    : M world (list string * list string * dialog) :=
  match files with
  | [] =>
      showwarning "No Files" "Please add files to process." ;;;
      ret ([], [], NoDialog)
  | _ =>
      o <- lift_result read_options ;;
      r <- compress_each (length files) 0 files o [] [] ;;
      let '(success_msgs, error_msgs) := r in
      _update_status status_done ;;;
      let report :=
        match success_msgs with
        | [] => ""
        | _ => "Successfully processed " ++ pretty (length success_msgs) ++ " file(s):"
               ++ newline ++ join_lines success_msgs
        end in
      match error_msgs, success_msgs with
      | _ :: _, _ =>
          ret (success_msgs, error_msgs,
               ShowError report_title
                 (report ++ newline ++ newline ++ "Encountered "
                  ++ pretty (length error_msgs) ++ " error(s):" ++ newline
                  ++ join_lines error_msgs))
      | [], _ :: _ => ret (success_msgs, error_msgs, ShowInfo report_title report)
      | [], [] => ret (success_msgs, error_msgs, NoDialog)
      end
  end.

(** Lines 430-435 of [main]: the arguments that are files. *)
Definition files_to_process (potential_files : list string) (w : world) : list string :=
  filter (fun f => is_Some (fs w !! f)) potential_files.

(** Line 454: the options of the headless mode. *)
Definition headless_options : options :=
  Options (Some false) (Some STRINGS.keep_original_format) (Some true)
          (Some STRINGS.original_folder) (Some "-tiny") (Some false) None None
          (Some 75) (Some "quality") None (Some false).

(** Lines 457-460: the loop of the headless mode. *)
Fixpoint headless_each (files : list string) (success_count : nat)
    (error_msgs : list string) : M world (nat * list string) :=
  match files with
  | [] => ret (success_count, error_msgs)
  | file_path :: rest =>
      r <- process_file file_path headless_options ;;
      let entry := "- " ++ path_basename file_path ++ ":" ++ newline ++ "  " ++ snd r in
      if fst r then headless_each rest (success_count + 1) error_msgs
      else headless_each rest success_count (error_msgs ++ [entry])%list
  end.

(** Lines 452-468: the headless branch of [main]. *)
Definition main_headless (files : list string) : M world (nat * list string * dialog) :=
  r <- headless_each files 0 [] ;;
  let '(success_count, error_msgs) := r in
  match error_msgs with
  | [] =>
      if (0 <? success_count)%nat
      then ret (success_count, error_msgs,
                ShowInfo success_title (headless_success success_count))
      else ret (success_count, error_msgs, NoDialog)
  | _ :: _ =>
      let report :=
        (if (0 <? success_count)%nat
         then "Successfully processed " ++ pretty success_count ++ " file(s)."
              ++ newline ++ newline
         else "")
        ++ "Encountered " ++ pretty (length error_msgs) ++ " error(s):" ++ newline
        ++ join_lines error_msgs in
      ret (success_count, error_msgs, ShowError report_title report)
  end.

(** *** The size estimation of the form (lines 360-400) *)

(** What [_run_estimation_in_thread] reads from the form.  The variables
    are read as values of their types; [IndexError] can only come from the
    selection, which is why it has no constructor of its own in [exn]. *)
Record form : Type := Form {
  form_selection : list nat;     (* self.file_listbox.curselection() *)
  form_files : list string;      (* self.files *)
  form_quality : Z;              (* self.quality_var.get() *)
  form_resize_enabled : bool;
  form_width : Z;
  form_height : Z;
  form_format : string;          (* self.format_var.get() *)
  form_auto_convert_png : bool;
  form_max_png : bool
}.

(** The argument of a scheduled [update_estimated_size_label]: a size,
    kept in bytes (the label shows it divided by 1024), or the -1 of an
    error. *)
Inductive size_label : Type :=
  | SizeBytes (n : Z)
  | SizeError.

(** The thread function runs on the world, its local [temp_files], unbound
    until line 369, and the label updates it has scheduled with
    [self.after]. *)
Record est_frame : Type := EstFrame {
  ef_world : world;
  ef_temp_files : option (list string);
  ef_scheduled : list size_label
}.

Definition lift_e {A} (m : M world A) : M est_frame A :=
  fun s => let '(r, w') := m (ef_world s) in
           (r, EstFrame w' (ef_temp_files s) (ef_scheduled s)).

(** [self.after(0, self.update_estimated_size_label, v)] *)
Definition schedule (v : size_label) : M est_frame unit :=
  fun s => (inr tt, EstFrame (ef_world s) (ef_temp_files s) (ef_scheduled s ++ [v])).

(** Reading the local [temp_files] before it is bound. *)
Definition unbound_temp_files : exn :=
  OtherError "cannot access local variable 'temp_files' where it is not associated with a value".

(** [temp_files = []] *)
Definition bind_temp_files : M est_frame unit :=
  fun s => (inr tt, EstFrame (ef_world s) (Some []) (ef_scheduled s)).

(** [temp_files = temp_files + [p]], [temp_files.append(p)] *)
Definition add_temp (p : string) : M est_frame unit :=
  fun s => match ef_temp_files s with
           | Some l => (inr tt, EstFrame (ef_world s) (Some (l ++ [p])%list) (ef_scheduled s))
           | None => (inl unbound_temp_files, s)
           end.

(** [self.files[self.file_listbox.curselection()[0]]]; [None] is the
    [IndexError] of either subscript. *)
Definition selected_file (fm : form) : option string :=
  match form_selection fm with
  | [] => None
  | sel_idx :: _ => form_files fm !! sel_idx
  end.

(** Lines 365-368: the format the estimate is computed for. *)
Definition estimation_target (f_path : string) (fm : form) : M world string :=
  let target_format :=
    if negb (String.eqb (form_format fm) STRINGS.keep_original_format)
    then str_lower (form_format fm)
    else remove_dots (str_lower (snd (path_splitext f_path))) in
  let original_ext := str_lower (snd (path_splitext f_path)) in
  if form_auto_convert_png fm && String.eqb original_ext ".png" then
    opaque <- is_png_fully_opaque f_path ;;
    if opaque then ret "jpeg" else ret target_format
  else ret target_format.

(** Lines 385-390: one encoding into [temp_out_name]. *)
Definition estimation_encode (fm : form) (target_format current_path temp_out_name : string)
    : M world outcome :=
  let quality := form_quality fm in
  if is_jpeg target_format then compress_jpeg current_path temp_out_name quality
  else if String.eqb target_format "png" then
    let q_range :=
      if quality >? 10 then pretty (quality - 10) ++ "-" ++ pretty quality
      else "0-" ++ pretty quality in
    compress_png current_path temp_out_name q_range (form_max_png fm)
  else if String.eqb target_format "webp" then
    compress_webp current_path temp_out_name quality
  else if String.eqb target_format "ico" then
    img <- Image_open current_path ;;
    Image_save img temp_out_name
      (SaveOptions None (Some "ICO") [(32, 32); (48, 48); (64, 64)]) ;;;
    ret (true, "")
  else ret (false, "").

(** Lines 364-395: the [try] after the quality check. *)
Definition estimation_body (f_path : string) (fm : form) : M est_frame unit :=
  target_format <- lift_e (estimation_target f_path fm) ;;
  let original_ext := str_lower (snd (path_splitext f_path)) in
  bind_temp_files ;;;
  sc <- lift_e (_safe_copy_for_processing f_path) ;;
  let '(safe_path, safe_copy) := sc in
  current_path <-
    (match safe_copy with
     | Some p => add_temp p ;;; ret safe_path
     | None => ret f_path
     end) ;;
  current_path <-
    (if form_resize_enabled fm && (form_width fm >? 0) && (form_height fm >? 0) then
       u <- lift_e fresh_name ;;
       let temp_resized := path_join gettempdir ("temp_estimate_" ++ u ++ original_ext) in
       lift_e (img <- Image_open current_path ;;
               img' <- lift_result (pil_resize img (form_width fm) (form_height fm)) ;;
               Image_save img' temp_resized no_options) ;;;
       add_temp temp_resized ;;;
       ret temp_resized
     else ret current_path) ;;
  let current_ext_no_dot := strip_dots (str_lower (snd (path_splitext current_path))) in
  current_path <-
    (if negb (String.eqb current_ext_no_dot target_format) then
       temp_converted <- lift_e (_convert_image current_path target_format) ;;
       add_temp temp_converted ;;;
       ret temp_converted
     else ret current_path) ;;
  temp_out_name <- lift_e (NamedTemporaryFile ".tmp") ;;
  add_temp temp_out_name ;;;
  r <- lift_e (estimation_encode fm target_format current_path temp_out_name) ;;
  let '(is_success, msg) := r in
  if is_success then
    if String.eqb msg "Already Optimized" then
      size <- lift_e (os_path_getsize current_path) ;;
      schedule (SizeBytes size)
    else
      size <- lift_e (os_path_getsize temp_out_name) ;;
      schedule (SizeBytes size)
  else schedule SizeError.

(** The [finally] clause of the thread function. *)
Definition estimation_cleanup : M est_frame unit :=
  fun s => match ef_temp_files s with
           | None => (inl unbound_temp_files, s)
           | Some l => for_each l (fun f => lift_e (remove_if_exists f)) s
           end.

Definition _run_estimation_in_thread (fm : form) : M est_frame unit :=
  try_finally
    (match selected_file fm with
     | None => schedule SizeError
     | Some f_path =>
         try_except
           (if negb ((1 <=? form_quality fm) && (form_quality fm <=? 100))
            then raise (ValueError "Quality out of range")
            else estimation_body f_path fm)
           (fun e =>
              match e with
              | ValueError _ => schedule SizeError
              | _ =>
                  lift_e (log_error ("Estimation Thread Error: " ++ exn_str e)) ;;;
                  schedule SizeError
              end)
     end)
    estimation_cleanup.

(** The state in which the thread function starts. *)
Definition estimation_start (w : world) : est_frame := EstFrame w None [].

End Callers.

(** * Observations

    The vocabulary of the statements below: what a call observed, what it
    left in the world, and the command lines and paths the code builds. *)

Section Observations.
Context `{Platform}.

(** The quality the next probe tries. *)
Definition probe_quality (st : search_state) : Z := (low st + high st) `div` 2.

(** The name [NamedTemporaryFile] picks in [w], and the world it leaves. *)
Definition temp_file_of (suffix : string) (w : world) : string :=
  path_join gettempdir ("tmp" ++ random_name (entropy w) ++ suffix).

Definition created (suffix : string) (w : world) : world :=
  World (<[temp_file_of suffix w := []]> (fs w)) (error_log w) (warnings w)
        (status_line w) (commands w) (Datatypes.S (entropy w)).

(** The world after [remove_if_exists p]. *)
Definition discard (p : string) (w : world) : world :=
  if bool_decide (is_Some (fs w !! p)) then set_fs (delete p) w else w.

(** The size of the file at [p], when there is one. *)
Definition size_at (p : string) (w : world) : option Z :=
  (fun c => Z.of_nat (length c)) <$> fs w !! p.

(** The probe met the budget: the encoder reported success and left a
    file of at most [target_bytes] bytes. *)
Definition fits (target_bytes : Z) (is_success : bool) (size : option Z) : bool :=
  is_success && match size with Some n => n <=? target_bytes | None => false end.

(** The loop variables after a probe with this observation. *)
Definition advance (target_bytes : Z) (st : search_state)
    (is_success : bool) (size : option Z) : search_state :=
  let q := probe_quality st in
  if fits target_bytes is_success size
  then SearchState (q + 1) (high st) q
  else SearchState (low st) (q - 1) (best_quality st).

(** What a call of the encoder is entered as: that it raised, or
    whether it met the budget. *)
Definition verdict (target_bytes : Z) (out_path : string)
    (r : exn + outcome) (w : world) : string :=
  match r with
  | inl _ => "raised"
  | inr o => if fits target_bytes (fst o) (size_at out_path w) then "fits" else "misses"
  end.

(** [compress_func], entering each of its calls in the list of commands:
    the quality it was given and the verdict on what it left.  What the
    call did to that list otherwise is dropped, so that the entries added
    while a computation runs are the calls it made, oldest first. *)
Definition recorded (target_bytes : Z) (compress_func : encoder) : encoder :=
  fun in_path out_path quality w =>
    let '(r, w') := compress_func in_path out_path quality w in
    (r, World (fs w') (error_log w') (warnings w') (status_line w')
              (commands w ++ [[pretty quality; verdict target_bytes out_path r w']])
              (entropy w')).

(** The entry of a call that met the budget. *)
Definition met_budget (call : list string) : bool :=
  match call with
  | [_; v] => String.eqb v "fits"
  | _ => false
  end.

(** The world in which the loop of [find_best_quality] starts. *)
Definition search_start (target_kb : Z) (w : world) : world :=
  snd (_update_status (STRINGS.status_finding_quality target_kb) w).

(** The loop variables after a probe that did not meet the budget. *)
Definition lowered (st : search_state) : search_state :=
  SearchState (low st) (probe_quality st - 1) (best_quality st).

(** The encoder returns an outcome on every call. *)
Definition never_raises (compress_func : encoder) : Prop :=
  forall in_path out_path q w, exists r w',
    compress_func in_path out_path q w = (inr r, w').

(** An encoder that runs at most one external command per call. *)
Definition one_command (f : encoder) : Prop :=
  forall in_path out_path q w,
    (length (commands (snd (f in_path out_path q w))) <= Datatypes.S (length (commands w)))%nat.

(** What the loop keeps true of its variables. *)
Definition search_inv (st : search_state) : Prop :=
  1 <= low st /\ high st <= 100 /\ low st <= high st + 1 /\
  best_quality st < low st /\ (best_quality st = -1 \/ 1 <= best_quality st).

(** Where [get_tool_path] looks for a tool. *)
Definition tool_path (tool_name : string) : string :=
  get_resource_path (path_join "tools" tool_name).

(** The command line of the quantizer in [compress_png]. *)
Definition p_command (pngquant_path quality_range temp_path in_path : string) : list string :=
  [pngquant_path; "--force"; "--strip"; "--quality"; quality_range;
   "--speed=1"; "--output"; temp_path; in_path].

(** The command line of the further-compression pass in [compress_png]. *)
Definition z_command (zopflipng_path src dst : string) : list string :=
  [zopflipng_path; "-y"; "--iterations=15"; src; dst].

(** The intermediate file of the quantizer when the further pass is on. *)
Definition quant_path (out_path : string) : string :=
  path_join gettempdir ("quant_" ++ path_basename out_path).

(** The alpha samples of an image: those of its band "A", none when it
    has no such band. *)
Definition alpha_samples (img : image) : exn + list Z :=
  if bool_decide ("A" ∈ img_bands img) then img_alpha img else inr [].

(** The image is a palette image with a transparency entry. *)
Definition palette_transparency (img : image) : bool :=
  String.eqb (img_mode img) "P" && img_info_transparency img.

(** The directory [process_file] writes to when it does not overwrite. *)
Definition output_directory (file_path : string) (o : options) : string :=
  if bool_decide (opt_output_dir o <> Some STRINGS.original_folder)
  then default (path_dirname file_path) (opt_output_dir o)
  else path_dirname file_path.

(** The format of the input file by its extension. *)
Definition own_format (file_path : string) : string :=
  remove_dots (str_lower (snd (path_splitext (path_basename file_path)))).

(** The format the options ask for leaves room for the name of a
    temporary file: "tmp", eight random characters, a dot and the format
    within 255 characters. *)
Definition nameable (file_path : string) (o : options) : Prop :=
  (String.length (target_format (requested_naming file_path o)) <= 243)%nat.

(** The local state in which the [try] of [process_file] starts. *)
Definition try_start (nm : naming) (w : world) : frame :=
  (created ("." ++ target_format nm) w, [temp_file_of ("." ++ target_format nm) w]).

(** The quality range [process_file] passes to [compress_png]. *)
Definition png_quality_range (o : options) : string :=
  let quality := default 75 (opt_quality o) in
  if quality >? 10 then pretty (quality - 10) ++ "-" ++ pretty quality
  else "0-" ++ pretty quality.

(** The encoder touches no file but its output. *)
Definition writes_only_output (f : encoder) : Prop :=
  forall in_path out_path q w p,
    p <> out_path -> fs (snd (f in_path out_path q w)) !! p = fs w !! p.

(** No file carries a name [NamedTemporaryFile] may pick for a probe. *)
Definition probe_names_free (files : filesystem) : Prop :=
  forall n, files !! path_join gettempdir ("tmp" ++ random_name n ++ ".tmp") = None.

(** In every world that [inv] holds of, a probe of [in_path] at a quality
    between 1 and 100 returns and meets the budget exactly when [fit]
    accepts the quality, and [inv] holds again once the temporary file of
    the probe is removed. *)
Definition governed_by (inv : world -> Prop) (fit : Z -> bool) (in_path : string)
    (target_bytes : Z) (f : encoder) : Prop :=
  forall q w, 1 <= q <= 100 -> inv w ->
    exists r w2,
      f in_path (temp_file_of ".tmp" w) q (created ".tmp" w) = (inr r, w2) /\
      fits target_bytes (fst r) (size_at (temp_file_of ".tmp" w) w2) = fit q /\
      inv (discard (temp_file_of ".tmp" w) w2).

(** A lower quality fits whenever a higher one does. *)
Definition downward_closed (fit : Z -> bool) : Prop :=
  forall q q', q <= q' -> fit q' = true -> fit q = true.

(** The computation leaves [x] in [temp_files] when it finds it there. *)
Definition keeps_tracked {A} (x : string) (m : M frame A) : Prop :=
  forall s r s', m s = (r, s') -> x ∈ snd s -> x ∈ snd s'.

(** The computation leaves [x] in [temp_files], unless [x] is the
    temporary output file and the computation reports success. *)
Definition ends_tracked (x temp_output_path : string) (m : M frame outcome) : Prop :=
  forall s r s', m s = (r, s') -> x ∈ snd s ->
    x ∈ snd s' \/ (x = temp_output_path /\ exists message, r = inr (true, message)).

(** The world after the [finally] clause of [process_file] has gone
    through the list [l]. *)
Definition discard_all (l : list string) (w : world) : world :=
  foldl (fun w f => discard f w) w l.

(** Two option dictionaries that differ at most in "mode" and
    "target_size". *)
Definition same_but_mode (o o' : options) : Prop :=
  opt_overwrite o = opt_overwrite o' /\ opt_format o = opt_format o' /\
  opt_auto_convert_png o = opt_auto_convert_png o' /\
  opt_output_dir o = opt_output_dir o' /\ opt_suffix o = opt_suffix o' /\
  opt_resize_enabled o = opt_resize_enabled o' /\
  opt_width o = opt_width o' /\ opt_height o = opt_height o' /\
  opt_quality o = opt_quality o' /\ opt_max_png o = opt_max_png o'.

(** The input needs no staging: an ASCII path, no resize, and already in
    the target format. *)
Definition unstaged (file_path : string) (o : options) (nm : naming) : Prop :=
  is_ascii file_path = true /\
  default false (opt_resize_enabled o) = false /\
  strip_dots (str_lower (snd (path_splitext file_path))) = target_format nm.

(** The computation runs at most [k] external commands. *)
Definition runs_at_most {A} (k : nat) (m : M world A) : Prop :=
  forall w, (length (commands (snd (m w))) <= length (commands w) + k)%nat.

(** The same for the body of the [try] of [process_file]. *)
Definition body_runs_at_most {A} (k : nat) (m : M frame A) : Prop :=
  forall s, (length (commands (fst (snd (m s)))) <= length (commands (fst s)) + k)%nat.

(** The quality range the estimation passes to [compress_png]. *)
Definition estimation_quality_range (fm : form) : string :=
  if form_quality fm >? 10
  then pretty (form_quality fm - 10) ++ "-" ++ pretty (form_quality fm)
  else "0-" ++ pretty (form_quality fm).

End Observations.

(** * A concrete platform for the examples *)

Module Example.

(** The text before and after the first [c] of [s]. *)
Fixpoint break_at (c : ascii) (s : string) : option (string * string) :=
  match s with
  | EmptyString => None
  | String a s' =>
      if Ascii.eqb a c then Some (EmptyString, s')
      else match break_at c s' with
           | Some (b, r) => Some (String a b, r)
           | None => None
           end
  end.

(** The text before and after the last [c] of [s]. *)
Definition rbreak_at (c : ascii) (s : string) : option (string * string) :=
  match break_at c (String.rev s) with
  | Some (b, r) => Some (String.rev r, String.rev b)
  | None => None
  end.

Definition basename (p : string) : string :=
  match rbreak_at "/" p with Some (_, b) => b | None => p end.

Definition dirname (p : string) : string :=
  match rbreak_at "/" p with Some (d, _) => d | None => "" end.

Definition splitext (p : string) : string * string :=
  match rbreak_at "." p with
  | Some (n, e) => (n, String "."%char e)
  | None => (p, "")
  end.

Definition lower_char (c : ascii) : ascii :=
  let n := nat_of_ascii c in
  if ((65 <=? n) && (n <=? 90))%nat then ascii_of_nat (n + 32) else c.

Fixpoint lower (s : string) : string :=
  match s with
  | EmptyString => EmptyString
  | String c s' => String (lower_char c) (lower s')
  end.

(** A platform with POSIX-like paths, given what the external tools and
    the image decoder do. *)
Definition platform
    (tools : list string -> filesystem -> completed * filesystem)
    (decoder : bytes -> exn + image) : Platform :=
  {| path_basename := basename;
     path_splitext := splitext;
     path_dirname := dirname;
     path_join := fun a b => a ++ "/" ++ b;
     os_path_isdir := fun d => existsb (String.eqb d) ["/pics"; "/tmp"; "/app"; "/app/tools"];
     str_lower := lower;
     decode_utf8 := string_of_list_byte;
     gettempdir := "/tmp";
     base_path := "/app";
     random_name := fun n => pretty n;
     subprocess_run := tools;
     pil_open := decoder;
     pil_resize := fun img _ _ => inr img;
     pil_convert := fun img m => inr (Image m false [] (inr []) (img_pixels img));
     pil_save := fun img _ _ => inr (img_pixels img) |}.

Definition no_decoder : bytes -> exn + image :=
  fun _ => inl (OtherError "cannot identify image file").

Definition installed : filesystem :=
  {[ "/app/tools/pngquant.exe" := []; "/app/tools/zopflipng.exe" := [];
     "/app/tools/cjpeg.exe" := []; "/app/tools/cwebp.exe" := [] ]}.

Definition world0 (f : filesystem) : world := World f [] [] [] [] 0.

Definition defaults : options :=
  Options None None None None None None None None None None None None.

(** The external tools: pngquant exits with [quant_code] and writes
    nothing, zopflipng copies its source to its destination, every other
    tool exits with 0. *)
Definition tools (quant_code : Z) : list string -> filesystem -> completed * filesystem :=
  fun command f =>
    let tool := basename (hd "" command) in
    if String.eqb tool "pngquant.exe" then (Completed quant_code [] [], f)
    else if String.eqb tool "zopflipng.exe" then
      match command with
      | [_; _; _; src; dst] =>
          match f !! src with
          | Some c => (Completed 0 [] [], <[dst := c]> f)
          | None => (Completed 1 [] [], f)
          end
      | _ => (Completed 1 [] [], f)
      end
    else (Completed 0 [] [], f).

(** An RGBA image with the given alpha samples. *)
Definition rgba (alpha : list Z) : image :=
  Image "RGBA" false ["R"; "G"; "B"; "A"] (inr alpha) [x01].

(** The options of the headless mode of [main]. *)
Definition headless : options :=
  Options (Some false) (Some "Keep Original") (Some true) (Some "Original Folder")
          (Some "-tiny") (Some false) None None (Some 75) (Some "quality") None (Some false).

(** An encoder whose output has [100 * quality] bytes. *)
Definition sized_encoder : encoder :=
  fun _ out_path quality w =>
    (inr (true, "Success"),
     set_fs (insert out_path (repeat x00 (Z.to_nat (100 * quality)))) w).

(** An encoder that reports success and leaves no file. *)
Definition vanishing_encoder : encoder :=
  fun _ out_path _ w => (inr (true, "Success"), set_fs (delete out_path) w).

(** A folder with one PNG, and the tools installed. *)
Definition pictures : world := world0 (<["/pics/a.png" := [x01]]> installed).

(** pngquant finds nothing to improve (exit code 99); no image decodes. *)
Definition P99 : Platform := platform (tools 99) no_decoder.

(** The same tools, and a decoder that sees an RGBA image: fully
    opaque, or with one transparent pixel. *)
Definition P_opaque : Platform :=
  platform (tools 99) (fun _ => inr (rgba [255; 255])).

Definition P_translucent : Platform :=
  platform (tools 99) (fun _ => inr (rgba [255; 0])).

(** pngquant writes a new file (exit code 0), or fails (exit code 1). *)
Definition P0 : Platform := platform (tools 0) no_decoder.

Definition P1 : Platform := platform (tools 1) no_decoder.

(** A path with a byte outside ASCII, and a folder that holds it. *)
Definition accented : string := "/pics/" ++ String (ascii_of_nat 233) ".png".

Definition accented_pictures : world := world0 (<[accented := [x02]]> installed).

(** The budget of 5 KB as a test on the quality of [sized_encoder]. *)
Definition fits_5k (q : Z) : bool := 100 * q <=? 5120.

(** The number a string of decimal digits writes. *)
Definition digits (s : string) : nat :=
  fold_left (fun n c => (10 * n + (nat_of_ascii c - 48))%nat) (list_ascii_of_string s) 0%nat.

(** An encoder tool called as cjpeg is, [tool -quality q -progressive
    -outfile out in]: its output has 100 bytes for each unit of the
    quality. *)
Definition sized_tools : list string -> filesystem -> completed * filesystem :=
  fun command f =>
    match command with
    | [_; _; q; _; _; out_path; _] =>
        (Completed 0 [] [], <[out_path := repeat x00 (100 * digits q)]> f)
    | _ => (Completed 1 [] [], f)
    end.

Definition P_sized : Platform := platform sized_tools no_decoder.

(** cjpeg.exe is where [get_tool_path] looks for it. *)
Definition cjpeg_installed (w : world) : Prop :=
  is_Some (fs w !! "/app/tools/cjpeg.exe").

(** A file whose name has the 255 characters a name may have: "a." and
    an extension of 253 characters. *)
Definition long_extension : string := string_of_list_ascii (repeat "x"%char 253).

Definition long_named : string := "/pics/a." ++ long_extension.

Definition long_named_pictures : world :=
  world0 (<[long_named := [x01]]> (<["/pics/a.png" := [x01]]> installed)).

(** The form with the first of its files selected. *)
Definition form_of (quality : Z) (format : string) (auto_convert : bool) : form :=
  Form [0%nat] ["/pics/a.png"] quality false 0 0 format auto_convert false.

End Example.

(** * Properties *)

Section Search.
Context `{Platform}.

(** ** What one probe observes *)

Lemma NamedTemporaryFile_run suffix w :
  (String.length suffix <= 244)%nat ->
  NamedTemporaryFile suffix w = (inr (temp_file_of suffix w), created suffix w).
Proof.
  intros Hs. unfold NamedTemporaryFile, bind, fresh_name.
  replace (NAME_MAX - 11 <? String.length suffix)%nat with false; [reflexivity|].
  symmetry. apply Nat.ltb_ge. unfold NAME_MAX. lia.
Qed.

Lemma NamedTemporaryFile_tmp w :
  NamedTemporaryFile ".tmp" w = (inr (temp_file_of ".tmp" w), created ".tmp" w).
Proof. apply NamedTemporaryFile_run. cbn. lia. Qed.

(** With a longer suffix no file is created. *)
Lemma NamedTemporaryFile_long suffix w :
  (244 < String.length suffix)%nat ->
  exists e w', NamedTemporaryFile suffix w = (inl e, w') /\
               fs w' = fs w /\ commands w' = commands w.
Proof.
  intros Hs. unfold NamedTemporaryFile, bind, fresh_name, raise.
  replace (NAME_MAX - 11 <? String.length suffix)%nat with true.
  - eexists _, _. split; [reflexivity|]. split; reflexivity.
  - symmetry. apply Nat.ltb_lt. unfold NAME_MAX. lia.
Qed.

Lemma remove_if_exists_run p w :
  remove_if_exists p w = (inr tt, discard p w).
Proof.
  unfold remove_if_exists, discard, bind, os_path_exists, os_remove, ret.
  case_bool_decide as Hex; [|reflexivity].
  destruct Hex as [c Hc]. now rewrite Hc.
Qed.

(** A probe, in terms of what the encoder did. *)
Lemma probe_run in_path target_bytes (f : encoder) st w :
  probe in_path target_bytes f st w =
  let name := temp_file_of ".tmp" w in
  match f in_path name (probe_quality st) (created ".tmp" w) with
  | (inr r, w2) => (inr (advance target_bytes st (fst r) (size_at name w2)), discard name w2)
  | (inl e, w2) => (inl e, discard name w2)
  end.
Proof.
  unfold probe. unfold bind at 1. rewrite NamedTemporaryFile_tmp. cbv zeta.
  unfold try_finally, bind at 1.
  fold (probe_quality st).
  destruct (f in_path _ _ _) as [[e|[ok msg]] w2] eqn:Hf.
  - now rewrite remove_if_exists_run.
  - cbn [fst]. unfold bind, os_path_exists, os_path_getsize, ret, advance, fits, size_at.
    destruct (fs w2 !! temp_file_of ".tmp" w) as [c|] eqn:Hc; cbn [fmap option_fmap option_map].
    + rewrite bool_decide_eq_true_2 by eauto.
      destruct ok; cbn [andb].
      * rewrite Hc. destruct (_ <=? _); now rewrite remove_if_exists_run.
      * now rewrite remove_if_exists_run.
    + rewrite bool_decide_eq_false_2 by (intros [? ?]; congruence).
      rewrite !andb_false_r. now rewrite remove_if_exists_run.
Qed.

(** ** The loop *)

Lemma search_break n in_path tb (f : encoder) st w :
  high st < low st -> search n in_path tb f st w = (inr st, w).
Proof.
  intros Hb. destruct n; [reflexivity|]. cbn [search].
  apply Z.ltb_lt in Hb. now rewrite Hb.
Qed.

Lemma search_step n in_path tb (f : encoder) st w :
  low st <= high st ->
  search (Datatypes.S n) in_path tb f st w =
  match probe in_path tb f st w with
  | (inr st', w') => search n in_path tb f st' w'
  | (inl e, w') => (inl e, w')
  end.
Proof.
  intros Hle. cbn [search].
  replace (high st <? low st) with false by (symmetry; apply Z.ltb_ge; lia).
  reflexivity.
Qed.

Lemma probe_quality_between st :
  low st <= high st -> low st <= probe_quality st <= high st.
Proof.
  intros Hle. unfold probe_quality. split.
  - apply Z.div_le_lower_bound; lia.
  - apply Z.div_le_upper_bound; lia.
Qed.

Lemma advance_inv tb st ok size :
  low st <= high st -> search_inv st -> search_inv (advance tb st ok size).
Proof.
  intros Hle (Hl & Hh & Hlh & Hb & Hr). pose proof (probe_quality_between st Hle) as Hq.
  unfold advance, search_inv. destruct (fits tb ok size); cbn; lia.
Qed.

Lemma advance_best_mono tb st ok size :
  low st <= high st -> search_inv st ->
  best_quality st <= best_quality (advance tb st ok size).
Proof.
  intros Hle (Hl & Hh & Hlh & Hb & Hr). pose proof (probe_quality_between st Hle) as Hq.
  unfold advance. destruct (fits tb ok size); cbn; lia.
Qed.

Lemma advance_miss tb st ok size :
  fits tb ok size = false ->
  advance tb st ok size = SearchState (low st) (probe_quality st - 1) (best_quality st).
Proof. intros Hm. unfold advance. now rewrite Hm. Qed.

Lemma advance_hit tb st ok size :
  fits tb ok size = true ->
  advance tb st ok size = SearchState (probe_quality st + 1) (high st) (probe_quality st).
Proof. intros Hm. unfold advance. now rewrite Hm. Qed.

(** Whatever the encoder does, a search that returns keeps the invariant
    and never lowers the recorded quality. *)
Lemma search_mono n in_path tb (f : encoder) : forall st w st' w',
  search_inv st ->
  search n in_path tb f st w = (inr st', w') ->
  search_inv st' /\ best_quality st <= best_quality st'.
Proof.
  induction n as [|n IH]; intros st w st' w' Hinv Hs.
  - cbn in Hs. unfold ret in Hs. inversion Hs; subst. split; [assumption|lia].
  - destruct (Z_lt_le_dec (high st) (low st)) as [Hb|Hle].
    + rewrite search_break in Hs by assumption. inversion Hs; subst. split; [assumption|lia].
    + rewrite search_step, probe_run in Hs by assumption. cbv zeta in Hs.
      destruct (f in_path _ _ _) as [[e|r] w2]; [discriminate|].
      apply IH in Hs; [|now apply advance_inv].
      destruct Hs as [Hi Hm]. split; [assumption|].
      pose proof (advance_best_mono tb st (fst r) (size_at (temp_file_of ".tmp" w) w2) Hle Hinv).
      lia.
Qed.

(** With an encoder that never raises the search returns. *)
Lemma search_returns n in_path tb (f : encoder) :
  never_raises f ->
  forall st w, exists st' w', search n in_path tb f st w = (inr st', w').
Proof.
  intros Hf. induction n as [|n IH]; intros st w.
  - now exists st, w.
  - destruct (Z_lt_le_dec (high st) (low st)) as [Hb|Hle].
    + exists st, w. now apply search_break.
    + rewrite search_step, probe_run by assumption. cbv zeta.
      destruct (Hf in_path (temp_file_of ".tmp" w) (probe_quality st) (created ".tmp" w))
        as (r & w2 & Hr).
      rewrite Hr. apply IH.
Qed.

Lemma initial_search_inv : search_inv initial_search.
Proof. unfold search_inv, initial_search; cbn; lia. Qed.

Lemma find_best_quality_run in_path target_kb (f : encoder) w :
  find_best_quality in_path target_kb f w =
  match search 8 in_path (target_kb * 1024) f initial_search (search_start target_kb w) with
  | (inr st, w') => (inr (if negb (best_quality st =? -1) then best_quality st else 1), w')
  | (inl e, w') => (inl e, w')
  end.
Proof.
  unfold find_best_quality, search_start, bind, _update_status, ret. cbn [snd].
  now destruct (search 8 _ _ _ _ _) as [[e|st] w'].
Qed.

Lemma search_add k n in_path tb (f : encoder) : forall st w,
  search (k + n) in_path tb f st w =
  match search k in_path tb f st w with
  | (inr st', w') => search n in_path tb f st' w'
  | (inl e, w') => (inl e, w')
  end.
Proof.
  induction k as [|k IH]; intros st w; [reflexivity|].
  destruct (Z_lt_le_dec (high st) (low st)) as [Hb|Hle].
  - now rewrite !search_break by assumption.
  - cbn [Nat.add]. rewrite !search_step by assumption.
    destruct (probe in_path tb f st w) as [[e|st1] w1]; [reflexivity|]. apply IH.
Qed.

Lemma discard_commands p w : commands (discard p w) = commands w.
Proof. unfold discard. now case_bool_decide. Qed.

(** The gap between floor and ceiling at least halves with each probe. *)
Lemma advance_width tb st ok size n :
  low st <= high st ->
  high st - low st + 1 <= 2 * n + 1 ->
  high (advance tb st ok size) - low (advance tb st ok size) + 1 <= n.
Proof.
  intros Hle Hw. unfold advance, probe_quality.
  pose proof (Z.div_mod (low st + high st) 2 ltac:(lia)) as Hd.
  pose proof (Z.mod_pos_bound (low st + high st) 2 ltac:(lia)) as Hm.
  destruct (fits tb ok size); cbn; lia.
Qed.

Lemma recorded_never_raises tb (f : encoder) :
  never_raises f -> never_raises (recorded tb f).
Proof.
  intros Hf in_path out_path q w. unfold recorded.
  destruct (Hf in_path out_path q w) as (r & w' & ->). now eexists _, _.
Qed.

(** The calls a search makes, as its encoder entered them: no more than
    the passes of the loop, no more than it takes to close the gap
    between floor and ceiling; and when no call met the budget, the
    recorded quality is the one the search started from. *)
Lemma search_recorded n in_path tb (f : encoder) : forall k st w,
  high st - low st + 1 <= 2 ^ Z.of_nat k - 1 ->
  exists calls,
    commands (snd (search n in_path tb (recorded tb f) st w)) = (commands w ++ calls)%list /\
    (length calls <= n)%nat /\ (length calls <= k)%nat /\
    forall st',
      fst (search n in_path tb (recorded tb f) st w) = inr st' ->
      Forall (fun call => met_budget call = false) calls ->
      best_quality st' = best_quality st.
Proof.
  induction n as [|n IH]; intros k st w Hw.
  - exists []. cbn. rewrite app_nil_r. repeat split; try lia.
    intros st' Heq _. now inversion Heq.
  - destruct (Z_lt_le_dec (high st) (low st)) as [Hb|Hle].
    + exists []. rewrite search_break by assumption. cbn. rewrite app_nil_r.
      repeat split; try lia. intros st' Heq _. now inversion Heq.
    + destruct k as [|k]; [cbn in Hw; lia|].
      rewrite Nat2Z.inj_succ, Z.pow_succ_r in Hw by lia.
      rewrite search_step, probe_run by assumption. cbv zeta.
      destruct (f in_path (temp_file_of ".tmp" w) (probe_quality st) (created ".tmp" w))
        as [r0 w2] eqn:Hf.
      assert (Hrec : recorded tb f in_path (temp_file_of ".tmp" w) (probe_quality st)
                       (created ".tmp" w)
                     = (r0, World (fs w2) (error_log w2) (warnings w2) (status_line w2)
                              (commands w ++
                               [[pretty (probe_quality st);
                                 verdict tb (temp_file_of ".tmp" w) r0 w2]])
                              (entropy w2))).
      { unfold recorded. now rewrite Hf. }
      rewrite Hrec. clear Hrec Hf. destruct r0 as [e|r].
      * eexists [_]. cbn [snd fst]. rewrite discard_commands. cbn [commands].
        split; [reflexivity|]. cbn [length]. repeat split; try lia.
        intros st' Heq. discriminate.
      * match goal with |- context [search n in_path tb _ ?st1 ?w1] =>
          destruct (IH k st1 w1) as (calls & Hcmd & Hn & Hk & Hbest) end.
        { apply advance_width; [assumption|lia]. }
        rewrite discard_commands in Hcmd. cbn [commands created] in Hcmd.
        eexists (_ :: calls). split.
        { rewrite Hcmd. rewrite <- app_assoc. reflexivity. }
        cbn [length]. repeat split; try lia.
        intros st' Heq Hall. inversion Hall as [|? ? Hmiss Hrest]; subst.
        rewrite (Hbest st' Heq Hrest).
        cbn [met_budget verdict] in Hmiss. unfold size_at in *. cbn [fs] in *.
        rewrite advance_miss; [reflexivity|].
        unfold size_at.
        destruct (fits tb (fst r) _); [discriminate Hmiss|reflexivity].
Qed.

(** C3. With an encoder that returns an outcome on every call,
    [find_best_quality] returns a quality between 1 and 100.  When the
    encoder enters its calls in the list of commands, at most 8 entries
    are added during the search, and the result is 1 when none of them is
    that of a call that reported success and left a file of at most
    [target_kb * 1024] bytes. *)
Theorem find_best_quality_bounded in_path target_kb (compress_func : encoder) w :
  never_raises compress_func ->
  (exists q w',
     find_best_quality in_path target_kb compress_func w = (inr q, w') /\
     1 <= q <= 100) /\
  exists q w' calls,
    find_best_quality in_path target_kb (recorded (target_kb * 1024) compress_func) w
      = (inr q, w') /\
    1 <= q <= 100 /\
    commands w' = (commands w ++ calls)%list /\
    (length calls <= 8)%nat /\
    (Forall (fun call => met_budget call = false) calls -> q = 1).
Proof.
  intros Hf.
  assert (Hrange : forall f : encoder, never_raises f ->
            exists st w',
              search 8 in_path (target_kb * 1024) f initial_search (search_start target_kb w)
                = (inr st, w') /\
              1 <= (if negb (best_quality st =? -1) then best_quality st else 1) <= 100).
  { intros f Hnr.
    destruct (search_returns 8 in_path (target_kb * 1024) f Hnr initial_search
                (search_start target_kb w)) as (st & w' & Hs).
    exists st, w'. split; [assumption|].
    destruct (search_mono _ _ _ _ _ _ _ _ initial_search_inv Hs)
      as [(Hl & Hh & Hlh & Hb & Hr) _].
    destruct (best_quality st =? -1) eqn:E; cbn; [lia|]. apply Z.eqb_neq in E. lia. }
  split.
  - destruct (Hrange compress_func Hf) as (st & w' & Hs & Hq).
    rewrite find_best_quality_run, Hs. now eexists _, w'.
  - destruct (Hrange _ (recorded_never_raises (target_kb * 1024) _ Hf))
      as (st & w' & Hs & Hq).
    destruct (search_recorded 8 in_path (target_kb * 1024) compress_func 7 initial_search
                (search_start target_kb w)) as (calls & Hcmd & Hn & _ & Hbest);
      [cbn; lia|].
    rewrite find_best_quality_run, Hs. rewrite Hs in Hcmd, Hbest. cbn [fst snd] in Hcmd, Hbest.
    eexists _, w', calls. split; [reflexivity|]. split; [assumption|].
    split; [exact Hcmd|]. split; [assumption|].
    intros Hall. rewrite (Hbest st eq_refl Hall). reflexivity.
Qed.

(** ** Single probes *)

Lemma discard_absent p w : fs w !! p = None -> discard p w = w.
Proof.
  intros Hn. unfold discard.
  rewrite bool_decide_eq_false_2; [reflexivity|]. intros [? ?]; congruence.
Qed.

(** A probe whose encoder reports a failure lowers the ceiling. *)
Lemma probe_failed in_path tb (f : encoder) st w msg w2 :
  f in_path (temp_file_of ".tmp" w) (probe_quality st) (created ".tmp" w)
    = (inr (false, msg), w2) ->
  probe in_path tb f st w = (inr (lowered st), discard (temp_file_of ".tmp" w) w2).
Proof.
  intros Hf. rewrite probe_run. cbv zeta. rewrite Hf. cbn [fst].
  now rewrite advance_miss.
Qed.

(** A probe whose output is larger than the budget lowers the ceiling. *)
Lemma probe_oversized in_path tb (f : encoder) st w ok msg w2 c :
  f in_path (temp_file_of ".tmp" w) (probe_quality st) (created ".tmp" w)
    = (inr (ok, msg), w2) ->
  fs w2 !! temp_file_of ".tmp" w = Some c ->
  tb < Z.of_nat (length c) ->
  probe in_path tb f st w = (inr (lowered st), discard (temp_file_of ".tmp" w) w2).
Proof.
  intros Hf Hc Hbig. rewrite probe_run. cbv zeta. rewrite Hf. cbn [fst].
  rewrite advance_miss; [reflexivity|].
  unfold fits, size_at. rewrite Hc. cbn.
  replace (Z.of_nat (length c) <=? tb) with false by (symmetry; apply Z.leb_gt; lia).
  apply andb_false_r.
Qed.

(** C10. A probe whose encoder reports success but leaves no file at the
    probe's temporary path lowers the ceiling to [q - 1] and records no
    quality: the loop variables are those after a failed or an oversized
    probe ([probe_failed], [probe_oversized]). *)
Theorem probe_without_output in_path target_bytes (compress_func : encoder) st w msg w2 :
  compress_func in_path (temp_file_of ".tmp" w) (probe_quality st) (created ".tmp" w)
    = (inr (true, msg), w2) ->
  fs w2 !! temp_file_of ".tmp" w = None ->
  probe in_path target_bytes compress_func st w =
    (inr (SearchState (low st) (probe_quality st - 1) (best_quality st)), w2).
Proof.
  intros Hf Hn. rewrite probe_run. cbv zeta. rewrite Hf. cbn [fst].
  rewrite discard_absent by assumption.
  rewrite advance_miss; [reflexivity|].
  unfold fits, size_at. now rewrite Hn.
Qed.

(** C4. A probe at quality [q] that succeeds within the budget records
    [best_quality = q] and raises the floor to [q + 1]; after every later
    iteration of the loop, and in the value [find_best_quality] returns,
    the recorded quality is at least [q]. *)
Theorem fitting_probe_is_kept in_path target_kb (compress_func : encoder)
    w0 k st w msg w2 c :
  let target_bytes := target_kb * 1024 in
  let name := temp_file_of ".tmp" w in
  let q := probe_quality st in
  search k in_path target_bytes compress_func initial_search (search_start target_kb w0)
    = (inr st, w) ->
  low st <= high st ->
  compress_func in_path name q (created ".tmp" w) = (inr (true, msg), w2) ->
  fs w2 !! name = Some c ->
  Z.of_nat (length c) <= target_bytes ->
  probe in_path target_bytes compress_func st w
    = (inr (SearchState (q + 1) (high st) q), discard name w2) /\
  (forall n st' w',
     search (k + Datatypes.S n) in_path target_bytes compress_func initial_search
       (search_start target_kb w0) = (inr st', w') ->
     q <= best_quality st') /\
  (forall r w', (k < 8)%nat ->
     find_best_quality in_path target_kb compress_func w0 = (inr r, w') -> q <= r).
Proof.
  intros tb name q Hk Hle Hf Hc Hsz.
  assert (Hfit : fits tb true (size_at name w2) = true).
  { unfold fits, size_at. rewrite Hc. cbn. now apply Z.leb_le. }
  assert (Hp : probe in_path tb compress_func st w
               = (inr (SearchState (q + 1) (high st) q), discard name w2)).
  { rewrite probe_run. cbv zeta. fold name q. rewrite Hf. cbn [fst].
    now rewrite advance_hit. }
  destruct (search_mono _ _ _ _ _ _ _ _ initial_search_inv Hk) as [Hinv _].
  assert (Hinv1 : search_inv (SearchState (q + 1) (high st) q)).
  { pose proof (advance_inv tb st true (size_at name w2) Hle Hinv) as Ha.
    now rewrite advance_hit in Ha. }
  assert (Hlater : forall n st' w',
            search (k + Datatypes.S n) in_path tb compress_func initial_search
              (search_start target_kb w0) = (inr st', w') -> q <= best_quality st').
  { intros n st' w' Hs. rewrite search_add, Hk, search_step, Hp in Hs by assumption.
    apply search_mono in Hs; [|assumption]. now destruct Hs as [_ Hm]. }
  split; [assumption|]. split; [assumption|].
  intros r w' Hk8 Hr. rewrite find_best_quality_run in Hr.
  destruct (search 8 _ _ _ _ _) as [[e|st'] w''] eqn:Hs; [discriminate|].
  inversion Hr; subst.
  replace 8%nat with (k + Datatypes.S (7 - k))%nat in Hs by lia.
  pose proof (Hlater _ _ _ Hs) as Hq.
  pose proof (probe_quality_between st Hle) as Hb.
  destruct Hinv as (Hl & _).
  fold q in Hb. destruct (best_quality st' =? -1) eqn:E; cbn.
  - apply Z.eqb_eq in E. lia.
  - assumption.
Qed.

End Search.

Section Tools.
Context `{Platform}.

Lemma get_tool_path_found tool_name w :
  is_Some (fs w !! tool_path tool_name) ->
  get_tool_path tool_name w = (inr (Some (tool_path tool_name)), w).
Proof.
  intros Hin. unfold get_tool_path, bind, os_path_exists. fold (tool_path tool_name).
  now rewrite bool_decide_eq_true_2.
Qed.

Lemma get_tool_path_returns tool_name w :
  exists r w', get_tool_path tool_name w = (inr r, w') /\
    fs w' = fs w /\ commands w' = commands w /\ entropy w' = entropy w.
Proof.
  unfold get_tool_path, bind, os_path_exists, log_error, showwarning, ret.
  case_bool_decide; cbn; eauto 10.
Qed.

(** The tool runner turns every way a process can end into an outcome,
    and runs exactly the command it was given. *)
Lemma _run_tool_returns command w :
  exists r w', _run_tool command w = (inr r, w') /\
    commands w' = (commands w ++ [command])%list /\
    fs w' = snd (subprocess_run command (fs w)) /\
    entropy w' = entropy w.
Proof.
  unfold _run_tool, bind, run, log_error, ret.
  destruct (subprocess_run command (fs w)) as [[rc out err|e] f]; cbn [snd].
  - destruct (_ && _); [eauto 10|]. destruct (negb _); cbn; eauto 10.
  - destruct e; cbn; eauto 10.
Qed.

Lemma compress_jpeg_never_raises : never_raises compress_jpeg.
Proof.
  intros in_path out_path q w. unfold compress_jpeg, bind.
  destruct (get_tool_path_returns "cjpeg.exe" w) as (r & w' & Hr & _). rewrite Hr.
  destruct r as [p|]; [|now eexists _, _].
  destruct (_run_tool_returns [p; "-quality"; pretty q; "-progressive"; "-outfile"; out_path; in_path] w')
    as (r & w'' & Hr' & _).
  eauto.
Qed.

Lemma compress_webp_never_raises : never_raises compress_webp.
Proof.
  intros in_path out_path q w. unfold compress_webp, bind.
  destruct (get_tool_path_returns "cwebp.exe" w) as (r & w' & Hr & _). rewrite Hr.
  destruct r as [p|]; [|now eexists _, _].
  destruct (_run_tool_returns [p; "-q"; pretty q; in_path; "-o"; out_path] w')
    as (r & w'' & Hr' & _).
  eauto.
Qed.

Lemma compress_jpeg_one_command : one_command compress_jpeg.
Proof.
  intros in_path out_path q w. unfold compress_jpeg, bind.
  destruct (get_tool_path_returns "cjpeg.exe" w) as (r & w' & Hr & _ & Hc & _). rewrite Hr.
  destruct r as [p|]; [|cbn; rewrite Hc; lia].
  destruct (_run_tool_returns [p; "-quality"; pretty q; "-progressive"; "-outfile"; out_path; in_path] w')
    as (r & w'' & Hr' & Hc' & _).
  rewrite Hr'. cbn [snd]. rewrite Hc', length_app, Hc. cbn. lia.
Qed.

Lemma compress_webp_one_command : one_command compress_webp.
Proof.
  intros in_path out_path q w. unfold compress_webp, bind.
  destruct (get_tool_path_returns "cwebp.exe" w) as (r & w' & Hr & _ & Hc & _). rewrite Hr.
  destruct r as [p|]; [|cbn; rewrite Hc; lia].
  destruct (_run_tool_returns [p; "-q"; pretty q; in_path; "-o"; out_path] w')
    as (r & w'' & Hr' & Hc' & _).
  rewrite Hr'. cbn [snd]. rewrite Hc', length_app, Hc. cbn. lia.
Qed.

(** With such an encoder a search of [n] iterations runs at most [n]
    commands, so [find_best_quality] runs at most 8. *)
Lemma search_commands n in_path tb (f : encoder) :
  one_command f ->
  forall st w,
    (length (commands (snd (search n in_path tb f st w))) <= n + length (commands w))%nat.
Proof.
  intros Hf. induction n as [|n IH]; intros st w; [cbn; lia|].
  destruct (Z_lt_le_dec (high st) (low st)) as [Hb|Hle].
  - rewrite search_break by assumption. cbn. lia.
  - rewrite search_step, probe_run by assumption. cbv zeta.
    pose proof (Hf in_path (temp_file_of ".tmp" w) (probe_quality st) (created ".tmp" w)) as H1.
    destruct (f in_path _ _ _) as [[e|r] w2]; cbn [snd] in *.
    + rewrite discard_commands. cbn [created commands] in H1. lia.
    + specialize (IH (advance tb st r.1 (size_at (temp_file_of ".tmp" w) w2))
                     (discard (temp_file_of ".tmp" w) w2)).
      rewrite discard_commands in IH. cbn [created commands] in H1. lia.
Qed.

Lemma find_best_quality_commands in_path target_kb (f : encoder) w :
  one_command f ->
  (length (commands (snd (find_best_quality in_path target_kb f w)))
   <= 8 + length (commands w))%nat.
Proof.
  intros Hf. rewrite find_best_quality_run.
  pose proof (search_commands 8 in_path (target_kb * 1024) f Hf initial_search
                (search_start target_kb w)) as Hs.
  destruct (search 8 _ _ _ _ _) as [[e|st] w']; cbn [snd] in *; exact Hs.
Qed.

(** [compress_png] with the further pass enabled, once the quantizer has
    answered "Already Optimized": the rest is one run of zopflipng and the
    removal of the quantizer's intermediate file. *)
Lemma compress_png_further_pass_run in_path out_path quality_range w w1 :
  is_Some (fs w !! tool_path "pngquant.exe") ->
  is_Some (fs w !! tool_path "zopflipng.exe") ->
  _run_tool (p_command (tool_path "pngquant.exe") quality_range (quant_path out_path) in_path) w
    = (inr (true, "Already Optimized"), w1) ->
  is_Some (fs w1 !! tool_path "zopflipng.exe") ->
  compress_png in_path out_path quality_range true w =
    (fst (_run_tool (z_command (tool_path "zopflipng.exe") in_path out_path) w1),
     discard (quant_path out_path)
       (snd (_run_tool (z_command (tool_path "zopflipng.exe") in_path out_path) w1))).
Proof.
  intros Hpq Hzp Hquant Hzp1.
  unfold compress_png. unfold bind at 1. rewrite (get_tool_path_found _ _ Hpq).
  unfold bind at 1. rewrite (get_tool_path_found _ _ Hzp).
  cbn [negb]. fold (quant_path out_path).
  unfold try_finally. unfold bind at 1.
  fold (p_command (tool_path "pngquant.exe") quality_range (quant_path out_path) in_path).
  rewrite Hquant. cbn [negb]. cbv beta iota. rewrite String.eqb_refl.
  unfold bind at 1. rewrite (get_tool_path_found _ _ Hzp1).
  fold (z_command (tool_path "zopflipng.exe") in_path out_path).
  destruct (_run_tool (z_command _ _ _) w1) as [r w2]. cbn [fst snd].
  now rewrite remove_if_exists_run.
Qed.

(** C5. With the further pass enabled, when the quantizer stage reports
    "Already Optimized" and zopflipng is still installed, the next and only
    other command [compress_png] runs is zopflipng with the original input
    path as its source and the output path as its destination; its outcome
    is the outcome of [compress_png]. *)
Theorem already_optimized_recompresses_input in_path out_path quality_range w w1 :
  is_Some (fs w !! tool_path "pngquant.exe") ->
  is_Some (fs w !! tool_path "zopflipng.exe") ->
  _run_tool (p_command (tool_path "pngquant.exe") quality_range (quant_path out_path) in_path) w
    = (inr (true, "Already Optimized"), w1) ->
  is_Some (fs w1 !! tool_path "zopflipng.exe") ->
  exists r w2 w3,
    _run_tool (z_command (tool_path "zopflipng.exe") in_path out_path) w1 = (inr r, w2) /\
    compress_png in_path out_path quality_range true w = (inr r, w3) /\
    commands w3 =
      (commands w ++ [p_command (tool_path "pngquant.exe") quality_range (quant_path out_path) in_path;
                      z_command (tool_path "zopflipng.exe") in_path out_path])%list.
Proof.
  intros Hpq Hzp Hquant Hzp1.
  destruct (_run_tool_returns (z_command (tool_path "zopflipng.exe") in_path out_path) w1)
    as (r & w2 & Hz & Hcmd2 & _).
  destruct (_run_tool_returns
              (p_command (tool_path "pngquant.exe") quality_range (quant_path out_path) in_path) w)
    as (r1 & w1' & Hq' & Hcmd1 & _).
  rewrite Hquant in Hq'. inversion Hq'; subst r1 w1'.
  exists r, w2, (discard (quant_path out_path) w2).
  split; [assumption|]. split.
  - rewrite (compress_png_further_pass_run _ _ _ _ _ Hpq Hzp Hquant Hzp1).
    now rewrite Hz.
  - rewrite discard_commands, Hcmd2, Hcmd1. now rewrite <- app_assoc.
Qed.


End Tools.

Section Opacity.
Context `{Platform}.

Lemma opacity_check_world file_path w : snd (opacity_check file_path w) = w.
Proof.
  unfold opacity_check, bind, Image_open, lift_result, ret.
  destruct (fs w !! file_path) as [c|]; [|reflexivity].
  destruct (pil_open c) as [e|img]; [reflexivity|].
  destruct (_ && _); [reflexivity|].
  case_bool_decide; [|reflexivity].
  now destruct (img_alpha img).
Qed.

Lemma any_below_255_false data :
  Forall (fun p => p = 255) data -> any_below_255 data = false.
Proof.
  unfold any_below_255. induction 1 as [|p l Hp _ IH]; [reflexivity|].
  cbn. rewrite IH, Hp. reflexivity.
Qed.

Lemma any_below_255_true data :
  Exists (fun p => p < 255) data -> any_below_255 data = true.
Proof.
  unfold any_below_255. induction 1 as [p l Hp|p l _ IH]; cbn.
  - apply Z.ltb_lt in Hp. now rewrite Hp.
  - rewrite IH. apply orb_true_r.
Qed.

(** The check on a readable image. *)
Lemma opacity_check_run file_path w c img data :
  fs w !! file_path = Some c -> pil_open c = inr img ->
  alpha_samples img = inr data ->
  opacity_check file_path w =
    (inr (negb (palette_transparency img) && negb (any_below_255 data)), w).
Proof.
  intros Hc Himg Ha. unfold opacity_check, bind, Image_open, lift_result, ret.
  rewrite Hc, Himg. fold (palette_transparency img).
  destruct (palette_transparency img); [reflexivity|].
  unfold alpha_samples in Ha. case_bool_decide.
  - now rewrite Ha.
  - now inversion Ha.
Qed.

Lemma is_png_fully_opaque_returns file_path w :
  exists b w', is_png_fully_opaque file_path w = (inr b, w') /\
    fs w' = fs w /\ commands w' = commands w /\ entropy w' = entropy w.
Proof.
  unfold is_png_fully_opaque, try_except.
  pose proof (opacity_check_world file_path w) as Hw.
  destruct (opacity_check file_path w) as [[e|b] w1]; cbn in Hw; subst w1.
  - unfold bind, log_error, ret. cbn. eauto 10.
  - eauto 10.
Qed.

Lemma derive_target_returns file_path o w :
  exists nm w', derive_target file_path o w = (inr nm, w') /\
    fs w' = fs w /\ commands w' = commands w /\ entropy w' = entropy w.
Proof.
  unfold derive_target. destruct (_ && _ && _); [|unfold ret; eauto 10].
  unfold bind.
  destruct (is_png_fully_opaque_returns file_path w) as (b & w' & Hb & Hw).
  rewrite Hb. destruct b; unfold ret; eauto 10.
Qed.

(** C9. When opening or inspecting the image raises, whatever the
    exception, [is_png_fully_opaque] returns False, and the names
    [process_file] derives are those the options ask for: the file is not
    sent to JPEG by the opacity rule. *)
Theorem unreadable_png_is_not_opaque file_path w e w1 :
  opacity_check file_path w = (inl e, w1) ->
  fst (is_png_fully_opaque file_path w) = inr false /\
  (forall o, fst (derive_target file_path o w) = inr (requested_naming file_path o)).
Proof.
  intros Hraise.
  assert (Hop : fst (is_png_fully_opaque file_path w) = inr false).
  { unfold is_png_fully_opaque, try_except. now rewrite Hraise. }
  split; [assumption|].
  intros o. unfold derive_target. destruct (_ && _ && _); [|reflexivity].
  unfold bind. destruct (is_png_fully_opaque file_path w) as [[e'|b] w'];
    cbn in Hop; [discriminate|].
  inversion Hop; subst. reflexivity.
Qed.

(** The ways the check raises: no file, no decodable image, or alpha
    data that cannot be loaded. *)
Lemma opacity_check_missing file_path w :
  fs w !! file_path = None ->
  opacity_check file_path w = (inl (FileNotFoundError file_path), w).
Proof. intros Hn. unfold opacity_check, bind, Image_open. now rewrite Hn. Qed.

Lemma opacity_check_undecodable file_path w c e :
  fs w !! file_path = Some c -> pil_open c = inl e ->
  opacity_check file_path w = (inl e, w).
Proof. intros Hc He. unfold opacity_check, bind, Image_open. now rewrite Hc, He. Qed.

Lemma opacity_check_truncated file_path w c img e :
  fs w !! file_path = Some c -> pil_open c = inr img ->
  palette_transparency img = false -> alpha_samples img = inl e ->
  opacity_check file_path w = (inl e, w).
Proof.
  intros Hc Himg Hp Ha. unfold opacity_check, bind, Image_open, lift_result.
  rewrite Hc, Himg. fold (palette_transparency img). rewrite Hp.
  unfold alpha_samples in Ha. case_bool_decide; [now rewrite Ha|discriminate].
Qed.

(** C7. For a PNG input with auto-convert on and no explicit format: when
    the palette has no transparency entry and every alpha sample is 255,
    the target format is "jpeg" and the output path, when the file is not
    overwritten, ends in ".jpeg"; when some alpha sample is below 255 the
    target format stays "png". *)
Theorem opaque_png_goes_to_jpeg file_path o w c img data :
  opt_auto_convert_png o = Some true ->
  default STRINGS.keep_original_format (opt_format o) = STRINGS.keep_original_format ->
  str_lower (snd (path_splitext (path_basename file_path))) = ".png" ->
  fs w !! file_path = Some c ->
  pil_open c = inr img ->
  alpha_samples img = inr data ->
  exists nm,
    derive_target file_path o w = (inr nm, w) /\
    (palette_transparency img = false -> Forall (fun p => p = 255) data ->
       target_format nm = "jpeg" /\ is_converting_format nm = true /\
       (should_overwrite nm = false ->
        final_output_path file_path o nm =
          path_join (output_directory file_path o)
            (file_name nm ++ default "-tiny" (opt_suffix o) ++ ".jpeg"))) /\
    (Exists (fun p => p < 255) data ->
       target_format nm = "png" /\ is_converting_format nm = false).
Proof.
  intros Hauto Hfmt Hpng Hc Himg Ha.
  assert (Hext : file_ext_orig (requested_naming file_path o)
                 = snd (path_splitext (path_basename file_path))).
  { unfold requested_naming. now destruct (path_splitext _). }
  assert (Hconv : is_converting_format (requested_naming file_path o) = false).
  { unfold requested_naming. destruct (path_splitext _). cbn.
    rewrite Hfmt. now rewrite String.eqb_refl. }
  assert (Htf : target_format (requested_naming file_path o) = "png").
  { unfold requested_naming. destruct (path_splitext _) as [n e] eqn:E. cbn.
    rewrite Hfmt, String.eqb_refl. cbn. cbn in Hpng. now rewrite Hpng. }
  unfold derive_target. rewrite Hauto, Hext, Hpng, Hconv, String.eqb_refl.
  cbn [default from_option id andb negb]. cbv beta iota.
  unfold bind, is_png_fully_opaque, try_except.
  rewrite (opacity_check_run _ _ _ _ _ Hc Himg Ha).
  destruct (palette_transparency img) eqn:Hp; cbn [negb andb].
  - eexists. split; [reflexivity|]. split; [discriminate|].
    intros _. now split.
  - destruct (any_below_255 data) eqn:Hany; cbn [negb].
    + eexists. split; [reflexivity|]. split.
      * intros _ Hall. rewrite any_below_255_false in Hany by assumption. discriminate.
      * intros _. now split.
    + eexists. split; [reflexivity|]. split.
      * intros _ _. split; [reflexivity|]. split; [reflexivity|].
        cbn. intros Hov. unfold final_output_path. cbn. rewrite Hov. reflexivity.
      * intros Hex. rewrite any_below_255_true in Hany by assumption. discriminate.
Qed.

End Opacity.

Section Orchestrator.
Context `{Platform}.

Lemma derive_target_cases file_path o w nm w1 :
  derive_target file_path o w = (inr nm, w1) ->
  should_overwrite nm = default false (opt_overwrite o) /\
  (nm = requested_naming file_path o \/ is_converting_format nm = true).
Proof.
  assert (Hov : should_overwrite (requested_naming file_path o)
                = default false (opt_overwrite o)).
  { unfold requested_naming. now destruct (path_splitext _). }
  unfold derive_target. destruct (_ && _ && _).
  - unfold bind. destruct (is_png_fully_opaque file_path w) as [[e|[|]] w'];
      unfold ret; intros Heq; inversion Heq; subst; cbn; auto.
  - unfold ret. intros Heq; inversion Heq; subst. auto.
Qed.

Lemma requested_naming_own file_path o :
  is_converting_format (requested_naming file_path o) = false ->
  target_format (requested_naming file_path o) = own_format file_path.
Proof.
  unfold requested_naming, own_format. destruct (path_splitext _) as [n e]. cbn.
  now intros ->.
Qed.

(** C6. When the options ask to overwrite the file and the derived target
    format is not the input's own (an explicit format, or an opaque PNG
    sent to JPEG), [process_file] returns the failure "Cannot overwrite
    file when changing its format."; no command has been run, no temporary
    file has been created and every file has the bytes it had. *)
Theorem overwrite_with_format_change_fails file_path o w nm w1 :
  derive_target file_path o w = (inr nm, w1) ->
  default false (opt_overwrite o) = true ->
  target_format nm <> own_format file_path ->
  exists w',
    process_file file_path o w = (inr (false, STRINGS.overwrite_format_error), w') /\
    fs w' = fs w /\ commands w' = commands w /\ entropy w' = entropy w.
Proof.
  intros Hd Hov Hne.
  destruct (derive_target_cases _ _ _ _ _ Hd) as [Hso Hcases].
  assert (Hconv : is_converting_format nm = true).
  { destruct Hcases as [->|Hc]; [|assumption].
    destruct (is_converting_format (requested_naming file_path o)) eqn:E; [reflexivity|].
    exfalso. apply Hne. now apply requested_naming_own. }
  destruct (derive_target_returns file_path o w) as (nm' & w1' & Hd' & Hfs & Hcmd & Hent).
  rewrite Hd in Hd'. inversion Hd'; subst nm' w1'.
  unfold process_file, bind. rewrite Hd, Hso, Hov, Hconv. cbn [andb].
  unfold log_error, ret. cbn. eauto.
Qed.

Lemma cleanup_returns l : forall w (t : list string),
  exists w', for_each l (fun f => lift (remove_if_exists f)) (w, t) = (inr tt, (w', t)).
Proof.
  induction l as [|f l IH]; intros w t; cbn [for_each].
  - now exists w.
  - unfold bind, lift. cbn [fst snd]. rewrite remove_if_exists_run. apply IH.
Qed.

(** [process_file] without a conflict, once its temporary output file is
    created, in terms of the body of its [try]: every exception of the
    body (staging, conversion, encoding, the final move) becomes the
    failure "An unexpected error occurred: e". *)
Lemma process_file_run file_path o w nm w1 :
  derive_target file_path o w = (inr nm, w1) ->
  should_overwrite nm && is_converting_format nm = false ->
  (String.length ("." ++ target_format nm) <= 244)%nat ->
  exists w',
    process_file file_path o w =
      (inr match process_body file_path o nm (final_output_path file_path o nm)
                   (temp_file_of ("." ++ target_format nm) w1) (try_start nm w1) with
           | (inr r, _) => r
           | (inl e, _) => (false, "An unexpected error occurred: " ++ exn_str e)
           end, w').
Proof.
  intros Hd Hnc Hlen. unfold process_file. unfold bind at 1. rewrite Hd, Hnc.
  unfold bind at 1. rewrite NamedTemporaryFile_run by assumption.
  unfold try_finally, try_except. fold (try_start nm w1).
  destruct (process_body _ _ _ _ _ _) as [[e|r] [w2 t]].
  - unfold bind, lift, log_error, ret. cbn [fst snd]. unfold cleanup. cbn [snd].
    match goal with |- context [for_each t ?g (?w, t)] =>
      destruct (cleanup_returns t w t) as (w' & ->) end.
    now exists w'.
  - unfold cleanup. cbn [snd].
    destruct (cleanup_returns t w2 t) as (w' & ->). now exists w'.
Qed.

(** The temporary output file is created before the [try] (line 193):
    when its name is over the limit, [process_file] raises, with every
    file and the list of commands as the opacity check left them. *)
Lemma process_file_long file_path o w nm w1 :
  derive_target file_path o w = (inr nm, w1) ->
  should_overwrite nm && is_converting_format nm = false ->
  (244 < String.length ("." ++ target_format nm))%nat ->
  exists e w', process_file file_path o w = (inl e, w') /\
               fs w' = fs w1 /\ commands w' = commands w1.
Proof.
  intros Hd Hnc Hlen. unfold process_file. unfold bind at 1. rewrite Hd, Hnc.
  unfold bind at 1.
  destruct (NamedTemporaryFile_long _ w1 Hlen) as (e & w' & -> & Hfs & Hcmd).
  now exists e, w'.
Qed.

(** Every file the finalizer was given is gone when it is done. *)
Lemma cleanup_removes l : forall w (t : list string) w' t',
  for_each l (fun f => lift (remove_if_exists f)) (w, t) = (inr tt, (w', t')) ->
  forall f, f ∈ l -> fs w' !! f = None.
Proof.
  induction l as [|x l IH]; intros w t w' t' Hrun f Hin.
  - inversion Hin.
  - cbn [for_each] in Hrun. unfold bind, lift in Hrun. cbn [fst snd] in Hrun.
    rewrite remove_if_exists_run in Hrun.
    destruct (decide (f ∈ l)) as [Hl|Hl]; [now apply (IH _ _ _ _ Hrun)|].
    assert (f = x) as -> by (inversion Hin; subst; [reflexivity|contradiction]).
    clear Hin IH.
    assert (Hgone : fs (discard x w) !! x = None).
    { unfold discard. case_bool_decide as Hex.
      - cbn. apply lookup_delete_eq.
      - destruct (fs w !! x) eqn:E; [exfalso; apply Hex; eauto|reflexivity]. }
    revert Hrun Hgone. generalize (discard x w). clear w.
    induction l as [|y l IH]; intros w Hrun Hgone.
    + cbn in Hrun. unfold ret in Hrun. now inversion Hrun; subst.
    + cbn [for_each] in Hrun. unfold bind, lift in Hrun. cbn [fst snd] in Hrun.
      rewrite remove_if_exists_run in Hrun.
      apply (IH ltac:(set_solver) _ Hrun).
      unfold discard. case_bool_decide; [|assumption].
      cbn. rewrite lookup_delete_ne; [assumption|set_solver].
Qed.

(** On the PNG path without staging, when [compress_png] answers
    "Already Optimized" the call reports success and returns in the very
    world [compress_png] left: the finalizer has nothing to remove, since
    the temporary output file was taken off [temp_files] without being
    moved. *)
Lemma already_optimized_keeps_temp_output file_path o w nm w1 w2 :
  derive_target file_path o w = (inr nm, w1) ->
  should_overwrite nm && is_converting_format nm = false ->
  is_ascii file_path = true ->
  default false (opt_resize_enabled o) = false ->
  target_format nm = "png" ->
  strip_dots (str_lower (snd (path_splitext file_path))) = "png" ->
  compress_png file_path (temp_file_of ".png" w1) (png_quality_range o)
    (default false (opt_max_png o)) (created ".png" w1)
    = (inr (true, "Already Optimized"), w2) ->
  process_file file_path o w
    = (inr (true, already_optimized_message (original_basename nm)), w2).
Proof.
  intros Hd Hnc Hasc Hres Htf Hext Hpng.
  unfold process_file. unfold bind at 1. rewrite Hd, Hnc.
  unfold bind at 1. rewrite NamedTemporaryFile_run by (rewrite Htf; apply Nat.leb_le; reflexivity).
  unfold try_finally, try_except.
  assert (Hbody :
    process_body file_path o nm (final_output_path file_path o nm)
      (temp_file_of ("." ++ target_format nm) w1)
      (created ("." ++ target_format nm) w1, [temp_file_of ("." ++ target_format nm) w1])
    = (inr (true, already_optimized_message (original_basename nm)), (w2, []))).
  { unfold process_body. unfold bind at 1. unfold lift at 1. cbn [fst snd].
    unfold _safe_copy_for_processing. rewrite Hasc. unfold ret at 1.
    unfold bind at 1. unfold ret at 1.
    rewrite Hres. cbn [andb]. unfold bind at 1. unfold ret at 1.
    rewrite Hext, Htf. cbn [negb String.eqb Ascii.eqb Bool.eqb]. cbv beta iota.
    unfold bind at 1. unfold ret at 1.
    unfold bind at 1. unfold lift at 1. cbn [fst snd].
    unfold dispatch. rewrite Htf. cbn [is_jpeg String.eqb Ascii.eqb Bool.eqb orb].
    cbv beta iota zeta. fold (png_quality_range o).
    unfold bind at 1.
    change ("." ++ "png") with ".png".
    rewrite Hpng. unfold ret at 1. cbn [andb].
    rewrite !String.eqb_refl. cbn [negb andb].
    unfold bind at 1. unfold ret at 1. unfold bind at 1.
    unfold untrack. cbn [snd fst remove_first]. rewrite String.eqb_refl.
    reflexivity. }
  rewrite Hbody. unfold cleanup. cbn. reflexivity.
Qed.

End Orchestrator.

(** * The theorems at concrete inputs *)

Import Example.

Section Quiet.
#[local] Existing Instance P99.

Example search_finds_51 :
  fst (find_best_quality "/pics/a.jpg" 5 sized_encoder pictures) = inr 51.
Proof. vm_compute. reflexivity. Qed.

Lemma sized_encoder_never_raises : never_raises sized_encoder.
Proof. intros i o q w. now eexists _, _. Qed.

Lemma find_best_quality_bounded_witness :
  never_raises sized_encoder /\
  (exists q w',
     find_best_quality "/pics/a.jpg" 5 sized_encoder pictures = (inr q, w') /\
     1 <= q <= 100) /\
  exists q w' calls,
    find_best_quality "/pics/a.jpg" 5 (recorded (5 * 1024) sized_encoder) pictures
      = (inr q, w') /\
    1 <= q <= 100 /\
    commands w' = (commands pictures ++ calls)%list /\
    (length calls <= 8)%nat /\
    (Forall (fun call => met_budget call = false) calls -> q = 1).
Proof.
  split; [exact sized_encoder_never_raises|].
  exact (find_best_quality_bounded "/pics/a.jpg" 5 sized_encoder pictures
           sized_encoder_never_raises).
Defined.

(** The calls of that search, as the encoder entered them: seven, ending
    at the quality returned. *)
Example search_for_5k_calls :
  commands (snd (find_best_quality "/pics/a.jpg" 5 (recorded (5 * 1024) sized_encoder)
                   pictures))
  = [["50"; "fits"]; ["75"; "misses"]; ["62"; "misses"]; ["56"; "misses"];
     ["53"; "misses"]; ["51"; "fits"]; ["52"; "misses"]].
Proof. vm_compute. reflexivity. Qed.

(** The first probe of a search with a budget of 5 KB: quality 50, an
    output of 5000 bytes. *)
Lemma fitting_probe_is_kept_witness :
  let w := search_start 5 pictures in
  let w2 := snd (sized_encoder "/pics/a.jpg" "/tmp/tmp0.tmp" 50 (created ".tmp" w)) in
  probe "/pics/a.jpg" (5 * 1024) sized_encoder initial_search w
    = (inr (SearchState 51 100 50), discard "/tmp/tmp0.tmp" w2) /\
  (forall n st' w',
     search (0 + Datatypes.S n) "/pics/a.jpg" (5 * 1024) sized_encoder
       initial_search w = (inr st', w') -> 50 <= best_quality st') /\
  (forall r w', (0 < 8)%nat ->
     find_best_quality "/pics/a.jpg" 5 sized_encoder pictures = (inr r, w') ->
     50 <= r).
Proof.
  intros w w2.
  refine (fitting_probe_is_kept "/pics/a.jpg" 5 sized_encoder pictures 0
            initial_search w "Success" w2 (repeat x00 5000) _ _ _ _ _).
  - reflexivity.
  - vm_compute. discriminate.
  - reflexivity.
  - vm_compute. reflexivity.
  - vm_compute. discriminate.
Defined.

Lemma probe_without_output_witness :
  let w2 := snd (vanishing_encoder "/pics/a.jpg" "/tmp/tmp0.tmp" 50
                   (created ".tmp" pictures)) in
  fs w2 !! "/tmp/tmp0.tmp" = None /\
  probe "/pics/a.jpg" 5120 vanishing_encoder initial_search pictures
    = (inr (SearchState 1 49 (-1)), w2).
Proof.
  intros w2.
  assert (Hn : fs w2 !! "/tmp/tmp0.tmp" = None) by (vm_compute; reflexivity).
  split; [exact Hn|].
  exact (probe_without_output "/pics/a.jpg" 5120 vanishing_encoder
           initial_search pictures "Success" w2 eq_refl Hn).
Defined.

Lemma already_optimized_recompresses_input_witness :
  let quant := p_command (tool_path "pngquant.exe") "65-75" (quant_path "/tmp/out.png")
                 "/pics/a.png" in
  let w1 := snd (_run_tool quant pictures) in
  exists r w2 w3,
    _run_tool (z_command (tool_path "zopflipng.exe") "/pics/a.png" "/tmp/out.png") w1
      = (inr r, w2) /\
    compress_png "/pics/a.png" "/tmp/out.png" "65-75" true pictures = (inr r, w3) /\
    commands w3 =
      (commands pictures ++
       [quant; z_command (tool_path "zopflipng.exe") "/pics/a.png" "/tmp/out.png"])%list.
Proof.
  intros quant w1.
  refine (already_optimized_recompresses_input "/pics/a.png" "/tmp/out.png" "65-75"
            pictures w1 _ _ _ _).
  - eexists. vm_compute. reflexivity.
  - eexists. vm_compute. reflexivity.
  - vm_compute. reflexivity.
  - eexists. vm_compute. reflexivity.
Defined.



(** Overwriting "a.png" while asking for JPEG. *)
Lemma overwrite_with_format_change_fails_witness :
  let o := Options (Some true) (Some "JPEG") None None None None None None None None None None in
  exists w',
    process_file "/pics/a.png" o pictures
      = (inr (false, "Cannot overwrite file when changing its format."), w') /\
    fs w' = fs pictures /\ commands w' = commands pictures /\ entropy w' = entropy pictures.
Proof.
  intros o.
  refine (overwrite_with_format_change_fails "/pics/a.png" o pictures
            (Naming "a.png" "a" ".png" true "jpeg" true) pictures _ _ _).
  - reflexivity.
  - reflexivity.
  - vm_compute. discriminate.
Defined.

(** C8 fails on the code.  For a file whose extension has 253
    characters the temporary output file of line 193 would get a name of
    265 characters; [NamedTemporaryFile] raises, and since that line
    stands before the [try], [process_file] raises to its caller.  No
    outcome is returned and the file system is untouched. *)
Theorem long_extension_escapes_process_file :
  String.length (basename long_named) = 255%nat /\
  fs long_named_pictures !! long_named = Some [x01] /\
  exists w',
    process_file long_named headless long_named_pictures
      = (inl (OtherError ("[Errno 36] File name too long: '/tmp/tmp0." ++ long_extension ++ "'")),
         w') /\
    fs w' = fs long_named_pictures /\ error_log w' = [].
Proof.
  split; [vm_compute; reflexivity|]. split; [vm_compute; reflexivity|].
  eexists. split; [vm_compute; reflexivity|]. split; reflexivity.
Qed.

(** The headless batch of [main] stops there: the file after it is never
    processed. *)
Example long_extension_aborts_the_batch :
  exists e w',
    main_headless [long_named; "/pics/a.png"] long_named_pictures = (inl e, w') /\
    fs w' = fs long_named_pictures /\ commands w' = [].
Proof. eexists _, _. split; [vm_compute; reflexivity|]. split; reflexivity. Qed.

(** An exception in the body: the format bridge cannot decode the file. *)
Example undecodable_input_is_reported :
  let o := Options None (Some "JPEG") None None None None None None None None None None in
  fst (process_file "/pics/a.png" o pictures)
    = inr (false, "An unexpected error occurred: cannot identify image file") /\
  fs (snd (process_file "/pics/a.png" o pictures)) = fs pictures.
Proof. split; vm_compute; reflexivity. Qed.

Lemma unreadable_png_is_not_opaque_witness :
  fst (is_png_fully_opaque "/pics/missing.png" pictures) = inr false /\
  (forall o, fst (derive_target "/pics/missing.png" o pictures)
             = inr (requested_naming "/pics/missing.png" o)).
Proof.
  exact (unreadable_png_is_not_opaque "/pics/missing.png" pictures
           (FileNotFoundError "/pics/missing.png") pictures eq_refl).
Defined.

End Quiet.

Section Opaque.
#[local] Existing Instance P_opaque.

Lemma opaque_png_goes_to_jpeg_witness :
  exists nm,
    derive_target "/pics/a.png" headless pictures = (inr nm, pictures) /\
    (palette_transparency (rgba [255; 255]) = false ->
     Forall (fun p => p = 255) [255; 255] ->
       target_format nm = "jpeg" /\ is_converting_format nm = true /\
       (should_overwrite nm = false ->
        final_output_path "/pics/a.png" headless nm =
          path_join (output_directory "/pics/a.png" headless)
            (file_name nm ++ default "-tiny" (opt_suffix headless) ++ ".jpeg"))) /\
    (Exists (fun p => p < 255) [255; 255] ->
       target_format nm = "png" /\ is_converting_format nm = false).
Proof.
  refine (opaque_png_goes_to_jpeg "/pics/a.png" headless pictures [x01]
            (rgba [255; 255]) [255; 255] _ _ _ _ _ _); reflexivity.
Defined.

Example opaque_png_output_path :
  match fst (derive_target "/pics/a.png" headless pictures) with
  | inr nm => Some (final_output_path "/pics/a.png" headless nm)
  | inl _ => None
  end = Some "/pics/a-tiny.jpeg".
Proof. vm_compute. reflexivity. Qed.

(** The whole pipeline on that file: the output is "/pics/a-tiny.jpeg" and
    nothing is left in the temporary directory. *)
Example opaque_png_is_written_as_jpeg :
  let r := process_file "/pics/a.png" headless pictures in
  fst r = inr (true, "'a.png' -> JPEG, quality 75.") /\
  fs (snd r) = <["/pics/a-tiny.jpeg" := []]> (fs pictures).
Proof. split; vm_compute; reflexivity. Qed.

End Opaque.

Section Translucent.
#[local] Existing Instance P_translucent.

Example translucent_png_stays_png :
  match fst (derive_target "/pics/a.png" headless pictures) with
  | inr nm => Some (target_format nm)
  | inl _ => None
  end = Some "png".
Proof. vm_compute. reflexivity. Qed.

(** C1 fails on the code. A PNG with a transparent pixel, the options of
    the headless mode (no maximum-compression pass), pngquant exits with
    99: [process_file] reports success, and the temporary output file it
    created, "/tmp/tmp0.png", is still there with a copy of the input,
    while no output file was written. *)
Theorem already_optimized_png_leaves_temp_output :
  let r := process_file "/pics/a.png" headless pictures in
  fst r = inr (true, "'a.png' is already optimized.") /\
  fs pictures !! "/tmp/tmp0.png" = None /\
  fs (snd r) !! "/tmp/tmp0.png" = Some [x01] /\
  fs (snd r) !! "/pics/a-tiny.png" = None /\
  fs (snd r) = <["/tmp/tmp0.png" := [x01]]> (fs pictures).
Proof. repeat split; vm_compute; reflexivity. Qed.

End Translucent.

(** * Further properties *)

Section ToolRunner.
Context `{Platform}.

(** [_run_tool] answers "Already Optimized" with success exactly when the
    tool is pngquant.exe and the process exited with code 98 or 99. *)
Theorem already_optimized_iff_pngquant_98_99 command w :
  fst (_run_tool command w) = inr (true, "Already Optimized") <->
  path_basename (hd "" command) = "pngquant.exe" /\
  exists returncode stdout stderr,
    fst (subprocess_run command (fs w)) = Completed returncode stdout stderr /\
    (returncode = 98 \/ returncode = 99).
Proof.
  unfold _run_tool, bind, run, log_error, ret.
  destruct (subprocess_run command (fs w)) as [[rc out err|e] f]; cbn [fst].
  - destruct (String.eqb_spec (path_basename (hd "" command)) "pngquant.exe") as [Hn|Hn];
      cbn [andb].
    + destruct ((rc =? 98) || (rc =? 99)) eqn:Hrc.
      * split; [|reflexivity]. intros _. split; [assumption|].
        exists rc, out, err. split; [reflexivity|]. lia.
      * destruct (negb (rc =? 0)); cbn [fst]; (split; [discriminate|]);
          intros (_ & rc' & out' & err' & Heq & Hcode); inversion Heq; subst; lia.
    + destruct (negb (rc =? 0)); cbn [fst]; (split; [discriminate|]);
        intros (Hn' & _); contradiction.
  - split.
    + destruct e; cbn [fst]; discriminate.
    + intros (_ & rc & out & err & Heq & _). discriminate.
Qed.

(** [_run_tool] reports success exactly when the process ran and exited
    with code 0, or was pngquant.exe exiting with 98 or 99; every other
    way the process can end, not being launched included, is a failure. *)
Theorem run_tool_success_iff command w :
  (exists message, fst (_run_tool command w) = inr (true, message)) <->
  exists returncode stdout stderr,
    fst (subprocess_run command (fs w)) = Completed returncode stdout stderr /\
    (returncode = 0 \/
     (path_basename (hd "" command) = "pngquant.exe" /\
      (returncode = 98 \/ returncode = 99))).
Proof.
  unfold _run_tool, bind, run, log_error, ret.
  destruct (subprocess_run command (fs w)) as [[rc out err|e] f]; cbn [fst].
  - destruct (String.eqb_spec (path_basename (hd "" command)) "pngquant.exe") as [Hn|Hn];
      cbn [andb].
    + destruct ((rc =? 98) || (rc =? 99)) eqn:Hrc.
      * split; [|eauto]. intros _. exists rc, out, err. split; [reflexivity|]. right.
        split; [assumption|lia].
      * destruct (Z.eqb_spec rc 0) as [H0|H0]; cbn [negb fst].
        -- split; [|eauto]. intros _. exists rc, out, err. auto.
        -- split; [intros [m Hm]; discriminate|].
           intros (rc' & out' & err' & Heq & Hcode). inversion Heq; subst. lia.
    + destruct (Z.eqb_spec rc 0) as [H0|H0]; cbn [negb fst].
      * split; [|eauto]. intros _. exists rc, out, err. auto.
      * split; [intros [m Hm]; discriminate|].
        intros (rc' & out' & err' & Heq & [Hcode|[Hn' _]]);
          inversion Heq; subst; [lia|contradiction].
  - split.
    + intros [m Hm]. destruct e; cbn [fst] in Hm; discriminate.
    + intros (rc & out & err & Heq & _). discriminate.
Qed.


End ToolRunner.

Section Encoders.
Context `{Platform}.

(** Without cjpeg.exe the JPEG encoder fails with "cjpeg.exe not found.":
    no command is run, no file is touched, and the missing tool is logged
    and shown in a warning once. *)
Theorem compress_jpeg_without_tool in_path out_path quality w :
  fs w !! tool_path "cjpeg.exe" = None ->
  exists w',
    compress_jpeg in_path out_path quality w = (inr (false, "cjpeg.exe not found."), w') /\
    fs w' = fs w /\ commands w' = commands w /\
    error_log w' =
      (error_log w ++ [("Tool not found at expected path: " ++ tool_path "cjpeg.exe")%string])%list /\
    warnings w' =
      (warnings w ++ ["cjpeg.exe not found. This feature will be disabled."])%list.
Proof.
  intros Hmiss. unfold compress_jpeg, get_tool_path, bind, os_path_exists.
  fold (tool_path "cjpeg.exe").
  rewrite bool_decide_eq_false_2 by (rewrite Hmiss; intros [? ?]; discriminate).
  cbn. eexists. split; [reflexivity|]. cbn. auto.
Qed.

(** With cjpeg.exe installed the JPEG encoder runs exactly one command,
    [cjpeg -quality q -progressive -outfile out in]; the file system it
    leaves is the one the tool left, and it reports success exactly when
    the tool exited with code 0. *)
Theorem compress_jpeg_runs_cjpeg in_path out_path quality w :
  is_Some (fs w !! tool_path "cjpeg.exe") ->
  path_basename (tool_path "cjpeg.exe") <> "pngquant.exe" ->
  let command := [tool_path "cjpeg.exe"; "-quality"; pretty quality; "-progressive";
                  "-outfile"; out_path; in_path] in
  exists r w',
    compress_jpeg in_path out_path quality w = (inr r, w') /\
    commands w' = (commands w ++ [command])%list /\
    fs w' = snd (subprocess_run command (fs w)) /\
    (fst r = true <->
     exists stdout stderr, fst (subprocess_run command (fs w)) = Completed 0 stdout stderr).
Proof.
  intros Hin Hname command.
  unfold compress_jpeg. unfold bind at 1. rewrite (get_tool_path_found _ _ Hin).
  fold command.
  destruct (_run_tool_returns command w) as (r & w' & Hr & Hc & Hf & _).
  exists r, w'. split; [assumption|]. split; [assumption|]. split; [assumption|].
  revert Hr. unfold _run_tool, bind, run, log_error, ret.
  change (hd "" command) with (tool_path "cjpeg.exe").
  replace (String.eqb (path_basename (tool_path "cjpeg.exe")) "pngquant.exe") with false
    by (symmetry; now apply String.eqb_neq).
  cbn [andb].
  destruct (subprocess_run command (fs w)) as [[rc out err|e] f]; cbn [fst].
  - destruct (Z.eqb_spec rc 0) as [H0|H0]; cbn [negb]; intros Hr; inversion Hr; subst; cbn [fst].
    + split; [eauto|reflexivity].
    + split; [discriminate|]. intros (out' & err' & Heq). inversion Heq. contradiction.
  - destruct e; intros Hr; inversion Hr; cbn [fst];
      (split; [discriminate|]); intros (out' & err' & Heq); discriminate.
Qed.

End Encoders.

Section SearchOutcome.
Context `{Platform}.

Lemma discard_lookup p w : fs (discard p w) !! p = None.
Proof.
  unfold discard. case_bool_decide as Hex.
  - cbn. apply lookup_delete_eq.
  - destruct (fs w !! p) eqn:E; [exfalso; apply Hex; eauto|reflexivity].
Qed.

Lemma discard_lookup_ne p q w : p <> q -> fs (discard p w) !! q = fs w !! q.
Proof.
  intros Hne. unfold discard. case_bool_decide; [|reflexivity].
  cbn. now apply lookup_delete_ne.
Qed.

(** The temporary file of a probe is gone when the probe ends, whether
    the encoder succeeded, failed or raised. *)
Theorem probe_removes_its_temp_file in_path target_bytes (compress_func : encoder) st w :
  fs (snd (probe in_path target_bytes compress_func st w)) !! temp_file_of ".tmp" w = None.
Proof.
  rewrite probe_run. cbv zeta.
  destruct (compress_func in_path _ _ _) as [[e|r] w2]; cbn [snd]; apply discard_lookup.
Qed.

Lemma probe_restores_files in_path tb (f : encoder) st w :
  writes_only_output f ->
  fs w !! temp_file_of ".tmp" w = None ->
  fs (snd (probe in_path tb f st w)) = fs w.
Proof.
  intros Hframe Hfree. rewrite probe_run. cbv zeta.
  pose proof (Hframe in_path (temp_file_of ".tmp" w) (probe_quality st) (created ".tmp" w))
    as Hf.
  destruct (f in_path _ _ _) as [r w2]. cbn [snd] in Hf.
  assert (Hgoal : fs (discard (temp_file_of ".tmp" w) w2) = fs w).
  { apply map_eq. intros p.
    destruct (decide (p = temp_file_of ".tmp" w)) as [->|Hne].
    - now rewrite discard_lookup, Hfree.
    - rewrite discard_lookup_ne by congruence. rewrite Hf by assumption.
      cbn. now apply lookup_insert_ne. }
  now destruct r.
Qed.

Lemma search_restores_files n in_path tb (f : encoder) :
  writes_only_output f ->
  forall st w, probe_names_free (fs w) ->
    fs (snd (search n in_path tb f st w)) = fs w.
Proof.
  intros Hframe. induction n as [|n IH]; intros st w Hfree; [reflexivity|].
  destruct (Z_lt_le_dec (high st) (low st)) as [Hb|Hle].
  - now rewrite search_break.
  - rewrite search_step by assumption.
    pose proof (probe_restores_files in_path tb f st w Hframe (Hfree (entropy w))) as Hp.
    destruct (probe in_path tb f st w) as [[e|st1] w1]; cbn [snd] in Hp; [assumption|].
    rewrite IH; [assumption|]. unfold probe_names_free. now rewrite Hp.
Qed.

(** When the encoder writes nothing but its output file and no file has
    the name of a probe's temporary file, [find_best_quality] leaves every
    file as it found it: no probe output stays behind. *)
Theorem find_best_quality_restores_files in_path target_kb (compress_func : encoder) w :
  writes_only_output compress_func ->
  probe_names_free (fs w) ->
  fs (snd (find_best_quality in_path target_kb compress_func w)) = fs w.
Proof.
  intros Hframe Hfree. rewrite find_best_quality_run.
  pose proof (search_restores_files 8 in_path (target_kb * 1024) compress_func Hframe
                initial_search (search_start target_kb w) Hfree) as Hs.
  now destruct (search 8 _ _ _ _ _) as [[e|st] w'].
Qed.

(** Seven probes always close the gap between floor and ceiling: the
    eighth pass of the loop breaks, so [find_best_quality] calls the
    encoder at most 7 times, whatever the encoder does: an encoder that
    enters its calls in the list of commands adds at most 7 entries. *)
Theorem find_best_quality_needs_seven_probes in_path target_kb (compress_func : encoder) w :
  exists calls,
    commands (snd (find_best_quality in_path target_kb
                     (recorded (target_kb * 1024) compress_func) w))
      = (commands w ++ calls)%list /\
    (length calls <= 7)%nat.
Proof.
  destruct (search_recorded 8 in_path (target_kb * 1024) compress_func 7 initial_search
              (search_start target_kb w)) as (calls & Hcmd & _ & Hk & _); [cbn; lia|].
  exists calls. split; [|assumption].
  rewrite find_best_quality_run.
  destruct (search 8 _ _ _ _ _) as [[e|st] w']; exact Hcmd.
Qed.

(** What an exact search keeps true: every quality below the floor fits,
    none above the ceiling does, and the recorded quality is the one just
    below the floor. *)
Lemma exact_step (fit : Z -> bool) tb st ok size :
  downward_closed fit ->
  low st <= high st -> search_inv st ->
  fits tb ok size = fit (probe_quality st) ->
  (forall q, 1 <= q < low st -> fit q = true) ->
  (forall q, high st < q <= 100 -> fit q = false) ->
  (best_quality st = -1 -> low st = 1) ->
  (best_quality st <> -1 -> best_quality st = low st - 1) ->
  let st' := advance tb st ok size in
  (forall q, 1 <= q < low st' -> fit q = true) /\
  (forall q, high st' < q <= 100 -> fit q = false) /\
  (best_quality st' = -1 -> low st' = 1) /\
  (best_quality st' <> -1 -> best_quality st' = low st' - 1).
Proof.
  intros Hdc Hle (Hl & Hh & Hlh & Hb & Hr) Hfit Hbelow Habove Hnone Hsome.
  pose proof (probe_quality_between st Hle) as Hq.
  unfold advance. rewrite Hfit.
  destruct (fit (probe_quality st)) eqn:E; cbn.
  - repeat split.
    + intros q Hq'. apply (Hdc q (probe_quality st)); [lia|assumption].
    + assumption.
    + lia.
    + lia.
  - repeat split.
    + assumption.
    + intros q Hq'. destruct (fit q) eqn:Eq; [|reflexivity].
      rewrite (Hdc (probe_quality st) q) in E; [discriminate|lia|assumption].
    + assumption.
    + assumption.
Qed.

Lemma search_exact (inv : world -> Prop) (fit : Z -> bool) in_path tb (f : encoder) :
  governed_by inv fit in_path tb f -> downward_closed fit ->
  forall n st w,
    inv w ->
    search_inv st ->
    high st - low st + 1 <= 2 ^ Z.of_nat n - 1 ->
    (forall q, 1 <= q < low st -> fit q = true) ->
    (forall q, high st < q <= 100 -> fit q = false) ->
    (best_quality st = -1 -> low st = 1) ->
    (best_quality st <> -1 -> best_quality st = low st - 1) ->
    exists st' w',
      search n in_path tb f st w = (inr st', w') /\
      search_inv st' /\ high st' < low st' /\
      (forall q, 1 <= q < low st' -> fit q = true) /\
      (forall q, high st' < q <= 100 -> fit q = false) /\
      (best_quality st' = -1 -> low st' = 1) /\
      (best_quality st' <> -1 -> best_quality st' = low st' - 1).
Proof.
  intros Hgov Hdc. induction n as [|n IH]; intros st w Hw0 Hinv Hw Hbelow Habove Hnone Hsome.
  - change (2 ^ Z.of_nat 0) with 1 in Hw. exists st, w.
    split; [reflexivity|]. split; [assumption|]. split; [lia|]. auto.
  - destruct (Z_lt_le_dec (high st) (low st)) as [Hb|Hle].
    + exists st, w. rewrite search_break by assumption.
      split; [reflexivity|]. split; [assumption|]. split; [lia|]. auto.
    + rewrite search_step, probe_run by assumption. cbv zeta.
      pose proof (probe_quality_between st Hle) as Hq.
      destruct Hinv as (Hl & Hh & Hrest).
      destruct (Hgov (probe_quality st) w ltac:(lia) Hw0) as (r & w2 & Hr & Hfit & Hw2).
      rewrite Hr.
      assert (Hinv : search_inv st) by (repeat split; tauto).
      destruct (exact_step fit tb st (fst r) (size_at (temp_file_of ".tmp" w) w2)
                  Hdc Hle Hinv Hfit Hbelow Habove Hnone Hsome) as (Hb' & Ha' & Hn' & Hs').
      apply IH; try assumption.
      * now apply advance_inv.
      * rewrite Nat2Z.inj_succ, Z.pow_succ_r in Hw by lia.
        apply advance_width; [assumption|lia].
Qed.

(** When, in the worlds the search goes through, the probes meet the
    budget exactly at the qualities a downward-closed test [fit] accepts,
    [find_best_quality] returns the highest quality between 1 and 100 that
    fits, and 1 when none does.  The worlds of the search are those of an
    invariant [inv] that holds when the loop starts and that every probe
    keeps. *)
Theorem find_best_quality_is_exact (inv : world -> Prop) (fit : Z -> bool)
    in_path target_kb (compress_func : encoder) w :
  governed_by inv fit in_path (target_kb * 1024) compress_func ->
  downward_closed fit ->
  inv (search_start target_kb w) ->
  exists q w',
    find_best_quality in_path target_kb compress_func w = (inr q, w') /\
    ((fit q = true /\ 1 <= q <= 100 /\
      forall q', 1 <= q' <= 100 -> fit q' = true -> q' <= q) \/
     (q = 1 /\ forall q', 1 <= q' <= 100 -> fit q' = false)).
Proof.
  intros Hgov Hdc Hstart. rewrite find_best_quality_run.
  destruct (search_exact inv fit in_path (target_kb * 1024) compress_func Hgov Hdc 8
              initial_search (search_start target_kb w) Hstart initial_search_inv)
    as (st & w' & Hs & (Hl & Hh & Hlh & Hb & Hr) & Hconv & Hbelow & Habove & Hnone & Hsome);
    try (cbn; intros; lia).
  rewrite Hs. eexists _, w'. split; [reflexivity|].
  destruct (Z.eqb_spec (best_quality st) (-1)) as [E|E]; cbn [negb].
  - right. split; [reflexivity|]. intros q' Hq'. apply Habove.
    specialize (Hnone E). lia.
  - left. specialize (Hsome E). split; [apply Hbelow; lia|]. split; [lia|].
    intros q' Hq' Hfit. destruct (Z_le_gt_dec q' (best_quality st)) as [|Hgt]; [assumption|].
    rewrite Habove in Hfit by lia. discriminate.
Qed.

End SearchOutcome.

Section PngEncoder.
Context `{Platform}.

Lemma get_tool_path_missing tool_name w :
  fs w !! tool_path tool_name = None ->
  exists w', get_tool_path tool_name w = (inr None, w') /\
    fs w' = fs w /\ commands w' = commands w /\ entropy w' = entropy w.
Proof.
  intros Hmiss. unfold get_tool_path, bind, os_path_exists. fold (tool_path tool_name).
  rewrite bool_decide_eq_false_2 by (rewrite Hmiss; intros [? ?]; discriminate).
  cbn. eauto 10.
Qed.

(** [compress_png] needs both tools, whatever [use_zopfli] says: when
    pngquant.exe or zopflipng.exe is missing it fails with "PNG tools
    (pngquant/zopflipng) not found." before running anything, also when
    the further pass was not asked for. *)
Theorem compress_png_needs_both_tools in_path out_path quality_range (use_zopfli : bool) w :
  fs w !! tool_path "pngquant.exe" = None \/ fs w !! tool_path "zopflipng.exe" = None ->
  exists w',
    compress_png in_path out_path quality_range use_zopfli w
      = (inr (false, "PNG tools (pngquant/zopflipng) not found."), w') /\
    fs w' = fs w /\ commands w' = commands w.
Proof.
  intros Hmiss. unfold compress_png. unfold bind at 1.
  destruct (fs w !! tool_path "pngquant.exe") as [c|] eqn:Hpq.
  - destruct Hmiss as [Hm|Hm]; [discriminate|].
    rewrite get_tool_path_found by (rewrite Hpq; eauto).
    unfold bind at 1.
    destruct (get_tool_path_missing "zopflipng.exe" w Hm) as (w' & -> & Hf & Hc & _).
    exists w'. unfold ret. auto.
  - destruct (get_tool_path_missing "pngquant.exe" w Hpq) as (w1 & -> & Hf & Hc & _).
    unfold bind at 1.
    destruct (get_tool_path_returns "zopflipng.exe" w1) as (r & w2 & -> & Hf2 & Hc2 & _).
    exists w2. unfold ret. split; [now destruct r|]. split; congruence.
Qed.

(** The body of the [try] of [compress_png] raises only in the verbatim
    copy: with the further pass on it always returns. *)
Lemma compress_png_zopfli_body_returns in_path out_path quality_range pq temp_path w :
  exists r w',
    (q <- _run_tool (p_command pq quality_range temp_path in_path) ;;
     let '(quant_success, quant_msg) := q in
     if negb quant_success then ret (false, quant_msg)
     else if String.eqb quant_msg "Already Optimized" then
       zopflipng_path <- get_tool_path "zopflipng.exe" ;;
       match zopflipng_path with
       | None => ret (false, "zopflipng.exe not found.")
       | Some zopflipng_path =>
           _run_tool [zopflipng_path; "-y"; "--iterations=15"; in_path; out_path]
       end
     else
       zopflipng_path <- get_tool_path "zopflipng.exe" ;;
       match zopflipng_path with
       | None => ret (false, "zopflipng.exe not found.")
       | Some zopflipng_path =>
           _run_tool [zopflipng_path; "-y"; "--iterations=15"; temp_path; out_path]
       end) w = (inr r, w').
Proof.
  unfold bind at 1.
  destruct (_run_tool_returns (p_command pq quality_range temp_path in_path) w)
    as ([ok msg] & w1 & -> & _).
  destruct ok; cbn [negb]; [|unfold ret; eauto].
  destruct (String.eqb msg "Already Optimized"); unfold bind;
    destruct (get_tool_path_returns "zopflipng.exe" w1) as ([zp|] & w2 & -> & _);
    try (unfold ret; eauto; fail).
  - destruct (_run_tool_returns [zp; "-y"; "--iterations=15"; in_path; out_path] w2)
      as (r & w3 & -> & _). eauto.
  - destruct (_run_tool_returns [zp; "-y"; "--iterations=15"; temp_path; out_path] w2)
      as (r & w3 & -> & _). eauto.
Qed.

(** With the further pass on and both tools installed, [compress_png]
    always returns an outcome, and the intermediate file of the quantizer
    is gone afterwards, whatever the two tools did. *)
Theorem compress_png_removes_intermediate in_path out_path quality_range w :
  is_Some (fs w !! tool_path "pngquant.exe") ->
  is_Some (fs w !! tool_path "zopflipng.exe") ->
  exists r w',
    compress_png in_path out_path quality_range true w = (inr r, w') /\
    fs w' !! quant_path out_path = None.
Proof.
  intros Hpq Hzp. unfold compress_png. unfold bind at 1.
  rewrite (get_tool_path_found _ _ Hpq). unfold bind at 1.
  rewrite (get_tool_path_found _ _ Hzp). cbn [negb]. fold (quant_path out_path).
  unfold try_finally.
  destruct (compress_png_zopfli_body_returns in_path out_path quality_range
              (tool_path "pngquant.exe") (quant_path out_path) w) as (r & w1 & Hbody).
  unfold p_command in Hbody. rewrite Hbody, remove_if_exists_run.
  exists r, (discard (quant_path out_path) w1). split; [reflexivity|]. apply discard_lookup.
Qed.

(** When the quantizer fails, [compress_png] returns its failure and runs
    nothing else: the only command is the quantizer's. *)
Theorem compress_png_stops_at_quantizer_failure in_path out_path quality_range
    (use_zopfli : bool) w message w1 :
  is_Some (fs w !! tool_path "pngquant.exe") ->
  is_Some (fs w !! tool_path "zopflipng.exe") ->
  _run_tool (p_command (tool_path "pngquant.exe") quality_range
               (if use_zopfli then quant_path out_path else out_path) in_path) w
    = (inr (false, message), w1) ->
  exists w',
    compress_png in_path out_path quality_range use_zopfli w = (inr (false, message), w') /\
    commands w' =
      (commands w ++ [p_command (tool_path "pngquant.exe") quality_range
                        (if use_zopfli then quant_path out_path else out_path) in_path])%list.
Proof.
  intros Hpq Hzp Hquant.
  destruct (_run_tool_returns
              (p_command (tool_path "pngquant.exe") quality_range
                 (if use_zopfli then quant_path out_path else out_path) in_path) w)
    as (r & w1' & Hr & Hc & _).
  rewrite Hquant in Hr. inversion Hr; subst r w1'. clear Hr.
  unfold compress_png. unfold bind at 1.
  rewrite (get_tool_path_found _ _ Hpq). unfold bind at 1.
  rewrite (get_tool_path_found _ _ Hzp).
  unfold try_finally. unfold bind at 1.
  destruct use_zopfli; cbn [negb].
  - fold (quant_path out_path).
    fold (p_command (tool_path "pngquant.exe") quality_range (quant_path out_path) in_path).
    rewrite Hquant. cbn [negb]. unfold ret at 1. rewrite remove_if_exists_run.
    eexists. split; [reflexivity|]. now rewrite discard_commands.
  - fold (p_command (tool_path "pngquant.exe") quality_range out_path in_path).
    rewrite Hquant. cbn [negb]. unfold ret. eexists. split; [reflexivity|]. assumption.
Qed.

(** When the quantizer produced a new file ("Success"): without the
    further pass that file is the output and nothing else runs; with it,
    zopflipng is run from the quantizer's intermediate file to the output
    path and its outcome is returned. *)
Theorem compress_png_after_quantizer_success in_path out_path quality_range
    (use_zopfli : bool) w w1 :
  is_Some (fs w !! tool_path "pngquant.exe") ->
  is_Some (fs w !! tool_path "zopflipng.exe") ->
  _run_tool (p_command (tool_path "pngquant.exe") quality_range
               (if use_zopfli then quant_path out_path else out_path) in_path) w
    = (inr (true, "Success"), w1) ->
  (use_zopfli = false ->
   compress_png in_path out_path quality_range use_zopfli w = (inr (true, "Success"), w1)) /\
  (use_zopfli = true ->
   is_Some (fs w1 !! tool_path "zopflipng.exe") ->
   exists r w2,
     _run_tool (z_command (tool_path "zopflipng.exe") (quant_path out_path) out_path) w1
       = (inr r, w2) /\
     compress_png in_path out_path quality_range use_zopfli w
       = (inr r, discard (quant_path out_path) w2) /\
     commands w2 =
       (commands w ++
        [p_command (tool_path "pngquant.exe") quality_range (quant_path out_path) in_path;
         z_command (tool_path "zopflipng.exe") (quant_path out_path) out_path])%list).
Proof.
  intros Hpq Hzp Hquant. split.
  - intros ->. unfold compress_png. unfold bind at 1.
    rewrite (get_tool_path_found _ _ Hpq). unfold bind at 1.
    rewrite (get_tool_path_found _ _ Hzp). cbn [negb].
    unfold try_finally. unfold bind at 1.
    fold (p_command (tool_path "pngquant.exe") quality_range out_path in_path).
    rewrite Hquant. reflexivity.
  - intros -> Hzp1.
    destruct (_run_tool_returns
                (z_command (tool_path "zopflipng.exe") (quant_path out_path) out_path) w1)
      as (r & w2 & Hz & Hc2 & _).
    destruct (_run_tool_returns
                (p_command (tool_path "pngquant.exe") quality_range (quant_path out_path) in_path) w)
      as (r1 & w1' & Hr & Hc1 & _).
    rewrite Hquant in Hr. inversion Hr; subst r1 w1'. clear Hr.
    exists r, w2. split; [assumption|]. split.
    + unfold compress_png. unfold bind at 1.
      rewrite (get_tool_path_found _ _ Hpq). unfold bind at 1.
      rewrite (get_tool_path_found _ _ Hzp). cbn [negb]. fold (quant_path out_path).
      unfold try_finally. unfold bind at 1.
      fold (p_command (tool_path "pngquant.exe") quality_range (quant_path out_path) in_path).
      rewrite Hquant. cbn [negb]. cbv beta iota.
      change (String.eqb "Success" "Already Optimized") with false. cbv iota.
      unfold bind at 1. rewrite (get_tool_path_found _ _ Hzp1).
      fold (z_command (tool_path "zopflipng.exe") (quant_path out_path) out_path).
      rewrite Hz. now rewrite remove_if_exists_run.
    + rewrite Hc2, Hc1. now rewrite <- app_assoc.
Qed.

End PngEncoder.

Section Staging.
Context `{Platform}.

Lemma any_below_255_spec data :
  any_below_255 data = false <-> Forall (fun p => 255 <= p) data.
Proof.
  unfold any_below_255. induction data as [|p l IH]; cbn.
  - split; [constructor|reflexivity].
  - rewrite orb_false_iff, IH, Z.ltb_ge, Forall_cons. tauto.
Qed.

(** [is_png_fully_opaque] answers True exactly for a file that opens as
    an image which is not a palette image with a transparency entry and
    whose alpha samples, if it has any, are all at least 255; in every
    other case, unreadable files included, it answers False. *)
Theorem is_png_fully_opaque_iff file_path w :
  fst (is_png_fully_opaque file_path w) = inr true <->
  exists c img data,
    fs w !! file_path = Some c /\ pil_open c = inr img /\
    palette_transparency img = false /\
    alpha_samples img = inr data /\ Forall (fun p => 255 <= p) data.
Proof.
  split.
  - unfold is_png_fully_opaque, try_except, opacity_check, bind, Image_open, lift_result,
      log_error, ret.
    destruct (fs w !! file_path) as [c|]; [|cbn; discriminate].
    destruct (pil_open c) as [e|img] eqn:Himg; [cbn; discriminate|].
    fold (palette_transparency img).
    destruct (palette_transparency img) eqn:Hp; [cbn; discriminate|].
    destruct (alpha_samples img) as [e|data] eqn:Ha; unfold alpha_samples in Ha;
      case_bool_decide; try discriminate.
    + rewrite Ha. cbn. discriminate.
    + rewrite Ha. cbn [fst]. intros Hr.
      exists c, img, data. repeat split; try assumption; try reflexivity.
      * unfold alpha_samples. now rewrite bool_decide_eq_true_2.
      * apply any_below_255_spec. inversion Hr as [Hn]. now destruct (any_below_255 data).
    + inversion Ha; subst data. intros _.
      exists c, img, []. repeat split; try assumption; try reflexivity.
      * unfold alpha_samples. now rewrite bool_decide_eq_false_2.
      * constructor.
  - intros (c & img & data & Hc & Himg & Hp & Ha & Hall).
    unfold is_png_fully_opaque, try_except.
    rewrite (opacity_check_run _ _ _ _ _ Hc Himg Ha), Hp.
    apply any_below_255_spec in Hall. now rewrite Hall.
Qed.

(** An ASCII path is used as it is and nothing is copied; a non-ASCII
    path of an existing file is copied byte for byte to
    [<tmp>/temp_<random><ext>], when a file can be created there (the
    extension leaves the name within the limit); the copy is returned for
    processing and for deletion, and the original stays in place. *)
Theorem safe_copy_keeps_the_bytes file_path w :
  (is_ascii file_path = true ->
   _safe_copy_for_processing file_path w = (inr (file_path, None), w)) /\
  (is_ascii file_path = false ->
   forall c,
     fs w !! file_path = Some c ->
     let safe_path :=
       path_join gettempdir
         ("temp_" ++ random_name (entropy w) ++ snd (path_splitext file_path)) in
     safe_path <> file_path ->
     creatable safe_path = true ->
     exists w',
       _safe_copy_for_processing file_path w = (inr (safe_path, Some safe_path), w') /\
       fs w' = <[safe_path := c]> (fs w) /\
       fs w' !! file_path = Some c /\ commands w' = commands w).
Proof.
  split.
  - intros Hasc. unfold _safe_copy_for_processing. now rewrite Hasc.
  - intros Hasc c Hc safe_path Hne _.
    unfold _safe_copy_for_processing. rewrite Hasc.
    unfold bind, fresh_name, shutil_copy2, ret. cbn [fs]. fold safe_path.
    rewrite Hc.
    replace (String.eqb file_path safe_path) with false
      by (symmetry; apply String.eqb_neq; congruence).
    eexists. split; [reflexivity|]. cbn. split; [reflexivity|].
    split; [|reflexivity]. now rewrite lookup_insert_ne.
Qed.

(** [_convert_image] runs no command and writes to one path only,
    [<tmp>/converted_<random>.<format>]: every other file is as it was,
    whether the call returns or raises.  When it returns, it returns that
    path, and a file is there. *)
Theorem convert_image_writes_one_file source_path target_format w :
  let path :=
    path_join gettempdir ("converted_" ++ random_name (entropy w) ++ "." ++ target_format) in
  exists r w',
    _convert_image source_path target_format w = (r, w') /\
    commands w' = commands w /\
    (forall p, p <> path -> fs w' !! p = fs w !! p) /\
    (forall p, r = inr p -> p = path /\ is_Some (fs w' !! path)).
Proof.
  intros path.
  assert (Hsave : forall img o,
            exists r w',
              (Image_save img path o ;;; ret path)
                (World (fs w) (error_log w) (warnings w) (status_line w) (commands w)
                       (Datatypes.S (entropy w))) = (r, w') /\
              commands w' = commands w /\
              (forall p, p <> path -> fs w' !! p = fs w !! p) /\
              (forall p, r = inr p -> p = path /\ is_Some (fs w' !! path))).
  { intros img o. unfold bind, Image_save, ret.
    destruct (pil_save img path o) as [[e [c|]]|c]; eexists _, _;
      (split; [reflexivity|]); (split; [reflexivity|]); cbn [fs set_fs]; split;
      try (intros p Hp; now rewrite ?lookup_insert_ne by congruence);
      try (intros p Hp; discriminate).
    intros p Hp. inversion Hp; subst. split; [reflexivity|].
    rewrite lookup_insert_eq. eauto. }
  assert (Hstop : forall e : exn,
            exists r w',
              (inl e : exn + string,
               World (fs w) (error_log w) (warnings w) (status_line w) (commands w)
                     (Datatypes.S (entropy w))) = (r, w') /\
              commands w' = commands w /\
              (forall p, p <> path -> fs w' !! p = fs w !! p) /\
              (forall p, r = inr p -> p = path /\ is_Some (fs w' !! path))).
  { intros e. eexists _, _. split; [reflexivity|]. split; [reflexivity|].
    split; [reflexivity|]. intros p Hp. discriminate. }
  unfold _convert_image.
  unfold bind at 1. unfold fresh_name. fold path.
  unfold bind at 1. unfold Image_open. cbn [fs].
  destruct (fs w !! source_path) as [c|]; [|apply Hstop].
  destruct (pil_open c) as [e|img]; [apply Hstop|].
  destruct (is_jpeg target_format).
  - destruct (String.eqb (img_mode img) "RGBA").
    + unfold bind at 2. unfold lift_result.
      destruct (pil_convert img "RGB") as [e|img']; [apply Hstop|]. apply Hsave.
    + apply Hsave.
  - destruct (String.eqb target_format "png").
    + destruct (negb _).
      * unfold bind at 2. unfold lift_result.
        destruct (pil_convert img "RGBA") as [e|img']; [apply Hstop|]. apply Hsave.
      * apply Hsave.
    + apply Hsave.
Qed.

End Staging.

Section Finalizer.
Context `{Platform}.

Lemma cleanup_run l : forall w (t : list string),
  for_each l (fun f => lift (remove_if_exists f)) (w, t) = (inr tt, (discard_all l w, t)).
Proof.
  induction l as [|f l IH]; intros w t; cbn [for_each]; [reflexivity|].
  unfold bind, lift. cbn [fst snd]. rewrite remove_if_exists_run. apply IH.
Qed.

Lemma discard_all_commands l : forall w, commands (discard_all l w) = commands w.
Proof.
  induction l as [|f l IH]; intros w; [reflexivity|].
  cbn. unfold discard_all in IH. rewrite IH. apply discard_commands.
Qed.

Lemma discard_all_absent l : forall w f, f ∈ l -> fs (discard_all l w) !! f = None.
Proof.
  intros w f Hin. apply (cleanup_removes l w l (discard_all l w) l (cleanup_run l w l) f Hin).
Qed.

Lemma discard_all_other l : forall w f, f ∉ l -> fs (discard_all l w) !! f = fs w !! f.
Proof.
  induction l as [|x l IH]; intros w f Hnin; [reflexivity|].
  cbn. unfold discard_all in IH. rewrite IH by set_solver.
  apply discard_lookup_ne. set_solver.
Qed.

(** [process_file] without a conflict, with the world it returns in. *)
Lemma process_file_unfold file_path o w nm w1 rb w2 t :
  derive_target file_path o w = (inr nm, w1) ->
  should_overwrite nm && is_converting_format nm = false ->
  (String.length ("." ++ target_format nm) <= 244)%nat ->
  process_body file_path o nm (final_output_path file_path o nm)
    (temp_file_of ("." ++ target_format nm) w1) (try_start nm w1) = (rb, (w2, t)) ->
  process_file file_path o w =
    match rb with
    | inr r => (inr r, discard_all t w2)
    | inl e =>
        (inr (false, "An unexpected error occurred: " ++ exn_str e),
         discard_all t
           (snd (log_error ("A fatal error occurred during processing: " ++ exn_str e) w2)))
    end.
Proof.
  intros Hd Hnc Hlen Hbody. unfold process_file. unfold bind at 1. rewrite Hd, Hnc.
  unfold bind at 1. rewrite NamedTemporaryFile_run by assumption.
  unfold try_finally, try_except. fold (try_start nm w1). rewrite Hbody.
  destruct rb as [e|r].
  - unfold bind, lift, log_error, ret. cbn [fst snd]. unfold cleanup. cbn [snd].
    now rewrite cleanup_run.
  - unfold cleanup. cbn [snd]. now rewrite cleanup_run.
Qed.

Lemma keeps_ret {A} x (a : A) : keeps_tracked x (ret a).
Proof. intros s r s' Heq Hin. unfold ret in Heq. now inversion Heq; subst. Qed.

Lemma keeps_getitem {A} x key (v : option A) : keeps_tracked x (getitem key v).
Proof.
  intros s r s' Heq Hin. destruct v; cbn in Heq; unfold ret, raise in Heq;
    now inversion Heq; subst.
Qed.

Lemma keeps_lift {A} x (m : M world A) : keeps_tracked x (lift m).
Proof.
  intros s r s' Heq Hin. unfold lift in Heq. destruct (m (fst s)) as [r0 w0].
  now inversion Heq; subst.
Qed.

Lemma keeps_track x p : keeps_tracked x (track p).
Proof.
  intros s r s' Heq Hin. unfold track in Heq. inversion Heq; subst. cbn.
  apply elem_of_app. now left.
Qed.

Lemma keeps_bind {A B} x (m : M frame A) (k : A -> M frame B) :
  keeps_tracked x m -> (forall a, keeps_tracked x (k a)) -> keeps_tracked x (bind m k).
Proof.
  intros Hm Hk s r s' Heq Hin. unfold bind in Heq.
  destruct (m s) as [[e|a] s1] eqn:Hms.
  - inversion Heq; subst. exact (Hm _ _ _ Hms Hin).
  - exact (Hk a _ _ _ Heq (Hm _ _ _ Hms Hin)).
Qed.

Lemma ends_bind {A} x tmp (m : M frame A) (k : A -> M frame outcome) :
  keeps_tracked x m -> (forall a, ends_tracked x tmp (k a)) -> ends_tracked x tmp (bind m k).
Proof.
  intros Hm Hk s r s' Heq Hin. unfold bind in Heq.
  destruct (m s) as [[e|a] s1] eqn:Hms.
  - inversion Heq; subst. left. exact (Hm _ _ _ Hms Hin).
  - exact (Hk a _ _ _ Heq (Hm _ _ _ Hms Hin)).
Qed.

Lemma ends_of_keeps x tmp (m : M frame outcome) :
  keeps_tracked x m -> ends_tracked x tmp m.
Proof. intros Hm s r s' Heq Hin. left. exact (Hm _ _ _ Heq Hin). Qed.

Lemma remove_first_elem x : forall l l' y,
  remove_first x l = Some l' -> y ∈ l -> y ∈ l' \/ y = x.
Proof.
  induction l as [|z l IH]; intros l' y Hr Hin; [inversion Hin|].
  cbn in Hr. destruct (String.eqb_spec x z) as [->|Hne].
  - inversion Hr; subst. apply elem_of_cons in Hin. tauto.
  - destruct (remove_first x l) as [l0|] eqn:E; [|discriminate].
    cbn in Hr. inversion Hr; subst.
    apply elem_of_cons in Hin. destruct Hin as [->|Hin].
    + left. apply elem_of_cons. now left.
    + destruct (IH l0 y eq_refl Hin) as [Hl|Hx]; [|now right].
      left. apply elem_of_cons. now right.
Qed.

(** Whatever is in [temp_files] when the body of the [try] starts is
    still there when it ends, save for the temporary output file after a
    success. *)
Lemma process_body_ends_tracked x file_path o nm final_path tmp :
  ends_tracked x tmp (process_body file_path o nm final_path tmp).
Proof.
  unfold process_body.
  apply ends_bind; [apply keeps_lift|]. intros [current_path safe_copy].
  apply ends_bind; [destruct safe_copy; [apply keeps_track|apply keeps_ret]|]. intros _.
  apply ends_bind.
  { destruct (_ && _ && _); [|apply keeps_ret].
    apply keeps_bind; [apply keeps_lift|]. intros u.
    apply keeps_bind; [apply keeps_lift|]. intros _.
    apply keeps_bind; [apply keeps_track|]. intros _.
    apply keeps_bind; [apply keeps_getitem|]. intros width.
    apply keeps_bind; [apply keeps_getitem|]. intros height.
    apply keeps_bind; [apply keeps_lift|]. intros _. apply keeps_ret. }
  intros current_path'.
  apply ends_bind.
  { destruct (negb _); [|apply keeps_ret].
    apply keeps_bind; [apply keeps_lift|]. intros c.
    apply keeps_bind; [apply keeps_track|]. intros _. apply keeps_ret. }
  intros current_path''.
  apply ends_bind; [apply keeps_lift|]. intros [[[|] message]|];
    try (apply ends_of_keeps, keeps_ret).
  apply ends_bind.
  { destruct (negb _); [apply keeps_lift|apply keeps_ret]. }
  intros _ s r s' Heq Hin. unfold bind, untrack, ret in Heq.
  destruct (remove_first tmp (snd s)) as [l|] eqn:Hrm.
  - inversion Heq; subst. cbn [snd].
    destruct (remove_first_elem _ _ _ x Hrm Hin) as [Hl|Hx]; [now left|].
    right. eauto.
  - inversion Heq; subst. now left.
Qed.

End Finalizer.

Section Outcomes.
Context `{Platform}.

(** Whenever [process_file] returns a failure, from an encoder, from an
    unsupported format or from an exception, the temporary output file it
    created is gone. *)
Theorem failure_removes_temp_output file_path o w nm w1 message w' :
  derive_target file_path o w = (inr nm, w1) ->
  should_overwrite nm && is_converting_format nm = false ->
  process_file file_path o w = (inr (false, message), w') ->
  fs w' !! temp_file_of ("." ++ target_format nm) w1 = None.
Proof.
  intros Hd Hnc Hrun.
  destruct (le_lt_dec (String.length ("." ++ target_format nm)) 244) as [Hlen|Hlen];
    [|destruct (process_file_long _ _ _ _ _ Hd Hnc Hlen) as (e & w0 & Hraise & _);
      rewrite Hraise in Hrun; discriminate].
  destruct (process_body file_path o nm (final_output_path file_path o nm)
              (temp_file_of ("." ++ target_format nm) w1) (try_start nm w1))
    as [rb [w2 t]] eqn:Hbody.
  rewrite (process_file_unfold _ _ _ _ _ _ _ _ Hd Hnc Hlen Hbody) in Hrun.
  assert (Hin : temp_file_of ("." ++ target_format nm) w1 ∈ t).
  { destruct (process_body_ends_tracked (temp_file_of ("." ++ target_format nm) w1)
                file_path o nm (final_output_path file_path o nm)
                (temp_file_of ("." ++ target_format nm) w1) _ _ _ Hbody) as [Hin|[_ [m Hm]]].
    - cbn. apply list_elem_of_singleton. reflexivity.
    - assumption.
    - subst rb. inversion Hrun. }
  destruct rb as [e|r]; inversion Hrun; subst; now apply discard_all_absent.
Qed.

(** Every file that is in [temp_files] when the body of the [try] ends
    (the safe copy, the resized and the converted file, the temporary
    output unless it was taken off the list) is gone when [process_file]
    returns, on success, on failure and after an exception. *)
Theorem process_file_removes_tracked_files file_path o w nm w1 rb w2 t r w' :
  derive_target file_path o w = (inr nm, w1) ->
  should_overwrite nm && is_converting_format nm = false ->
  process_body file_path o nm (final_output_path file_path o nm)
    (temp_file_of ("." ++ target_format nm) w1) (try_start nm w1) = (rb, (w2, t)) ->
  process_file file_path o w = (inr r, w') ->
  forall f, f ∈ t -> fs w' !! f = None.
Proof.
  intros Hd Hnc Hbody Hrun f Hin.
  destruct (le_lt_dec (String.length ("." ++ target_format nm)) 244) as [Hlen|Hlen];
    [|destruct (process_file_long _ _ _ _ _ Hd Hnc Hlen) as (e & w0 & Hraise & _);
      rewrite Hraise in Hrun; discriminate].
  rewrite (process_file_unfold _ _ _ _ _ _ _ _ Hd Hnc Hlen Hbody) in Hrun.
  destruct rb as [e|r0]; inversion Hrun; subst; now apply discard_all_absent.
Qed.

(** The body of the [try] for an input that needs no staging. *)
Lemma process_body_unstaged file_path o nm final_path tmp w :
  unstaged file_path o nm ->
  process_body file_path o nm final_path tmp (w, [tmp]) =
    match dispatch o nm file_path tmp w with
    | (inl e, w2) => (inl e, (w2, [tmp]))
    | (inr None, w2) => (inr (false, STRINGS.unsupported_type), (w2, [tmp]))
    | (inr (Some (false, message)), w2) => (inr (false, message), (w2, [tmp]))
    | (inr (Some (true, message)), w2) =>
        if negb (String.eqb message (already_optimized_message (original_basename nm)))
        then match shutil_move tmp final_path w2 with
             | (inl e, w3) => (inl e, (w3, [tmp]))
             | (inr _, w3) => (inr (true, message), (w3, []))
             end
        else (inr (true, message), (w2, []))
    end.
Proof.
  intros (Hasc & Hres & Hext).
  unfold process_body. unfold bind at 1. unfold lift at 1. cbn [fst snd].
  unfold _safe_copy_for_processing. rewrite Hasc. unfold ret at 1.
  unfold bind at 1. unfold ret at 1.
  rewrite Hres. cbn [andb]. unfold bind at 1. unfold ret at 1.
  rewrite Hext, String.eqb_refl. cbn [negb].
  unfold bind at 1. unfold ret at 1.
  unfold bind at 1. unfold lift at 1. cbn [fst snd].
  destruct (dispatch o nm file_path tmp w) as [[e|[[[|] message]|]] w2]; try reflexivity.
  destruct (negb _).
  - unfold bind at 1. unfold lift. cbn [fst snd].
    destruct (shutil_move tmp final_path w2) as [[e|[]] w3]; [reflexivity|].
    unfold bind, untrack, ret. cbn [snd fst remove_first]. now rewrite String.eqb_refl.
  - unfold bind, untrack, ret. cbn [snd fst remove_first]. now rewrite String.eqb_refl.
Qed.

Lemma discard_fs_ext p w w0 : fs w = fs w0 -> fs (discard p w) = fs (discard p w0).
Proof.
  intros Heq. unfold discard. rewrite Heq.
  case_bool_decide; cbn; now rewrite ?Heq.
Qed.

Lemma created_discard suffix w :
  fs w !! temp_file_of suffix w = None ->
  fs (discard (temp_file_of suffix w) (created suffix w)) = fs w.
Proof.
  intros Hfree. apply map_eq. intros p.
  destruct (decide (p = temp_file_of suffix w)) as [->|Hne].
  - now rewrite discard_lookup, Hfree.
  - rewrite discard_lookup_ne by congruence. cbn. now apply lookup_insert_ne.
Qed.

(** On an input that needs no staging, when the encoder for the target
    format reports success (and not "already optimized") and has left a
    file at the temporary output path, and the final output path is one
    at which a file can be created (its directory exists, its name is
    within the limit, it is not itself a directory), [process_file]
    returns that success, the file is at the final output path and the
    temporary path is free again. *)
Theorem success_moves_output_to_final_path file_path o w nm w1 message w2 c :
  derive_target file_path o w = (inr nm, w1) ->
  should_overwrite nm && is_converting_format nm = false ->
  (String.length ("." ++ target_format nm) <= 244)%nat ->
  unstaged file_path o nm ->
  let tmp := temp_file_of ("." ++ target_format nm) w1 in
  let final_path := final_output_path file_path o nm in
  dispatch o nm file_path tmp (created ("." ++ target_format nm) w1)
    = (inr (Some (true, message)), w2) ->
  message <> already_optimized_message (original_basename nm) ->
  fs w2 !! tmp = Some c ->
  os_path_isdir final_path = false ->
  creatable final_path = true ->
  exists w',
    process_file file_path o w = (inr (true, message), w') /\
    fs w' = <[final_path := c]> (delete tmp (fs w2)) /\
    fs w' !! final_path = Some c /\
    (tmp <> final_path -> fs w' !! tmp = None).
Proof.
  intros Hd Hnc Hlen Hun tmp final_path Hdisp Hmsg Hc Hdir Hcr.
  assert (Hbody :
    process_body file_path o nm final_path tmp (try_start nm w1) =
    (inr (true, message),
     (set_fs (fun f => <[final_path := c]> (delete tmp f)) w2, []))).
  { unfold try_start. fold tmp. rewrite (process_body_unstaged _ _ _ _ _ _ Hun), Hdisp.
    replace (String.eqb message (already_optimized_message (original_basename nm)))
      with false by (symmetry; now apply String.eqb_neq).
    cbn [negb]. unfold shutil_move. rewrite Hc, Hdir, Hcr. reflexivity. }
  rewrite (process_file_unfold _ _ _ _ _ _ _ _ Hd Hnc Hlen Hbody).
  eexists. split; [reflexivity|]. cbn.
  split; [reflexivity|]. split; [apply lookup_insert_eq|].
  intros Hne. rewrite lookup_insert_ne by congruence. apply lookup_delete_eq.
Qed.

(** Size mode without a "target_size" key: for a JPEG or WEBP target the
    lookup raises KeyError before any tool runs, and [process_file]
    reports "An unexpected error occurred: 'target_size'"; the file system
    is left as it was. *)
Theorem size_mode_without_target_size file_path o w nm w1 :
  derive_target file_path o w = (inr nm, w1) ->
  should_overwrite nm && is_converting_format nm = false ->
  unstaged file_path o nm ->
  is_jpeg (target_format nm) = true \/ target_format nm = "webp" ->
  opt_mode o = Some "size" ->
  opt_target_size o = None ->
  fs w1 !! temp_file_of ("." ++ target_format nm) w1 = None ->
  exists w',
    process_file file_path o w
      = (inr (false, "An unexpected error occurred: 'target_size'"), w') /\
    fs w' = fs w /\ commands w' = commands w.
Proof.
  intros Hd Hnc Hun Hfmt Hmode Hkey Hfree.
  destruct (derive_target_returns file_path o w) as (nm' & w1' & Hd' & Hfs & Hcmd & _).
  rewrite Hd in Hd'. inversion Hd'; subst nm' w1'. clear Hd'.
  assert (Hdisp : forall w0,
            dispatch o nm file_path (temp_file_of ("." ++ target_format nm) w1) w0
            = (inl (KeyError "target_size"), w0)).
  { intros w0. unfold dispatch. rewrite Hmode, Hkey.
    destruct Hfmt as [Hj|Hw].
    - rewrite Hj. rewrite bool_decide_eq_true_2 by reflexivity. reflexivity.
    - destruct (is_jpeg (target_format nm)).
      + rewrite bool_decide_eq_true_2 by reflexivity. reflexivity.
      + rewrite Hw. cbn [String.eqb Ascii.eqb Bool.eqb].
        destruct (String.eqb "webp" "png") eqn:E; [discriminate E|].
        rewrite bool_decide_eq_true_2 by reflexivity. reflexivity. }
  assert (Hbody :
    process_body file_path o nm (final_output_path file_path o nm)
      (temp_file_of ("." ++ target_format nm) w1) (try_start nm w1)
    = (inl (KeyError "target_size"),
       (created ("." ++ target_format nm) w1, [temp_file_of ("." ++ target_format nm) w1]))).
  { unfold try_start. now rewrite (process_body_unstaged _ _ _ _ _ _ Hun), Hdisp. }
  assert (Hlen : (String.length ("." ++ target_format nm) <= 244)%nat).
  { destruct Hfmt as [Hj|Hw].
    - unfold is_jpeg in Hj. apply orb_true_iff in Hj.
      destruct Hj as [E|E]; apply String.eqb_eq in E; rewrite E;
        apply Nat.leb_le; reflexivity.
    - rewrite Hw. apply Nat.leb_le. reflexivity. }
  rewrite (process_file_unfold _ _ _ _ _ _ _ _ Hd Hnc Hlen Hbody).
  eexists. split; [reflexivity|]. split.
  - cbn [discard_all foldl].
    rewrite (discard_fs_ext _ _ (created ("." ++ target_format nm) w1)) by reflexivity.
    now rewrite created_discard.
  - cbn [discard_all foldl]. rewrite discard_commands. cbn. assumption.
Qed.

(** A target format without an encoder (anything but jpeg, jpg, png, webp
    and ico, an empty extension included) that is short enough for the
    name of the temporary output file: on an input that needs no staging
    [process_file] answers "Unsupported file type" without running a
    tool, and the file system is left as it was. *)
Theorem unsupported_format_is_rejected file_path o w nm w1 :
  derive_target file_path o w = (inr nm, w1) ->
  should_overwrite nm && is_converting_format nm = false ->
  (String.length ("." ++ target_format nm) <= 244)%nat ->
  unstaged file_path o nm ->
  target_format nm ∉ ["jpeg"; "jpg"; "png"; "webp"; "ico"] ->
  fs w1 !! temp_file_of ("." ++ target_format nm) w1 = None ->
  exists w',
    process_file file_path o w = (inr (false, "Unsupported file type"), w') /\
    fs w' = fs w /\ commands w' = commands w.
Proof.
  intros Hd Hnc Hlen Hun Hfmt Hfree.
  destruct (derive_target_returns file_path o w) as (nm' & w1' & Hd' & Hfs & Hcmd & _).
  rewrite Hd in Hd'. inversion Hd'; subst nm' w1'. clear Hd'.
  assert (Hne : forall x, x ∈ ["jpeg"; "jpg"; "png"; "webp"; "ico"] ->
                          String.eqb (target_format nm) x = false).
  { intros x Hx. apply String.eqb_neq. intros Heq. apply Hfmt. now rewrite Heq. }
  assert (Hdisp : forall w0,
            dispatch o nm file_path (temp_file_of ("." ++ target_format nm) w1) w0
            = (inr None, w0)).
  { intros w0. unfold dispatch, is_jpeg.
    rewrite !Hne by (rewrite !elem_of_cons; tauto).
    reflexivity. }
  assert (Hbody :
    process_body file_path o nm (final_output_path file_path o nm)
      (temp_file_of ("." ++ target_format nm) w1) (try_start nm w1)
    = (inr (false, STRINGS.unsupported_type),
       (created ("." ++ target_format nm) w1, [temp_file_of ("." ++ target_format nm) w1]))).
  { unfold try_start. now rewrite (process_body_unstaged _ _ _ _ _ _ Hun), Hdisp. }
  rewrite (process_file_unfold _ _ _ _ _ _ _ _ Hd Hnc Hlen Hbody).
  eexists. split; [reflexivity|]. split.
  - cbn [discard_all foldl]. now rewrite created_discard.
  - cbn [discard_all foldl]. rewrite discard_commands. cbn. assumption.
Qed.

End Outcomes.

Section Modes.
Context `{Platform}.

Lemma bind_ext {S A B} (m : M S A) (k k' : A -> M S B) s :
  (forall a s', k a s' = k' a s') -> bind m k s = bind m k' s.
Proof. intros Hk. unfold bind. destruct (m s) as [[e|a] s']; [reflexivity|apply Hk]. Qed.

Lemma dispatch_ignores_mode o o' nm current_path tmp w :
  same_but_mode o o' ->
  is_jpeg (target_format nm) = false ->
  target_format nm <> "webp" ->
  dispatch o' nm current_path tmp w = dispatch o nm current_path tmp w.
Proof.
  intros (_ & _ & _ & _ & _ & _ & _ & _ & Hq & Hz) Hj Hw.
  unfold dispatch. rewrite Hj, Hq, Hz.
  destruct (String.eqb (target_format nm) "png"); [reflexivity|].
  replace (String.eqb (target_format nm) "webp") with false
    by (symmetry; now apply String.eqb_neq).
  reflexivity.
Qed.

(** The "mode" and "target_size" options matter to JPEG and WEBP targets
    only: for every other target format (PNG and ICO among them)
    [process_file] does the same with and without them, in every world. *)
Theorem mode_matters_to_jpeg_and_webp_only file_path o o' w nm w1 :
  same_but_mode o o' ->
  derive_target file_path o w = (inr nm, w1) ->
  is_jpeg (target_format nm) = false ->
  target_format nm <> "webp" ->
  process_file file_path o' w = process_file file_path o w.
Proof.
  intros Hsame Hd Hj Hw.
  pose proof Hsame as (Hov & Hfmt & Hauto & Hdir & Hsuf & Hres & Hwd & Hht & Hq & Hz).
  assert (Hreq : requested_naming file_path o' = requested_naming file_path o).
  { unfold requested_naming. now rewrite Hov, Hfmt. }
  assert (Hd' : derive_target file_path o' w = (inr nm, w1)).
  { rewrite <- Hd. unfold derive_target. now rewrite Hreq, Hauto. }
  assert (Hfinal : final_output_path file_path o' nm = final_output_path file_path o nm).
  { unfold final_output_path. now rewrite Hdir, Hsuf. }
  unfold process_file. unfold bind at 1. rewrite Hd'. symmetry.
  unfold bind at 1. rewrite Hd. symmetry. rewrite Hfinal.
  destruct (should_overwrite nm && is_converting_format nm); [reflexivity|].
  apply bind_ext. intros tmp wt.
  assert (Hbody : forall s,
    process_body file_path o' nm (final_output_path file_path o nm) tmp s =
    process_body file_path o nm (final_output_path file_path o nm) tmp s).
  { intros s. unfold process_body.
    apply bind_ext. intros [cp sc] s1.
    apply bind_ext. intros _ s2. rewrite Hres, Hwd, Hht.
    apply bind_ext. intros cp2 s3.
    apply bind_ext. intros cp3 s4.
    unfold bind, lift. now rewrite (dispatch_ignores_mode o o' nm cp3 tmp _ Hsame Hj Hw). }
  unfold try_finally, try_except. now rewrite Hbody.
Qed.

End Modes.

Section Batches.
Context `{Platform}.

Lemma derive_target_nameable file_path o w nm w1 :
  derive_target file_path o w = (inr nm, w1) ->
  nameable file_path o ->
  (String.length ("." ++ target_format nm) <= 244)%nat.
Proof.
  unfold nameable, derive_target. intros Hd Hn.
  assert (Hreq : (String.length ("." ++ target_format (requested_naming file_path o))
                  <= 244)%nat).
  { change (Datatypes.S (String.length (target_format (requested_naming file_path o)))
            <= 244)%nat. lia. }
  destruct (_ && _ && _).
  - unfold bind in Hd. destruct (is_png_fully_opaque file_path w) as [[e|[|]] w'];
      unfold ret in Hd; inversion Hd; subst; [apply Nat.leb_le; reflexivity|assumption].
  - unfold ret in Hd. inversion Hd; subst. assumption.
Qed.

Lemma process_file_returns file_path o w :
  nameable file_path o ->
  exists r w', process_file file_path o w = (inr r, w').
Proof.
  intros Hn. destruct (derive_target_returns file_path o w) as (nm & w1 & Hd & _).
  destruct (should_overwrite nm && is_converting_format nm) eqn:Hc.
  - unfold process_file, bind. rewrite Hd, Hc. unfold log_error, ret. eauto.
  - destruct (process_file_run _ _ _ _ _ Hd Hc (derive_target_nameable _ _ _ _ _ Hd Hn))
      as (w' & Hrun). eauto.
Qed.

Lemma compress_each_returns o : forall files total i success_msgs error_msgs w,
  (forall f, f ∈ files -> nameable f o) ->
  exists s e w',
    compress_each total i files o success_msgs error_msgs w = (inr (s, e), w') /\
    (length s + length e = length success_msgs + length error_msgs + length files)%nat /\
    (error_msgs <> [] -> e <> []).
Proof.
  induction files as [|f files IH]; intros total i s0 e0 w Hn.
  - exists s0, e0, w. cbn. split; [reflexivity|]. split; [lia|auto].
  - cbn [compress_each]. unfold bind at 1. unfold _update_status at 1. unfold bind at 1.
    assert (Hf : nameable f o) by (apply Hn; left).
    assert (Hrest : forall f', f' ∈ files -> nameable f' o) by (intros f' Hin; apply Hn; now right).
    match goal with |- context [process_file f o ?w0] =>
      destruct (process_file_returns f o w0 Hf) as ([ok msg] & w1 & ->) end.
    cbn [fst snd]. destruct ok.
    + destruct (IH total (Datatypes.S i) (s0 ++ [msg])%list e0 w1 Hrest)
        as (s & e & w' & -> & Hlen & Hne).
      exists s, e, w'. split; [reflexivity|]. rewrite length_app in Hlen. cbn in *.
      split; [lia|assumption].
    + destruct (IH total (Datatypes.S i) s0 (e0 ++ [msg])%list w1 Hrest)
        as (s & e & w' & -> & Hlen & Hne).
      exists s, e, w'. split; [reflexivity|]. rewrite length_app in Hlen. cbn in *.
      split; [lia|]. intros _. apply Hne. now destruct e0.
Qed.

(** Once the options are read from the form, and when the format of every
    file is short enough for the name of a temporary file,
    [start_compression] goes through the whole list whatever happens to
    single files: it does not raise, every file ends in exactly one of
    the two message lists, and the closing dialog is an error report as
    soon as one file failed and a success report otherwise. *)
Theorem start_compression_reports_every_file files o w :
  files <> [] ->
  (forall f, f ∈ files -> nameable f o) ->
  exists success_msgs error_msgs d w',
    start_compression files (inr o) w = (inr (success_msgs, error_msgs, d), w') /\
    (length success_msgs + length error_msgs = length files)%nat /\
    (error_msgs <> [] -> exists report, d = ShowError report_title report) /\
    (error_msgs = [] -> exists report, d = ShowInfo report_title report).
Proof.
  intros Hne Hn. unfold start_compression. destruct files as [|f files]; [contradiction|].
  unfold bind at 1. unfold lift_result. unfold bind at 1.
  destruct (compress_each_returns o (f :: files) (length (f :: files)) 0%nat [] [] w Hn)
    as (s & e & w' & -> & Hlen & _).
  unfold bind, _update_status, ret.
  destruct e as [|e0 e]; [destruct s as [|s0 s]|].
  - cbn in Hlen. lia.
  - eexists _, _, _, _. split; [reflexivity|]. split; [assumption|]. split; [contradiction|eauto].
  - eexists _, _, _, _. split; [reflexivity|]. split; [assumption|].
    split; [eauto|discriminate].
Qed.

Lemma headless_nameable f :
  (String.length (own_format f) <= 243)%nat -> nameable f headless_options.
Proof.
  intros Hlen. unfold nameable. rewrite requested_naming_own; [assumption|].
  unfold requested_naming. now destruct (path_splitext _).
Qed.

Lemma headless_each_returns : forall files success_count error_msgs w,
  (forall f, f ∈ files -> (String.length (own_format f) <= 243)%nat) ->
  exists n e w',
    headless_each files success_count error_msgs w = (inr (n, e), w') /\
    (n + length e = success_count + length error_msgs + length files)%nat /\
    (success_count <= n)%nat.
Proof.
  induction files as [|f files IH]; intros n0 e0 w Hn.
  - exists n0, e0, w. cbn. split; [reflexivity|]. lia.
  - cbn [headless_each]. unfold bind at 1.
    assert (Hf : nameable f headless_options) by (apply headless_nameable, Hn; left).
    assert (Hrest : forall f', f' ∈ files -> (String.length (own_format f') <= 243)%nat)
      by (intros f' Hin; apply Hn; now right).
    destruct (process_file_returns f headless_options w Hf) as ([ok msg] & w1 & ->).
    cbn [fst snd]. destruct ok.
    + destruct (IH (n0 + 1)%nat e0 w1 Hrest) as (n & e & w' & -> & Hlen & Hge).
      exists n, e, w'. split; [reflexivity|]. cbn in *. lia.
    + match goal with |- context [headless_each files n0 ?e1 w1] =>
        destruct (IH n0 e1 w1 Hrest) as (n & e & w' & -> & Hlen & Hge) end.
      exists n, e, w'. split; [reflexivity|]. rewrite length_app in Hlen. cbn in *. lia.
Qed.

(** When the extension of every file is short enough for the name of a
    temporary file, the headless run of [main] does not raise and
    accounts for every file: the successes counted and the error entries
    add up to the number of files, and the success dialog is shown only
    when no file failed. *)
Theorem main_headless_accounts_for_every_file files w :
  (forall f, f ∈ files -> (String.length (own_format f) <= 243)%nat) ->
  exists success_count error_msgs d w',
    main_headless files w = (inr (success_count, error_msgs, d), w') /\
    (success_count + length error_msgs = length files)%nat /\
    (error_msgs <> [] -> exists report, d = ShowError report_title report) /\
    (error_msgs = [] -> files <> [] ->
     d = ShowInfo success_title (headless_success (length files))).
Proof.
  intros Hn. unfold main_headless, bind.
  destruct (headless_each_returns files 0%nat [] w Hn) as (n & e & w' & -> & Hlen & _).
  cbn in Hlen. unfold ret. destruct e as [|e0 e].
  - cbn in Hlen. rewrite Nat.add_0_r in Hlen. subst n.
    destruct files as [|f files].
    + eexists _, _, _, _. split; [reflexivity|]. cbn. split; [reflexivity|].
      split; [contradiction|]. intros _ Hf. contradiction.
    + eexists _, _, _, _. split; [reflexivity|]. cbn [length]. split; [lia|].
      split; [contradiction|]. reflexivity.
  - eexists _, _, _, _. split; [reflexivity|]. split; [assumption|].
    split; [eauto|discriminate].
Qed.

End Batches.

Section CommandBudget.
Context `{Platform}.

Lemma runs_weaken {A} a b (m : M world A) :
  runs_at_most a m -> (a <= b)%nat -> runs_at_most b m.
Proof. intros Hm Hle w. specialize (Hm w). lia. Qed.

Lemma runs_bind {A B} a b (m : M world A) (k : A -> M world B) :
  runs_at_most a m -> (forall x, runs_at_most b (k x)) -> runs_at_most (a + b) (bind m k).
Proof.
  intros Hm Hk w. unfold bind. specialize (Hm w).
  destruct (m w) as [[e|x] w1]; cbn [snd] in *; [lia|].
  specialize (Hk x w1). lia.
Qed.

Lemma runs_try_finally {A} a b (m : M world A) (fin : M world unit) :
  runs_at_most a m -> runs_at_most b fin -> runs_at_most (a + b) (try_finally m fin).
Proof.
  intros Hm Hf w. unfold try_finally. specialize (Hm w).
  destruct (m w) as [r w1]. cbn [snd] in *. specialize (Hf w1).
  destruct (fin w1) as [[e|[]] w2]; cbn [snd] in *; lia.
Qed.

Lemma runs_try_except {A} a b (m : M world A) (h : exn -> M world A) :
  runs_at_most a m -> (forall e, runs_at_most b (h e)) ->
  runs_at_most (a + b) (try_except m h).
Proof.
  intros Hm Hh w. unfold try_except. specialize (Hm w).
  destruct (m w) as [[e|x] w1]; cbn [snd] in *; [|lia].
  specialize (Hh e w1). lia.
Qed.

Lemma runs_ret {A} (x : A) : runs_at_most 0 (ret x).
Proof. intros w. cbn. lia. Qed.

Lemma runs_getitem {A} key (v : option A) : runs_at_most 0 (getitem key v).
Proof. intros w. destruct v; cbn; lia. Qed.

Lemma runs_log_error m : runs_at_most 0 (log_error m).
Proof. intros w. cbn. lia. Qed.

Lemma runs_update_status m : runs_at_most 0 (_update_status m).
Proof. intros w. cbn. lia. Qed.

Lemma runs_fresh_name : runs_at_most 0 fresh_name.
Proof. intros w. cbn. lia. Qed.

Lemma runs_remove_if_exists p : runs_at_most 0 (remove_if_exists p).
Proof. intros w. rewrite remove_if_exists_run. cbn [snd]. rewrite discard_commands. lia. Qed.

Lemma runs_NamedTemporaryFile suffix : runs_at_most 0 (NamedTemporaryFile suffix).
Proof.
  intros w. unfold NamedTemporaryFile, bind, fresh_name, raise.
  destruct (_ <? _)%nat; cbn; lia.
Qed.

Lemma runs_shutil_copy2 src dst : runs_at_most 0 (shutil_copy2 src dst).
Proof.
  intros w. unfold shutil_copy2. destruct (fs w !! src); [|cbn; lia].
  destruct (String.eqb src dst); cbn; lia.
Qed.

Lemma runs_shutil_move src dst : runs_at_most 0 (shutil_move src dst).
Proof.
  intros w. unfold shutil_move. destruct (fs w !! src); [|cbn; lia]. cbv zeta.
  destruct (_ && _); [cbn; lia|]. destruct (negb _); cbn; lia.
Qed.

Lemma runs_Image_open path : runs_at_most 0 (Image_open path).
Proof.
  intros w. unfold Image_open. destruct (fs w !! path) as [c|]; [|cbn; lia].
  destruct (pil_open c); cbn; lia.
Qed.

Lemma runs_Image_save img path o : runs_at_most 0 (Image_save img path o).
Proof.
  intros w. unfold Image_save. destruct (pil_save img path o) as [[e [c|]]|c]; cbn; lia.
Qed.

Lemma runs_lift_result {A} (r : exn + A) : runs_at_most 0 (lift_result r).
Proof. intros w. cbn. lia. Qed.

Lemma runs_get_tool_path name : runs_at_most 0 (get_tool_path name).
Proof.
  intros w. destruct (get_tool_path_returns name w) as (r & w' & -> & _ & Hc & _).
  cbn [snd]. rewrite Hc. lia.
Qed.

Lemma runs__run_tool command : runs_at_most 1 (_run_tool command).
Proof.
  intros w. destruct (_run_tool_returns command w) as (r & w' & -> & Hc & _).
  cbn [snd]. rewrite Hc, length_app. cbn. lia.
Qed.

Lemma runs_compress_jpeg i o q : runs_at_most 1 (compress_jpeg i o q).
Proof. intros w. pose proof (compress_jpeg_one_command i o q w). lia. Qed.

Lemma runs_compress_webp i o q : runs_at_most 1 (compress_webp i o q).
Proof. intros w. pose proof (compress_webp_one_command i o q w). lia. Qed.

Lemma search_commands_width n in_path tb (f : encoder) :
  one_command f ->
  forall k st w,
    high st - low st + 1 <= 2 ^ Z.of_nat k - 1 ->
    (length (commands (snd (search n in_path tb f st w))) <= length (commands w) + k)%nat.
Proof.
  intros Hf. induction n as [|n IH]; intros k st w Hw; [cbn; lia|].
  destruct (Z_lt_le_dec (high st) (low st)) as [Hb|Hle].
  - rewrite search_break by assumption. cbn. lia.
  - destruct k as [|k]; [cbn in Hw; lia|].
    rewrite Nat2Z.inj_succ, Z.pow_succ_r in Hw by lia.
    rewrite search_step, probe_run by assumption. cbv zeta.
    pose proof (Hf in_path (temp_file_of ".tmp" w) (probe_quality st) (created ".tmp" w)) as H1.
    destruct (f in_path _ _ _) as [[e|r] w2]; cbn [snd] in *.
    + rewrite discard_commands. cbn [created commands] in H1. lia.
    + specialize (IH k (advance tb st r.1 (size_at (temp_file_of ".tmp" w) w2))
                     (discard (temp_file_of ".tmp" w) w2)
                     ltac:(apply advance_width; [assumption|lia])).
      rewrite discard_commands in IH. cbn [created commands] in H1. lia.
Qed.

Lemma runs_find_best_quality in_path target_kb (f : encoder) :
  one_command f -> runs_at_most 7 (find_best_quality in_path target_kb f).
Proof.
  intros Hf w. rewrite find_best_quality_run.
  pose proof (search_commands_width 8 in_path (target_kb * 1024) f Hf 7 initial_search
                (search_start target_kb w) ltac:(cbn; lia)) as Hs.
  destruct (search 8 _ _ _ _ _) as [[e|st] w']; cbn [snd] in *; exact Hs.
Qed.

Lemma runs_compress_png i o q z : runs_at_most 2 (compress_png i o q z).
Proof.
  unfold compress_png.
  apply (runs_bind 0 2); [apply runs_get_tool_path|]. intros pq.
  apply (runs_bind 0 2); [apply runs_get_tool_path|]. intros zp.
  destruct pq as [pq|]; [|apply (runs_weaken 0); [apply runs_ret|lia]].
  destruct zp as [zp|]; [|apply (runs_weaken 0); [apply runs_ret|lia]].
  apply (runs_try_finally 2 0).
  - apply (runs_bind 1 1); [apply runs__run_tool|]. intros [qs qm].
    destruct (negb qs); [apply (runs_weaken 0); [apply runs_ret|lia]|].
    destruct (String.eqb qm "Already Optimized").
    + destruct (negb z).
      * apply (runs_weaken (0 + 0)); [|lia].
        apply runs_bind; [apply runs_shutil_copy2|]. intros _. apply runs_ret.
      * apply (runs_bind 0 1); [apply runs_get_tool_path|]. intros [p|];
          [apply runs__run_tool|apply (runs_weaken 0); [apply runs_ret|lia]].
    + destruct z; [|apply (runs_weaken 0); [apply runs_ret|lia]].
      apply (runs_bind 0 1); [apply runs_get_tool_path|]. intros [p|];
        [apply runs__run_tool|apply (runs_weaken 0); [apply runs_ret|lia]].
  - destruct z; [apply runs_remove_if_exists|apply runs_ret].
Qed.

Lemma runs_dispatch o nm current_path tmp : runs_at_most 8 (dispatch o nm current_path tmp).
Proof.
  unfold dispatch. destruct (is_jpeg (target_format nm)).
  { apply (runs_bind 7 1).
    - case_bool_decide; [|apply (runs_weaken 0); [apply runs_ret|lia]].
      apply (runs_bind 0 7); [apply runs_getitem|]. intros t.
      apply runs_find_best_quality, compress_jpeg_one_command.
    - intros q. apply (runs_bind 1 0); [apply runs_compress_jpeg|].
      intros [ok msg]. apply runs_ret. }
  destruct (String.eqb (target_format nm) "png").
  { apply (runs_weaken (2 + 0)); [|lia].
    apply runs_bind; [apply runs_compress_png|]. intros [ok msg]. apply runs_ret. }
  destruct (String.eqb (target_format nm) "webp").
  { apply (runs_bind 7 1).
    - case_bool_decide; [|apply (runs_weaken 0); [apply runs_ret|lia]].
      apply (runs_bind 0 7); [apply runs_getitem|]. intros t.
      apply runs_find_best_quality, compress_webp_one_command.
    - intros q. apply (runs_bind 1 0); [apply runs_compress_webp|].
      intros [ok msg]. apply runs_ret. }
  destruct (String.eqb (target_format nm) "ico"); [|apply (runs_weaken 0); [apply runs_ret|lia]].
  apply (runs_weaken (0 + (0 + 0))); [|lia].
  apply runs_bind; [apply runs_Image_open|]. intros img.
  apply runs_bind; [apply runs_Image_save|]. intros _. apply runs_ret.
Qed.

Lemma body_weaken {A} a b (m : M frame A) :
  body_runs_at_most a m -> (a <= b)%nat -> body_runs_at_most b m.
Proof. intros Hm Hle s. specialize (Hm s). lia. Qed.

Lemma body_bind {A B} a b (m : M frame A) (k : A -> M frame B) :
  body_runs_at_most a m -> (forall x, body_runs_at_most b (k x)) ->
  body_runs_at_most (a + b) (bind m k).
Proof.
  intros Hm Hk s. unfold bind. specialize (Hm s).
  destruct (m s) as [[e|x] s1]; cbn [snd] in *; [lia|].
  specialize (Hk x s1). lia.
Qed.

Lemma body_lift {A} a (m : M world A) : runs_at_most a m -> body_runs_at_most a (lift m).
Proof.
  intros Hm s. unfold lift. specialize (Hm (fst s)).
  destruct (m (fst s)) as [r w1]. cbn in *. lia.
Qed.

Lemma body_ret {A} (x : A) : body_runs_at_most 0 (ret x).
Proof. intros s. cbn. lia. Qed.

Lemma body_getitem {A} key (v : option A) : body_runs_at_most 0 (getitem key v).
Proof. intros s. destruct v; cbn; lia. Qed.

Lemma body_track p : body_runs_at_most 0 (track p).
Proof. intros s. cbn. lia. Qed.

Lemma body_untrack p : body_runs_at_most 0 (untrack p).
Proof. intros s. unfold untrack. destruct (remove_first p (snd s)); cbn; lia. Qed.

Lemma runs__safe_copy file_path : runs_at_most 0 (_safe_copy_for_processing file_path).
Proof.
  unfold _safe_copy_for_processing. destruct (is_ascii file_path); [apply runs_ret|].
  apply (runs_bind 0 0); [apply runs_fresh_name|]. intros u.
  apply (runs_bind 0 0); [apply runs_shutil_copy2|]. intros _. apply runs_ret.
Qed.

Lemma runs__convert_image src fmt : runs_at_most 0 (_convert_image src fmt).
Proof.
  unfold _convert_image.
  apply (runs_bind 0 0); [apply runs_fresh_name|]. intros u.
  apply (runs_bind 0 0); [apply runs_Image_open|]. intros img.
  apply (runs_bind 0 0); [|intros _; apply runs_ret].
  destruct (is_jpeg fmt); [|destruct (String.eqb fmt "png")].
  - apply (runs_bind 0 0); [|intros img'; apply runs_Image_save].
    destruct (String.eqb _ _); [apply runs_lift_result|apply runs_ret].
  - apply (runs_bind 0 0); [|intros img'; apply runs_Image_save].
    destruct (negb _); [apply runs_lift_result|apply runs_ret].
  - apply runs_Image_save.
Qed.

Lemma body_process_body file_path o nm final_path tmp :
  body_runs_at_most 8 (process_body file_path o nm final_path tmp).
Proof.
  unfold process_body.
  apply (body_bind 0 8); [apply body_lift, runs__safe_copy|]. intros [cp sc].
  apply (body_bind 0 8); [destruct sc; [apply body_track|apply body_ret]|]. intros _.
  apply (body_bind 0 8).
  { destruct (_ && _ && _); [|apply body_ret].
    apply (body_bind 0 0); [apply body_lift, runs_fresh_name|]. intros u.
    apply (body_bind 0 0).
    { apply body_lift.
      apply (runs_bind 0 0); [apply runs_Image_open|]. intros img.
      apply (runs_bind 0 0); [apply runs_getitem|]. intros width.
      apply (runs_bind 0 0); [apply runs_getitem|]. intros height.
      apply (runs_bind 0 0); [apply runs_lift_result|]. intros img'.
      apply runs_Image_save. }
    intros _.
    apply (body_bind 0 0); [apply body_track|]. intros _.
    apply (body_bind 0 0); [apply body_getitem|]. intros width.
    apply (body_bind 0 0); [apply body_getitem|]. intros height.
    apply (body_bind 0 0); [apply body_lift, runs_update_status|]. intros _.
    apply body_ret. }
  intros cp2.
  apply (body_bind 0 8).
  { destruct (negb _); [|apply body_ret].
    apply (body_bind 0 0); [apply body_lift, runs__convert_image|]. intros c.
    apply (body_bind 0 0); [apply body_track|]. intros _. apply body_ret. }
  intros cp3.
  apply (body_bind 8 0); [apply body_lift, runs_dispatch|].
  intros [[[|] message]|]; try apply body_ret.
  apply (body_bind 0 0).
  { destruct (negb _); [apply body_lift, runs_shutil_move|apply body_ret]. }
  intros _. apply (body_bind 0 0); [apply body_untrack|]. intros _. apply body_ret.
Qed.

(** [process_file] runs at most 8 external commands for one file: at most
    7 probes of the quality search and the final encoding. *)
Theorem process_file_runs_at_most_8_commands file_path o w :
  (length (commands (snd (process_file file_path o w))) <= length (commands w) + 8)%nat.
Proof.
  destruct (derive_target_returns file_path o w) as (nm & w1 & Hd & _ & Hcmd & _).
  destruct (should_overwrite nm && is_converting_format nm) eqn:Hc.
  - unfold process_file, bind. rewrite Hd, Hc. cbn. rewrite Hcmd. lia.
  - destruct (le_lt_dec (String.length ("." ++ target_format nm)) 244) as [Hlen|Hlen];
      [|destruct (process_file_long _ _ _ _ _ Hd Hc Hlen) as (e & w0 & -> & _ & Hcmd0);
        cbn [snd]; rewrite Hcmd0, Hcmd; lia].
    destruct (process_body file_path o nm (final_output_path file_path o nm)
                (temp_file_of ("." ++ target_format nm) w1) (try_start nm w1))
      as [rb [w2 t]] eqn:Hbody.
    rewrite (process_file_unfold _ _ _ _ _ _ _ _ Hd Hc Hlen Hbody).
    pose proof (body_process_body file_path o nm (final_output_path file_path o nm)
                  (temp_file_of ("." ++ target_format nm) w1) (try_start nm w1)) as Hb.
    rewrite Hbody in Hb. cbn in Hb. rewrite Hcmd in Hb.
    destruct rb as [e|r]; cbn [snd]; rewrite discard_all_commands; cbn; lia.
Qed.

End CommandBudget.

Section Estimation.
Context `{Platform}.

Lemma estimation_cleanup_run l : forall s,
  for_each l (fun f => lift_e (remove_if_exists f)) s
  = (inr tt, EstFrame (discard_all l (ef_world s)) (ef_temp_files s) (ef_scheduled s)).
Proof.
  induction l as [|f l IH]; intros s; cbn [for_each].
  - now destruct s.
  - unfold bind, lift_e. rewrite remove_if_exists_run. rewrite IH. reflexivity.
Qed.

(** Without a selected file, or with a quality outside 1..100, the
    estimation schedules the error label and runs nothing; its [finally]
    clause then reads [temp_files], which was never bound, so the thread
    function ends by raising. *)
Theorem estimation_without_input_raises fm w :
  selected_file fm = None \/ form_quality fm < 1 \/ 100 < form_quality fm ->
  _run_estimation_in_thread fm (estimation_start w)
    = (inl unbound_temp_files, EstFrame w None [SizeError]).
Proof.
  intros Hbad. unfold _run_estimation_in_thread, try_finally.
  destruct (selected_file fm) as [f_path|].
  - destruct Hbad as [Hn|Hq]; [discriminate|].
    unfold try_except.
    replace ((1 <=? form_quality fm) && (form_quality fm <=? 100)) with false.
    + reflexivity.
    + symmetry. apply andb_false_iff. rewrite Z.leb_gt, Z.leb_gt. tauto.
  - reflexivity.
Qed.

(** Whenever the thread function of the estimation ends without raising,
    its list [temp_files] was bound and every file on it is gone: the
    safe copy, the resized and the converted file and the temporary
    output, after a success, a failure or an exception of the body. *)
Theorem finished_estimation_leaves_no_temp_file fm s s' :
  _run_estimation_in_thread fm s = (inr tt, s') ->
  exists l, ef_temp_files s' = Some l /\
            forall f, f ∈ l -> fs (ef_world s') !! f = None.
Proof.
  unfold _run_estimation_in_thread, try_finally.
  match goal with |- context [match ?body s with _ => _ end] =>
    destruct (body s) as [r s1] end.
  unfold estimation_cleanup.
  destruct (ef_temp_files s1) as [l|] eqn:Hl; [|discriminate].
  rewrite estimation_cleanup_run. intros Heq. inversion Heq; subst.
  exists l. split; [assumption|].
  intros f Hin. cbn. now apply discard_all_absent.
Qed.

(** The estimation applies the opaque-PNG rule even when a format is
    chosen in the form, while [process_file] applies it only without an
    explicit format: for an opaque PNG with auto-convert on and, say, WEBP
    chosen, the estimate is computed for JPEG and the file is written as
    WEBP. *)
Theorem estimate_and_compression_disagree_on_format f_path fm o w :
  form_auto_convert_png fm = true ->
  str_lower (snd (path_splitext f_path)) = ".png" ->
  fst (is_png_fully_opaque f_path w) = inr true ->
  default STRINGS.keep_original_format (opt_format o) <> STRINGS.keep_original_format ->
  fst (estimation_target f_path fm w) = inr "jpeg" /\
  exists nm w1,
    derive_target f_path o w = (inr nm, w1) /\
    target_format nm = str_lower (default STRINGS.keep_original_format (opt_format o)).
Proof.
  intros Hauto Hext Hop Hfmt. split.
  - unfold estimation_target. rewrite Hauto, Hext, String.eqb_refl. cbn [andb].
    unfold bind. destruct (is_png_fully_opaque f_path w) as [[e|b] w1]; cbn in Hop;
      [discriminate|]. inversion Hop; subst. reflexivity.
  - assert (Hconv : is_converting_format (requested_naming f_path o) = true).
    { unfold requested_naming. destruct (path_splitext (path_basename f_path)). cbn.
      apply negb_true_iff. now apply String.eqb_neq. }
    exists (requested_naming f_path o), w. split.
    + unfold derive_target. rewrite Hconv. cbn [negb]. now rewrite andb_false_r.
    + unfold requested_naming. destruct (path_splitext (path_basename f_path)). cbn.
      replace (String.eqb (default STRINGS.keep_original_format (opt_format o))
                 STRINGS.keep_original_format) with false
        by (symmetry; now apply String.eqb_neq).
      reflexivity.
Qed.

(** The estimate of a PNG that pngquant finds already optimized, on an
    input that needs no staging: the size scheduled for the label is that
    of the input file, and the temporary output, which stays on
    [temp_files] here, is removed by the [finally] clause. *)
Theorem estimation_of_optimized_png_measures_the_input fm w f_path w1 w2 c :
  selected_file fm = Some f_path ->
  1 <= form_quality fm <= 100 ->
  estimation_target f_path fm w = (inr "png", w1) ->
  is_ascii f_path = true ->
  form_resize_enabled fm = false ->
  strip_dots (str_lower (snd (path_splitext f_path))) = "png" ->
  let tmp := temp_file_of ".tmp" w1 in
  compress_png f_path tmp (estimation_quality_range fm) (form_max_png fm) (created ".tmp" w1)
    = (inr (true, "Already Optimized"), w2) ->
  fs w2 !! f_path = Some c ->
  _run_estimation_in_thread fm (estimation_start w)
    = (inr tt, EstFrame (discard tmp w2) (Some [tmp]) [SizeBytes (Z.of_nat (length c))]) /\
  fs (discard tmp w2) !! tmp = None.
Proof.
  intros Hsel Hq Htarget Hasc Hres Hext tmp Hpng Hc.
  split; [|apply discard_lookup].
  unfold _run_estimation_in_thread, try_finally. rewrite Hsel.
  unfold try_except.
  replace ((1 <=? form_quality fm) && (form_quality fm <=? 100)) with true
    by (symmetry; apply andb_true_iff; rewrite !Z.leb_le; lia).
  cbn [negb].
  assert (Hbody :
    estimation_body f_path fm (estimation_start w)
    = (inr tt, EstFrame w2 (Some [tmp]) [SizeBytes (Z.of_nat (length c))])).
  { unfold estimation_body. unfold bind at 1. unfold lift_e at 1.
    cbn [estimation_start ef_world ef_temp_files ef_scheduled]. rewrite Htarget.
    unfold bind at 1. unfold bind_temp_files at 1. cbn [ef_world ef_temp_files ef_scheduled].
    unfold bind at 1. unfold lift_e at 1. cbn [ef_world ef_temp_files ef_scheduled].
    unfold _safe_copy_for_processing. rewrite Hasc. unfold ret at 1.
    unfold bind at 1. unfold ret at 1.
    rewrite Hres. cbn [andb]. unfold bind at 1. unfold ret at 1.
    rewrite Hext, String.eqb_refl. cbn [negb].
    unfold bind at 1. unfold ret at 1.
    unfold bind at 1. unfold lift_e at 1. cbn [ef_world ef_temp_files ef_scheduled].
    rewrite NamedTemporaryFile_tmp. fold tmp.
    unfold bind at 1. unfold add_temp at 1. cbn [ef_world ef_temp_files ef_scheduled app].
    unfold bind at 1. unfold lift_e at 1. cbn [ef_world ef_temp_files ef_scheduled].
    unfold estimation_encode.
    change (is_jpeg "png") with false. cbv iota.
    change (String.eqb "png" "png") with true. cbv iota zeta.
    fold (estimation_quality_range fm). rewrite Hpng.
    rewrite String.eqb_refl.
    unfold bind, lift_e, os_path_getsize, schedule.
    cbn [ef_world ef_temp_files ef_scheduled]. rewrite Hc. reflexivity. }
  rewrite Hbody. unfold estimation_cleanup. cbn [ef_temp_files].
  rewrite estimation_cleanup_run. reflexivity.
Qed.

End Estimation.

(** * The further properties at concrete inputs *)

Section QuietInstances.
#[local] Existing Instance P99.

Lemma already_optimized_iff_pngquant_98_99_witness :
  fst (_run_tool ["/app/tools/pngquant.exe"; "/pics/a.png"] pictures)
    = inr (true, "Already Optimized").
Proof.
  apply (proj2 (already_optimized_iff_pngquant_98_99
                  ["/app/tools/pngquant.exe"; "/pics/a.png"] pictures)).
  split; [reflexivity|]. exists 99, [], []. split; [reflexivity|]. now right.
Defined.

Lemma run_tool_success_iff_witness :
  exists message,
    fst (_run_tool ["/app/tools/cjpeg.exe"; "/pics/a.png"] pictures) = inr (true, message).
Proof.
  apply (proj2 (run_tool_success_iff ["/app/tools/cjpeg.exe"; "/pics/a.png"] pictures)).
  exists 0, [], []. split; [reflexivity|]. now left.
Defined.

Lemma compress_jpeg_without_tool_witness :
  exists w',
    compress_jpeg "/pics/a.jpg" "/tmp/out.jpg" 75 (world0 ∅)
      = (inr (false, "cjpeg.exe not found."), w') /\
    fs w' = fs (world0 ∅) /\ commands w' = commands (world0 ∅) /\
    error_log w' = ["Tool not found at expected path: /app/tools/cjpeg.exe"] /\
    warnings w' = ["cjpeg.exe not found. This feature will be disabled."].
Proof.
  exact (compress_jpeg_without_tool "/pics/a.jpg" "/tmp/out.jpg" 75 (world0 ∅) eq_refl).
Defined.

Lemma compress_jpeg_runs_cjpeg_witness :
  exists r w',
    compress_jpeg "/pics/a.jpg" "/tmp/out.jpg" 75 pictures = (inr r, w') /\
    commands w' =
      [["/app/tools/cjpeg.exe"; "-quality"; "75"; "-progressive"; "-outfile";
        "/tmp/out.jpg"; "/pics/a.jpg"]] /\
    fs w' = fs pictures /\
    (fst r = true <-> exists stdout stderr, Completed 0 [] [] = Completed 0 stdout stderr).
Proof.
  refine (compress_jpeg_runs_cjpeg "/pics/a.jpg" "/tmp/out.jpg" 75 pictures _ _).
  - eexists. vm_compute. reflexivity.
  - vm_compute. discriminate.
Defined.

Lemma sized_encoder_writes_only_output : writes_only_output sized_encoder.
Proof. intros i o q w p Hne. cbn. now apply lookup_insert_ne. Qed.

Lemma pictures_probe_names_free : probe_names_free (fs pictures).
Proof.
  intros n. unfold pictures, world0, installed. cbn [fs].
  assert (Hstart : exists r, path_join gettempdir ("tmp" ++ random_name n ++ ".tmp")
                             = String "/"%char (String "t"%char r))
    by (eexists; reflexivity).
  destruct Hstart as [r ->].
  repeat (rewrite lookup_insert_ne by discriminate).
  first [apply lookup_empty | apply lookup_singleton_ne; discriminate].
Qed.

Lemma find_best_quality_restores_files_witness :
  fs (snd (find_best_quality "/pics/a.jpg" 5 sized_encoder pictures)) = fs pictures.
Proof.
  exact (find_best_quality_restores_files "/pics/a.jpg" 5 sized_encoder pictures
           sized_encoder_writes_only_output pictures_probe_names_free).
Defined.

Lemma compress_png_needs_both_tools_witness :
  let w := world0 {[ "/app/tools/pngquant.exe" := []; "/pics/a.png" := [x01] ]} in
  exists w',
    compress_png "/pics/a.png" "/tmp/out.png" "65-75" false w
      = (inr (false, "PNG tools (pngquant/zopflipng) not found."), w') /\
    fs w' = fs w /\ commands w' = commands w.
Proof.
  intros w.
  refine (compress_png_needs_both_tools "/pics/a.png" "/tmp/out.png" "65-75" false w _).
  right. vm_compute. reflexivity.
Defined.

Lemma compress_png_removes_intermediate_witness :
  exists r w',
    compress_png "/pics/a.png" "/tmp/out.png" "65-75" true pictures = (inr r, w') /\
    fs w' !! "/tmp/quant_out.png" = None.
Proof.
  refine (compress_png_removes_intermediate "/pics/a.png" "/tmp/out.png" "65-75" pictures _ _);
    eexists; vm_compute; reflexivity.
Defined.

End QuietInstances.

Section SizedEncoder.
#[local] Existing Instance P_sized.

Lemma digits_pretty q : 1 <= q <= 100 -> digits (pretty q) = Z.to_nat q.
Proof.
  intros Hq.
  assert (Hall : forallb (fun n => Nat.eqb (digits (pretty (Z.of_nat n))) n) (seq 1 100) = true)
    by (vm_compute; reflexivity).
  rewrite forallb_forall in Hall. specialize (Hall (Z.to_nat q)).
  rewrite Z2Nat.id in Hall by lia. apply Nat.eqb_eq, Hall. apply in_seq. lia.
Qed.

(** [compress_jpeg] with that tool installed. *)
Lemma sized_cjpeg_run in_path out_path q w :
  cjpeg_installed w ->
  compress_jpeg in_path out_path q w =
    (inr (true, "Success"),
     World (<[out_path := repeat x00 (100 * digits (pretty q))]> (fs w))
           (error_log w) (warnings w) (status_line w)
           (commands w ++ [["/app/tools/cjpeg.exe"; "-quality"; pretty q; "-progressive";
                            "-outfile"; out_path; in_path]])
           (entropy w)).
Proof.
  intros Hin. unfold compress_jpeg. unfold bind at 1.
  assert (Hfound : is_Some (fs w !! tool_path "cjpeg.exe"))
    by (change (tool_path "cjpeg.exe") with "/app/tools/cjpeg.exe"; exact Hin).
  rewrite (get_tool_path_found "cjpeg.exe" w Hfound). reflexivity.
Qed.

Lemma fits_5k_downward_closed : downward_closed fits_5k.
Proof.
  intros q q' Hle. unfold fits_5k. rewrite !Z.leb_le. lia.
Qed.

(** With that tool, the probes of [compress_jpeg] meet a budget of 5 KB
    exactly up to quality 51, in every world in which the tool is
    installed. *)
Lemma sized_cjpeg_governed :
  governed_by cjpeg_installed fits_5k "/pics/a.jpg" (5 * 1024) compress_jpeg.
Proof.
  intros q w Hq Hin.
  assert (Hname : exists r, temp_file_of ".tmp" w = String "/"%char (String "t"%char r))
    by (eexists; reflexivity).
  destruct Hname as [r Hname].
  assert (Hin' : cjpeg_installed (created ".tmp" w)).
  { unfold cjpeg_installed. cbn [created fs]. rewrite Hname.
    rewrite lookup_insert_ne by discriminate. exact Hin. }
  rewrite (sized_cjpeg_run _ _ _ _ Hin'). eexists _, _. split; [reflexivity|]. split.
  - unfold fits, size_at, fits_5k. cbn [fs fst]. rewrite lookup_insert_eq.
    cbn [fmap option_fmap option_map andb].
    rewrite repeat_length, digits_pretty, Nat2Z.inj_mul, Z2Nat.id by lia. reflexivity.
  - unfold cjpeg_installed, discard. cbn [fs]. rewrite lookup_insert_eq.
    rewrite bool_decide_eq_true_2 by eauto. cbn [set_fs fs created].
    rewrite Hname. rewrite lookup_delete_ne by discriminate.
    rewrite !lookup_insert_ne by discriminate. exact Hin.
Qed.

Lemma find_best_quality_is_exact_witness :
  exists q w',
    find_best_quality "/pics/a.jpg" 5 compress_jpeg pictures = (inr q, w') /\
    ((fits_5k q = true /\ 1 <= q <= 100 /\
      forall q', 1 <= q' <= 100 -> fits_5k q' = true -> q' <= q) \/
     (q = 1 /\ forall q', 1 <= q' <= 100 -> fits_5k q' = false)).
Proof.
  refine (find_best_quality_is_exact cjpeg_installed fits_5k "/pics/a.jpg" 5 compress_jpeg
            pictures sized_cjpeg_governed fits_5k_downward_closed _).
  eexists. vm_compute. reflexivity.
Defined.

Example cjpeg_search_finds_51 :
  fst (find_best_quality "/pics/a.jpg" 5 compress_jpeg pictures) = inr 51.
Proof. vm_compute. reflexivity. Qed.

End SizedEncoder.

Section FailingQuantizer.
#[local] Existing Instance P1.

Lemma compress_png_stops_at_quantizer_failure_witness :
  exists w',
    compress_png "/pics/a.png" "/tmp/out.png" "65-75" true pictures
      = (inr (false, ("Error from pngquant.exe (code 1):" ++ newline
                      ++ "No output from tool.")%string), w') /\
    commands w' =
      [p_command "/app/tools/pngquant.exe" "65-75" "/tmp/quant_out.png" "/pics/a.png"].
Proof.
  refine (compress_png_stops_at_quantizer_failure "/pics/a.png" "/tmp/out.png" "65-75" true
            pictures _ (snd (_run_tool (p_command "/app/tools/pngquant.exe" "65-75"
                                          "/tmp/quant_out.png" "/pics/a.png") pictures))
            _ _ _).
  - eexists. vm_compute. reflexivity.
  - eexists. vm_compute. reflexivity.
  - vm_compute. reflexivity.
Defined.

End FailingQuantizer.

Section WorkingQuantizer.
#[local] Existing Instance P0.

Lemma compress_png_after_quantizer_success_witness :
  let quant := p_command "/app/tools/pngquant.exe" "65-75" "/tmp/out.png" "/pics/a.png" in
  compress_png "/pics/a.png" "/tmp/out.png" "65-75" false pictures
    = (inr (true, "Success"), snd (_run_tool quant pictures)).
Proof.
  intros quant.
  refine (proj1 (compress_png_after_quantizer_success "/pics/a.png" "/tmp/out.png" "65-75"
                   false pictures (snd (_run_tool quant pictures)) _ _ _) eq_refl).
  - eexists. vm_compute. reflexivity.
  - eexists. vm_compute. reflexivity.
  - vm_compute. reflexivity.
Defined.

(** A PNG kept as PNG: the quantizer's output goes to "/pics/a-tiny.png". *)
Lemma success_moves_output_to_final_path_witness :
  exists w',
    process_file "/pics/a.png" defaults pictures
      = (inr (true, "'a.png' compressed to PNG."), w') /\
    fs w' = <["/pics/a-tiny.png" := []]>
              (delete "/tmp/tmp0.png" (<["/tmp/tmp0.png" := []]> (fs pictures))) /\
    fs w' !! "/pics/a-tiny.png" = Some [] /\
    ("/tmp/tmp0.png" <> "/pics/a-tiny.png" -> fs w' !! "/tmp/tmp0.png" = None).
Proof.
  refine (success_moves_output_to_final_path "/pics/a.png" defaults pictures
            (Naming "a.png" "a" ".png" false "png" false) pictures
            "'a.png' compressed to PNG."
            (snd (dispatch defaults (Naming "a.png" "a" ".png" false "png" false)
                    "/pics/a.png" "/tmp/tmp0.png" (created ".png" pictures)))
            [] _ _ _ _ _ _ _ _ _).
  - reflexivity.
  - reflexivity.
  - apply Nat.leb_le. reflexivity.
  - repeat split.
  - vm_compute. reflexivity.
  - vm_compute. discriminate.
  - vm_compute. reflexivity.
  - vm_compute. reflexivity.
  - vm_compute. reflexivity.
Defined.

(** The same file sent to a folder that does not exist: the move raises,
    the call fails and the temporary output is removed. *)
Example missing_output_directory_is_reported :
  let o := Options None None None (Some "/out") None None None None None None None None in
  fst (process_file "/pics/a.png" o pictures)
    = inr (false, "An unexpected error occurred: /out/a-tiny.png") /\
  fs (snd (process_file "/pics/a.png" o pictures)) = fs pictures.
Proof. split; vm_compute; reflexivity. Qed.

End WorkingQuantizer.

Section OpaqueInstances.
#[local] Existing Instance P_opaque.

Lemma is_png_fully_opaque_iff_witness :
  fst (is_png_fully_opaque "/pics/a.png" pictures) = inr true.
Proof.
  apply (proj2 (is_png_fully_opaque_iff "/pics/a.png" pictures)).
  exists [x01], (rgba [255; 255]), [255; 255].
  repeat split; try reflexivity. repeat constructor; lia.
Defined.

Lemma estimate_and_compression_disagree_on_format_witness :
  let o := Options None (Some "WEBP") (Some true) None None None None None None None None None in
  fst (estimation_target "/pics/a.png" (form_of 75 "WEBP" true) pictures) = inr "jpeg" /\
  exists nm w1,
    derive_target "/pics/a.png" o pictures = (inr nm, w1) /\ target_format nm = "webp".
Proof.
  intros o.
  refine (estimate_and_compression_disagree_on_format "/pics/a.png" (form_of 75 "WEBP" true)
            o pictures _ _ _ _).
  - reflexivity.
  - reflexivity.
  - vm_compute. reflexivity.
  - vm_compute. discriminate.
Defined.

End OpaqueInstances.

Section MoreQuietInstances.
#[local] Existing Instance P99.

Lemma safe_copy_keeps_the_bytes_witness :
  let safe_path := ("/tmp/temp_0.png")%string in
  exists w',
    _safe_copy_for_processing accented accented_pictures
      = (inr (safe_path, Some safe_path), w') /\
    fs w' = <[safe_path := [x02]]> (fs accented_pictures) /\
    fs w' !! accented = Some [x02] /\ commands w' = commands accented_pictures.
Proof.
  intros safe_path.
  refine (proj2 (safe_copy_keeps_the_bytes accented accented_pictures) _ [x02] _ _ _).
  - reflexivity.
  - vm_compute. reflexivity.
  - vm_compute. discriminate.
  - vm_compute. reflexivity.
Defined.

(** Asking for JPEG when no image can be decoded: the format bridge
    raises and the call fails. *)
Lemma failure_removes_temp_output_witness :
  let o := Options None (Some "JPEG") None None None None None None None None None None in
  fs (snd (process_file "/pics/a.png" o pictures)) !! "/tmp/tmp0.jpeg" = None.
Proof.
  intros o.
  refine (failure_removes_temp_output "/pics/a.png" o pictures
            (Naming "a.png" "a" ".png" false "jpeg" true) pictures
            "An unexpected error occurred: cannot identify image file"
            (snd (process_file "/pics/a.png" o pictures)) _ _ _).
  - reflexivity.
  - reflexivity.
  - vm_compute. reflexivity.
Defined.

Lemma process_file_removes_tracked_files_witness :
  let o := Options None (Some "JPEG") None None None None None None None None None None in
  fs (snd (process_file "/pics/a.png" o pictures)) !! "/tmp/tmp0.jpeg" = None.
Proof.
  intros o.
  refine (process_file_removes_tracked_files "/pics/a.png" o pictures
            (Naming "a.png" "a" ".png" false "jpeg" true) pictures
            (inl (OtherError "cannot identify image file"))
            (World (<["/tmp/tmp0.jpeg" := []]> (fs pictures)) [] [] [] [] 2)
            ["/tmp/tmp0.jpeg"]
            (false, "An unexpected error occurred: cannot identify image file")
            (snd (process_file "/pics/a.png" o pictures)) _ _ _ _ "/tmp/tmp0.jpeg" _).
  - reflexivity.
  - reflexivity.
  - vm_compute. reflexivity.
  - vm_compute. reflexivity.
  - apply list_elem_of_singleton. reflexivity.
Defined.

Lemma size_mode_without_target_size_witness :
  let o := Options None None None None None None None None None (Some "size") None None in
  exists w',
    process_file "/pics/b.jpg" o pictures
      = (inr (false, "An unexpected error occurred: 'target_size'"), w') /\
    fs w' = fs pictures /\ commands w' = commands pictures.
Proof.
  intros o.
  refine (size_mode_without_target_size "/pics/b.jpg" o pictures
            (Naming "b.jpg" "b" ".jpg" false "jpg" false) pictures _ _ _ _ _ _ _).
  - reflexivity.
  - reflexivity.
  - repeat split.
  - left. reflexivity.
  - reflexivity.
  - reflexivity.
  - vm_compute. reflexivity.
Defined.

Lemma unsupported_format_is_rejected_witness :
  exists w',
    process_file "/pics/c.gif" defaults pictures
      = (inr (false, "Unsupported file type"), w') /\
    fs w' = fs pictures /\ commands w' = commands pictures.
Proof.
  refine (unsupported_format_is_rejected "/pics/c.gif" defaults pictures
            (Naming "c.gif" "c" ".gif" false "gif" false) pictures _ _ _ _ _ _).
  - reflexivity.
  - reflexivity.
  - apply Nat.leb_le. reflexivity.
  - repeat split.
  - rewrite !elem_of_cons. intros [E|[E|[E|[E|[E|E]]]]];
      try discriminate E. inversion E.
  - vm_compute. reflexivity.
Defined.

Lemma mode_matters_to_jpeg_and_webp_only_witness :
  let o' := Options None None None None None None None None None (Some "size") (Some 50) None in
  process_file "/pics/a.png" o' pictures = process_file "/pics/a.png" defaults pictures.
Proof.
  intros o'.
  refine (mode_matters_to_jpeg_and_webp_only "/pics/a.png" defaults o' pictures
            (Naming "a.png" "a" ".png" false "png" false) pictures _ _ _ _).
  - repeat split.
  - reflexivity.
  - reflexivity.
  - discriminate.
Defined.

Lemma start_compression_reports_every_file_witness :
  exists success_msgs error_msgs d w',
    start_compression ["/pics/a.png"; "/pics/c.gif"] (inr defaults) pictures
      = (inr (success_msgs, error_msgs, d), w') /\
    (length success_msgs + length error_msgs = 2)%nat /\
    (error_msgs <> [] -> exists report, d = ShowError report_title report) /\
    (error_msgs = [] -> exists report, d = ShowInfo report_title report).
Proof.
  refine (start_compression_reports_every_file ["/pics/a.png"; "/pics/c.gif"] defaults
            pictures _ _).
  - discriminate.
  - intros f Hin. rewrite !elem_of_cons in Hin.
    destruct Hin as [->|[->|Hin]]; [| |inversion Hin];
      unfold nameable; apply Nat.leb_le; vm_compute; reflexivity.
Defined.

Lemma main_headless_accounts_for_every_file_witness :
  exists success_count error_msgs d w',
    main_headless ["/pics/a.png"; "/pics/c.gif"] pictures
      = (inr (success_count, error_msgs, d), w') /\
    (success_count + length error_msgs = 2)%nat /\
    (error_msgs <> [] -> exists report, d = ShowError report_title report) /\
    (error_msgs = [] -> ["/pics/a.png"; "/pics/c.gif"] <> [] ->
     d = ShowInfo success_title (headless_success 2)).
Proof.
  refine (main_headless_accounts_for_every_file ["/pics/a.png"; "/pics/c.gif"] pictures _).
  intros f Hin. rewrite !elem_of_cons in Hin.
  destruct Hin as [->|[->|Hin]]; [| |inversion Hin];
    apply Nat.leb_le; vm_compute; reflexivity.
Defined.

(** A form whose width entry holds no number: reading the options raises,
    and [start_compression] raises before it processes a file. *)
Example unreadable_form_stops_the_compression :
  start_compression ["/pics/a.png"] (inl (OtherError "expected floating-point number")) pictures
  = (inl (OtherError "expected floating-point number"), pictures).
Proof. reflexivity. Qed.

Example batch_goes_on_after_a_failure :
  fst (start_compression ["/pics/c.gif"; "/pics/a.png"] (inr defaults) pictures)
  = inr (["'a.png' is already optimized."], ["Unsupported file type"],
         ShowError "Compression Report"
           ("Successfully processed 1 file(s):" ++ newline ++ "'a.png' is already optimized."
            ++ newline ++ newline ++ "Encountered 1 error(s):" ++ newline
            ++ "Unsupported file type")).
Proof. vm_compute. reflexivity. Qed.

Lemma estimation_without_input_raises_witness :
  _run_estimation_in_thread (form_of 0 "Keep Original" false) (estimation_start pictures)
    = (inl unbound_temp_files, EstFrame pictures None [SizeError]).
Proof.
  refine (estimation_without_input_raises (form_of 0 "Keep Original" false) pictures _).
  right. left. reflexivity.
Defined.

Lemma finished_estimation_leaves_no_temp_file_witness :
  let s' := snd (_run_estimation_in_thread (form_of 75 "Keep Original" false)
                   (estimation_start pictures)) in
  exists l, ef_temp_files s' = Some l /\
            forall f, f ∈ l -> fs (ef_world s') !! f = None.
Proof.
  intros s'.
  refine (finished_estimation_leaves_no_temp_file (form_of 75 "Keep Original" false)
            (estimation_start pictures) s' _).
  vm_compute. reflexivity.
Defined.

(** The file that [process_file] reports as already optimized while
    leaving its temporary output behind: the estimation of the same file
    measures the input and removes its temporary output. *)
Lemma estimation_of_optimized_png_measures_the_input_witness :
  let fm := form_of 75 "Keep Original" false in
  let w2 := snd (compress_png "/pics/a.png" "/tmp/tmp0.tmp" "65-75" false
                   (created ".tmp" pictures)) in
  _run_estimation_in_thread fm (estimation_start pictures)
    = (inr tt, EstFrame (discard "/tmp/tmp0.tmp" w2) (Some ["/tmp/tmp0.tmp"]) [SizeBytes 1]) /\
  fs (discard "/tmp/tmp0.tmp" w2) !! "/tmp/tmp0.tmp" = None.
Proof.
  intros fm w2.
  refine (estimation_of_optimized_png_measures_the_input fm pictures "/pics/a.png"
            pictures w2 [x01] _ _ _ _ _ _ _ _).
  - reflexivity.
  - cbn. lia.
  - reflexivity.
  - reflexivity.
  - reflexivity.
  - reflexivity.
  - vm_compute. reflexivity.
  - vm_compute. reflexivity.
Defined.

End MoreQuietInstances.
